(** * Analytics service: the event aggregation pipeline

    A shallow embedding of the aggregation core of the analytics service
    (utils/dataAggregator.js, utils/scheduler.js,
    controllers/metricsController.js and the key generator of
    utils/cache.js) together with the properties of its period calculator,
    its statistical reducers, its assemblers, its handlers and its
    scheduler.

    Conventions of the embedding:
    - a JavaScript [Date] is its time value, an integer number of
      milliseconds since the Unix epoch ([Z]); where the range of [Date]
      matters, an invalid date is [None];
    - a JavaScript number is either an exact rational kept in lowest terms,
      [NaN] or a signed infinity; the rounding of doubles is not modelled;
    - a thrown exception is the [Throw] outcome of a state-passing
      computation, the state being kept as it was when the exception left;
    - the libraries the code calls (moment, MongoDB/Mongoose, node-cron,
      Express) are modelled by what they compute for the calls made here. *)

From Stdlib Require Import ZArith QArith Qround Lia List Bool Sorting.Sorted
  Sorting.Permutation.
From Stdlib Require Structures.OrderedTypeEx.
From stdpp Require Import base option list gmap strings.

Import ListNotations.
Open Scope string_scope.
Open Scope Z_scope.

Set Default Proof Using "Type".

(** ** Exceptions *)

Inductive JsError :=
| Error (message : string)
| TypeError (message : string).

Definition error_message (e : JsError) : string :=
  match e with Error m => m | TypeError m => m end.

Inductive Outcome (A : Type) :=
| Ok (a : A)
| Throw (e : JsError).
Arguments Ok {A} a.
Arguments Throw {A} e.

(** ** JavaScript numbers *)

Module JS.

Inductive number :=
| Num (q : Q)
| NaN
| Infinity (negative : bool).

Definition ofZ (z : Z) : number := Num (inject_Z z).
Definition ofN (n : N) : number := ofZ (Z.of_N n).

Definition qsign_neg (q : Q) : bool := (Qnum q <? 0)%Z.
Definition qzero (q : Q) : bool := (Qnum q =? 0)%Z.

(** [a + b] *)
Definition add (a b : number) : number :=
  match a, b with
  | Num x, Num y => Num (Qred (x + y))
  | NaN, _ | _, NaN => NaN
  | Infinity s, Infinity s' => if Bool.eqb s s' then Infinity s else NaN
  | Infinity s, _ | _, Infinity s => Infinity s
  end.

(** [a - b] *)
Definition neg (a : number) : number :=
  match a with
  | Num x => Num (Qred (- x))
  | NaN => NaN
  | Infinity s => Infinity (negb s)
  end.

Definition sub (a b : number) : number := add a (neg b).

(** [a * b] *)
Definition mul (a b : number) : number :=
  match a, b with
  | Num x, Num y => Num (Qred (x * y))
  | NaN, _ | _, NaN => NaN
  | Infinity s, Infinity s' => Infinity (xorb s s')
  | Infinity s, Num y | Num y, Infinity s =>
      if qzero y then NaN else Infinity (xorb s (qsign_neg y))
  end.

(** [a / b]: a zero divisor gives [NaN] for [0 / 0] and an infinity
    otherwise, never an exception. *)
Definition div (a b : number) : number :=
  match a, b with
  | Num x, Num y =>
      if qzero y then (if qzero x then NaN else Infinity (qsign_neg x))
      else Num (Qred (x / y))
  | NaN, _ | _, NaN => NaN
  | Infinity _, Infinity _ => NaN
  | Infinity s, Num y => Infinity (xorb s (qsign_neg y))
  | Num _, Infinity _ => Num 0
  end.

(** [a > 0] *)
Definition gt0 (a : number) : bool :=
  match a with
  | Num x => (0 <? Qnum x)%Z
  | NaN => false
  | Infinity s => negb s
  end.

(** Truthiness of a number: [0] and [NaN] are falsy. *)
Definition truthy (a : number) : bool :=
  match a with
  | Num x => negb (qzero x)
  | NaN => false
  | Infinity _ => true
  end.

Definition is_finite (a : number) : Prop :=
  match a with Num _ => True | _ => False end.

(** A value read from an array or a document: a number, [null] or
    [undefined]. *)
Inductive value :=
| VNum (n : number)
| VNull
| VUndefined.

(** ToNumber *)
Definition toNumber (v : value) : number :=
  match v with
  | VNum n => n
  | VNull => Num 0
  | VUndefined => NaN
  end.

(** [v || 0], used where the result is stored as a number *)
Definition orZero (v : value) : value :=
  match v with
  | VNum n => if truthy n then VNum n else VNum (Num 0)
  | VNull | VUndefined => VNum (Num 0)
  end.

(** [Math.ceil] on a finite number *)
Definition ceil (a : number) : number :=
  match a with
  | Num x => ofZ (Qceiling x)
  | other => other
  end.

End JS.

(** ** moment: calendar arithmetic in the process time zone

    Here the time zone of the process keeps one offset from UTC, given in
    minutes as moment's [utcOffset()] reports it; [0] is UTC. The module
    [Local] below has the zones whose clocks change and the dates out of
    range; in a zone that keeps one offset the two agree
    ([fixed_zone_agrees]). *)

Module Moment.

Definition MS_PER_MINUTE : Z := 60000.
Definition MS_PER_DAY : Z := 86400000.

(** Day number to proleptic Gregorian civil date (year, month 1..12,
    day 1..31), day 0 being 1970-01-01. *)
Definition civil_from_days (z : Z) : Z * Z * Z :=
  let z := z + 719468 in
  let era := z / 146097 in
  let doe := z - era * 146097 in
  let yoe := (doe - doe / 1460 + doe / 36524 - doe / 146096) / 365 in
  let y := yoe + era * 400 in
  let doy := doe - (365 * yoe + yoe / 4 - yoe / 100) in
  let mp := (5 * doy + 2) / 153 in
  let d := doy - (153 * mp + 2) / 5 + 1 in
  let m := if mp <? 10 then mp + 3 else mp - 9 in
  (if m <=? 2 then y + 1 else y, m, d).

(** Civil date to day number. *)
Definition days_from_civil (y m d : Z) : Z :=
  let y := if m <=? 2 then y - 1 else y in
  let era := y / 400 in
  let yoe := y - era * 400 in
  let doy := (153 * (if 2 <? m then m - 3 else m + 9) + 2) / 5 + d - 1 in
  let doe := yoe * 365 + yoe / 4 - yoe / 100 + doy in
  era * 146097 + doe - 719468.

(** ECMAScript MakeDay: months are 0-based and overflow into the year,
    the day of the month overflows into the following days. *)
Definition MakeDay (year month date : Z) : Z :=
  let ym := year + month / 12 in
  let mn := month mod 12 in
  days_from_civil ym (mn + 1) 1 + date - 1.

Inductive unit_of_time := Day | Week | Month | Quarter | Year.

Section Zone.
Variable utcOffset : Z.

Definition localTime (t : Z) : Z := t + utcOffset * MS_PER_MINUTE.
Definition localDay (t : Z) : Z := localTime t / MS_PER_DAY.

(** [m.year()], [m.month()] (0-based), [m.date()] *)
Definition year (t : Z) : Z := fst (fst (civil_from_days (localDay t))).
Definition month (t : Z) : Z := snd (fst (civil_from_days (localDay t))) - 1.
Definition date (t : Z) : Z := snd (civil_from_days (localDay t)).

(** [m.weekday()] in the default locale, whose week starts on Sunday:
    the day of the week, 0 for Sunday. 1970-01-01 was a Thursday. *)
Definition weekday (t : Z) : Z := (localDay t + 4) mod 7.

(** [new Date(y, m, d).valueOf()]: local midnight of that date *)
Definition startOfDate (y m d : Z) : Z :=
  MakeDay y m d * MS_PER_DAY - utcOffset * MS_PER_MINUTE.

(** [moment(t).startOf(u)] *)
Definition startOf (u : unit_of_time) (t : Z) : Z :=
  match u with
  | Year => startOfDate (year t) 0 1
  | Quarter => startOfDate (year t) (month t - month t mod 3) 1
  | Month => startOfDate (year t) (month t) 1
  | Week => startOfDate (year t) (month t) (date t - weekday t)
  | Day => startOfDate (year t) (month t) (date t)
  end.

(** [moment(t).endOf(u)]: the last millisecond of the unit *)
Definition endOf (u : unit_of_time) (t : Z) : Z :=
  match u with
  | Year => startOfDate (year t + 1) 0 1 - 1
  | Quarter => startOfDate (year t) (month t - month t mod 3 + 3) 1 - 1
  | Month => startOfDate (year t) (month t + 1) 1 - 1
  | Week => startOfDate (year t) (month t) (date t - weekday t + 7) - 1
  | Day => startOfDate (year t) (month t) (date t + 1) - 1
  end.

End Zone.

End Moment.

(** ** Notions used to state the calendar properties *)

Module Calendar.
Import Moment.

(** The first day of the 400-year cycle that holds day [0], and the
    number of days of a cycle *)
Definition cycleStart : Z := -719468.
Definition cycleDays : Z := 146097.

(** What the period calculator needs of a day number [n]: its civil date
    leads back to it, and the first days of its month, quarter and year
    and of the next ones enclose it. *)
Definition enclosed (n : Z) : Prop :=
  let '(y, m, d) := civil_from_days n in
  1 <= m <= 12 /\ 1 <= d /\
  MakeDay y (m - 1) d = n /\
  n < MakeDay y m 1 /\
  MakeDay y ((m - 1) - (m - 1) mod 3) 1 <= n < MakeDay y ((m - 1) - (m - 1) mod 3 + 3) 1 /\
  MakeDay y 0 1 <= n < MakeDay (y + 1) 0 1.

Definition enclosedb (n : Z) : bool :=
  let '(y, m, d) := civil_from_days n in
  (1 <=? m) && (m <=? 12) && (1 <=? d) &&
  (MakeDay y (m - 1) d =? n) &&
  (n <? MakeDay y m 1) &&
  (MakeDay y ((m - 1) - (m - 1) mod 3) 1 <=? n) &&
  (n <? MakeDay y ((m - 1) - (m - 1) mod 3 + 3) 1) &&
  (MakeDay y 0 1 <=? n) && (n <? MakeDay (y + 1) 0 1).

(** [p] holds of the [k] day numbers from [from] on. *)
Fixpoint allFrom (p : Z -> bool) (from : Z) (k : nat) : bool :=
  match k with
  | O => true
  | S k' => p from && allFrom p (from + 1) k'
  end.

(** The day number of the first day of the month [k] months after
    January of year 0 *)
Definition monthStart (k : Z) : Z := MakeDay 0 k 1.

(** The months counted from January of year 0 up to the month of day [n] *)
Definition monthIndex (n : Z) : Z :=
  let '(y, m, d) := civil_from_days n in 12 * y + m - 1.

(** Month [k] has 28 to 31 days, a calendar quarter that starts with it 90
    to 92 and a calendar year that starts with it 365 or 366. *)
Definition spans (k : Z) : Prop :=
  28 <= monthStart (k + 1) - monthStart k <= 31 /\
  (k mod 3 = 0 -> 90 <= monthStart (k + 3) - monthStart k <= 92) /\
  (k mod 12 = 0 -> 365 <= monthStart (k + 12) - monthStart k <= 366).

Definition spansb (k : Z) : bool :=
  (28 <=? monthStart (k + 1) - monthStart k) &&
  (monthStart (k + 1) - monthStart k <=? 31) &&
  (if k mod 3 =? 0
   then (90 <=? monthStart (k + 3) - monthStart k) &&
        (monthStart (k + 3) - monthStart k <=? 92)
   else true) &&
  (if k mod 12 =? 0
   then (365 <=? monthStart (k + 12) - monthStart k) &&
        (monthStart (k + 12) - monthStart k <=? 366)
   else true).

(** The months of a window of each unit, for the units made of months *)
Definition monthsOf (u : unit_of_time) : Z :=
  match u with
  | Month => 1
  | Quarter => 3
  | Year => 12
  | _ => 0
  end.

(** Day numbers of the first day of the window of unit [u] that holds day
    [n], and of the first day of the next window *)
Definition firstDay (u : unit_of_time) (n : Z) : Z :=
  match u with
  | Day => n
  | Week => n - (n + 4) mod 7
  | _ => monthStart (monthIndex n - monthIndex n mod monthsOf u)
  end.

Definition nextFirstDay (u : unit_of_time) (n : Z) : Z :=
  match u with
  | Day => n + 1
  | Week => n - (n + 4) mod 7 + 7
  | _ => monthStart (monthIndex n - monthIndex n mod monthsOf u + monthsOf u)
  end.

(** Midnight in the process time zone *)
Definition isMidnight (utcOffset s : Z) : Prop :=
  localTime utcOffset s mod MS_PER_DAY = 0.

(** Midnight at the start of a Sunday *)
Definition isSundayMidnight (utcOffset s : Z) : Prop :=
  isMidnight utcOffset s /\ weekday utcOffset s = 0.

End Calendar.

(** ** moment in a time zone whose clocks change

    [Moment] above is moment in a process time zone that keeps one UTC
    offset. Here the zone is any zone, and a [Date] is a time value within
    8.64e15 ms of the epoch or is invalid ([None]). *)

Module Local.
Import Moment.

(** A time zone: the UTC offset, in minutes, in force at an instant (what
    [m.utcOffset()] reports), and the offset that [new Date(y, m, d)]
    takes for a local time value (ECMAScript's LocalTZA(t, false): for a
    local time that a clock change skips or repeats, the offset in force
    before the change). *)
Record Zone := {
  offsetAt : Z -> Z;
  offsetOfLocal : Z -> Z
}.

(** The zone that keeps the offset [k] *)
Definition fixed (k : Z) : Zone :=
  {| offsetAt := fun _ => k; offsetOfLocal := fun _ => k |}.

Definition keeps (z : Zone) (k : Z) : Prop :=
  (forall t, offsetAt z t = k) /\ (forall l, offsetOfLocal z l = k).

(** America/New_York around 10 March 2024: at 07:00 UTC the clocks go from
    02:00 (UTC-5) to 03:00 (UTC-4); the local times from 02:00 to 03:00
    are skipped. *)
Definition springForward : Zone :=
  {| offsetAt := fun t => if t <? 1710054000000 then -300 else -240;
     offsetOfLocal := fun l => if l <? 1710039600000 then -300 else -240 |}.


(** The largest time value of a [Date], and TimeClip *)
Definition MAX_TIME : Z := 8640000000000000.

Definition timeClip (v : Z) : option Z :=
  if (- MAX_TIME <=? v) && (v <=? MAX_TIME) then Some v else None.

Section Zone.
Variable z : Zone.

Definition localTime (t : Z) : Z := t + offsetAt z t * MS_PER_MINUTE.
Definition localDay (t : Z) : Z := localTime t / MS_PER_DAY.

Definition year (t : Z) : Z := fst (fst (civil_from_days (localDay t))).
Definition month (t : Z) : Z := snd (fst (civil_from_days (localDay t))) - 1.
Definition date (t : Z) : Z := snd (civil_from_days (localDay t)).
Definition weekday (t : Z) : Z := (localDay t + 4) mod 7.

(** ECMAScript's UTC(l): the instant of a local time value *)
Definition utc (l : Z) : Z := l - offsetOfLocal z l * MS_PER_MINUTE.

(** [new Date(y, m, d).valueOf()] *)
Definition startOfDate (y m d : Z) : option Z :=
  timeClip (utc (MakeDay y m d * MS_PER_DAY)).

(** [moment(t).startOf(u)] *)
Definition startOf (u : unit_of_time) (t : Z) : option Z :=
  match u with
  | Year => startOfDate (year t) 0 1
  | Quarter => startOfDate (year t) (month t - month t mod 3) 1
  | Month => startOfDate (year t) (month t) 1
  | Week => startOfDate (year t) (month t) (date t - weekday t)
  | Day => startOfDate (year t) (month t) (date t)
  end.

(** [d.setTime(time - 1)] for the [time] that [startOfDate] returned *)
Definition justBefore (time : option Z) : option Z :=
  match time with
  | Some v => timeClip (v - 1)
  | None => None
  end.

(** [moment(t).endOf(u)] *)
Definition endOf (u : unit_of_time) (t : Z) : option Z :=
  match u with
  | Year => justBefore (startOfDate (year t + 1) 0 1)
  | Quarter => justBefore (startOfDate (year t) (month t - month t mod 3 + 3) 1)
  | Month => justBefore (startOfDate (year t) (month t + 1) 1)
  | Week => justBefore (startOfDate (year t) (month t) (date t - weekday t + 7))
  | Day => justBefore (startOfDate (year t) (month t) (date t + 1))
  end.

(** [moment(date).clone().startOf(u).toDate()] and the same with [endOf],
    for a [date] that may be invalid: [startOf] and [endOf] leave an
    invalid moment as it is. *)
Definition window (u : unit_of_time) (date : option Z) : option Z * option Z :=
  match date ≫= timeClip with
  | Some t => (startOf u t, endOf u t)
  | None => (None, None)
  end.

(** [_calculatePeriodDates] of utils/dataAggregator.js; [now] is the time
    value of [new Date()]. *)
Definition _calculatePeriodDates (now : Z) (period : string) (date : option Z)
  : Outcome (option Z * option Z) :=
  if String.eqb period "daily" then
    Ok (window Day date)
  else if String.eqb period "weekly" then
    Ok (window Week date)
  else if String.eqb period "monthly" then
    Ok (window Month date)
  else if String.eqb period "quarterly" then
    Ok (window Quarter date)
  else if String.eqb period "yearly" then
    Ok (window Year date)
  else if String.eqb period "all_time" then
    Ok (Some 0, Some now)
  else
    Throw (Error ("Invalid period: " ++ period)).

(** Midnight in the zone, and midnight at the start of a Sunday *)
Definition isMidnight (s : Z) : Prop := localTime s mod MS_PER_DAY = 0.

Definition isSundayMidnight (s : Z) : Prop := isMidnight s /\ weekday s = 0.

(** The local midnight that starts day [d] *)
Definition midnight (d : Z) : Z := utc (d * MS_PER_DAY).

(** Every local midnight exists, exactly once, and the local days follow
    each other in order: no clock change skips or repeats a midnight or
    takes the clock back across one. Offsets are less than a day. *)
Definition regular : Prop :=
  (forall l, - 1440 < offsetOfLocal z l < 1440) /\
  (forall d, localTime (midnight d) = d * MS_PER_DAY) /\
  (forall d t, midnight d <= t <-> d * MS_PER_DAY <= localTime t) /\
  (forall d t, localTime t = d * MS_PER_DAY -> t = midnight d).

End Zone.

(** The valid dates that are [days] days or more inside the range of
    [Date] *)
Definition inside (days : Z) (t : Z) : Prop :=
  - MAX_TIME + days * MS_PER_DAY <= t <= MAX_TIME - days * MS_PER_DAY.

End Local.


(** ** utils/logger.js

    A log entry keeps the level, the message and, of the metadata object,
    the company id. The ISO text of the date that two info messages of the
    aggregator carry is left out of the message. *)

Module Logger.

Inductive Level := info | warn | error.

Record LogEntry := {
  level : Level;
  message : string;
  meta_companyId : option string
}.

Definition entry (l : Level) (msg : string) : LogEntry :=
  {| level := l; message := msg; meta_companyId := None |}.

End Logger.

(** ** The event store (models/analyticsEvent.js)

    [eventData] is a free-form payload; the fields the aggregation reads are
    given their intended types, [None] standing for a field that is
    missing. *)

Module AnalyticsEvent.

Record EventData := {
  priority : option string;
  categoryId : option string;
  createdAt : option Z;
  score : option Z;
  escalationLevel : option Z;
  commentType : option string;
  status : option string;
  role : option string;
  sessionDuration : option Z;
  channel : option string
}.

Definition noData : EventData :=
  {| priority := None; categoryId := None; createdAt := None; score := None;
     escalationLevel := None; commentType := None; status := None;
     role := None; sessionDuration := None; channel := None |}.

Record t := {
  sourceService : string;
  eventType : string;
  eventData : EventData;
  userId : option string;
  companyId : option string;
  timestamp : Z
}.

End AnalyticsEvent.

(** ** MongoDB aggregation stages used by the reader *)

Module Mongo.
Import AnalyticsEvent.

(** The [matchCriteria] object: source service, half-open timestamp range
    [$gte]/[$lt] and, when a company is given, its id. *)
Record MatchCriteria := {
  mc_sourceService : string;
  mc_gte : Z;
  mc_lt : Z;
  mc_companyId : option string
}.

Definition matches (mc : MatchCriteria) (e : AnalyticsEvent.t) : bool :=
  bool_decide (sourceService e = mc_sourceService mc)
  && (mc_gte mc <=? timestamp e) && (timestamp e <? mc_lt mc)
  && match mc_companyId mc with
     | Some c => bool_decide (companyId e = Some c)
     | None => true
     end.

Definition match_ (mc : MatchCriteria) (es : list AnalyticsEvent.t) :=
  List.filter (matches mc) es.

(** [{ $match: { eventType: { $in: tys } } }] *)
Definition matchTypeIn (tys : list string) (es : list AnalyticsEvent.t) :=
  List.filter (fun e => bool_decide (eventType e ∈ tys)) es.

(** A record produced by [{ $group: { _id: key, count: { $sum: 1 } } }].
    The stage emits [_id] and [count] only; the consumers are JavaScript
    functions that may read any property, so the one other property they
    read, [eventData], is part of the type and is [None] (undefined) in
    every record the stage emits. *)
Record GroupItem (K : Type) := {
  _id : K;
  count : N;
  item_eventData : option EventData
}.
Arguments _id {K} _.
Arguments count {K} _.
Arguments item_eventData {K} _.

Section Group.
Context {K : Type} `{EqDecision K}.

Fixpoint bump (k : K) (acc : list (K * N)) : list (K * N) :=
  match acc with
  | [] => [(k, 1%N)]
  | (k', n) :: rest =>
      if decide (k = k') then (k', N.succ n) :: rest
      else (k', n) :: bump k rest
  end.

Definition tally (keys : list K) : list (K * N) :=
  fold_left (fun acc k => bump k acc) keys [].

(** Groups come out in order of first occurrence (any order is allowed
    by the database; the consumers do not depend on it). *)
Definition groupCount (keys : list K) : list (GroupItem K) :=
  List.map (fun kn => {| _id := fst kn; count := snd kn;
                         item_eventData := None |}) (tally keys).
End Group.

Definition qsum (l : list Z) : Z := fold_right Z.add 0 l.

(** [$avg], [$min], [$max] over the non-null values; [null] when there is
    none. *)
Definition somes {A} (l : list (option A)) : list A := omap id l.

Definition avg (l : list (option Z)) : JS.value :=
  match somes l with
  | [] => JS.VNull
  | x :: xs =>
      JS.VNum (JS.div (JS.ofZ (qsum (x :: xs)))
                      (JS.ofZ (Z.of_nat (length (x :: xs)))))
  end.

Definition min (l : list (option Z)) : JS.value :=
  match somes l with
  | [] => JS.VNull
  | x :: xs => JS.VNum (JS.ofZ (fold_right Z.min x xs))
  end.

Definition max (l : list (option Z)) : JS.value :=
  match somes l with
  | [] => JS.VNull
  | x :: xs => JS.VNum (JS.ofZ (fold_right Z.max x xs))
  end.

(** A [$project]ed duration pushed into an array: a number, or [null]
    when [$subtract] had a missing operand. *)
Definition pushed (d : option Z) : JS.value :=
  match d with
  | Some z => JS.VNum (JS.ofZ z)
  | None => JS.VNull
  end.

End Mongo.

(** ** utils/dataAggregator.js: results of the reader's queries *)

Module Reader.
Import AnalyticsEvent Mongo.

(** The single group of the response- and resolution-time queries *)
Record TimeGroup := {
  tg_average : JS.value;
  tg_min : JS.value;
  tg_max : JS.value;
  tg_values : option (list JS.value)
}.

(** The single group of the satisfaction query *)
Record ScoreGroup := {
  sg_average : JS.value;
  sg_count : N;
  sg_scores : option (list Z)
}.

(** The single group of the login-activity query *)
Record LoginGroup := {
  lg_uniqueUsers : N;
  lg_totalLogins : N;
  lg_sessionDurations : option (list (list Z))
}.

(** A group of the engagement query *)
Record EngagementItem := {
  en_id : string;
  en_uniqueUsers : N;
  en_totalCount : N
}.

Definition ofType (ty : string) (es : list AnalyticsEvent.t) :=
  List.filter (fun e => bool_decide (eventType e = ty)) es.

Definition statusCounts (mc : MatchCriteria) (es : list AnalyticsEvent.t)
  : list (GroupItem string) :=
  groupCount (List.map eventType
    (matchTypeIn ["feedback.created"; "feedback.updated";
                  "feedback.resolved"; "feedback.closed"] (match_ mc es))).

Definition priorityCounts mc es : list (GroupItem (option string)) :=
  groupCount (List.map (fun e => priority (eventData e))
    (ofType "feedback.created" (match_ mc es))).

Definition categoryCounts mc es : list (GroupItem (option string)) :=
  groupCount (List.map (fun e => categoryId (eventData e))
    (ofType "feedback.created" (match_ mc es))).

(** [{ $subtract: ['$timestamp', '$eventData.createdAt'] }] *)
Definition elapsed (e : AnalyticsEvent.t) : option Z :=
  match createdAt (eventData e) with
  | Some c => Some (timestamp e - c)
  | None => None
  end.

(** [$group] with [_id: null]: one group when a document reaches the
    stage, none otherwise. *)
Definition timeGroup (ds : list (option Z)) : list TimeGroup :=
  match ds with
  | [] => []
  | _ => [ {| tg_average := avg ds; tg_min := min ds; tg_max := max ds;
              tg_values := Some (List.map pushed ds) |} ]
  end.

Definition responseTimes mc es : list TimeGroup :=
  timeGroup (List.map elapsed (ofType "feedback.responded" (match_ mc es))).

Definition resolutionTimes mc es : list TimeGroup :=
  timeGroup (List.map elapsed (ofType "feedback.resolved" (match_ mc es))).

Definition satisfactionScores mc es : list ScoreGroup :=
  match ofType "feedback.satisfaction" (match_ mc es) with
  | [] => []
  | docs =>
      [ {| sg_average := avg (List.map (fun e => score (eventData e)) docs);
           sg_count := N.of_nat (length docs);
           sg_scores := Some (somes (List.map (fun e => score (eventData e)) docs)) |} ]
  end.

Definition escalationData mc es : list (GroupItem (option Z)) :=
  groupCount (List.map (fun e => escalationLevel (eventData e))
    (ofType "feedback.escalated" (match_ mc es))).

Definition commentData mc es : list (GroupItem (option string)) :=
  groupCount (List.map (fun e => commentType (eventData e))
    (ofType "feedback.commented" (match_ mc es))).

Definition userCounts mc es : list (GroupItem string) :=
  groupCount (List.map eventType
    (matchTypeIn ["user.created"; "user.login"; "user.active"] (match_ mc es))).

Definition roleCounts mc es : list (GroupItem (option string)) :=
  groupCount (List.map (fun e => role (eventData e))
    (ofType "user.created" (match_ mc es))).

(** Login activity: first one group per user, then one group over the
    users. A missing [sessionDuration] is not pushed. *)
Definition loginActivity mc es : list LoginGroup :=
  let logins := ofType "user.login" (match_ mc es) in
  let users := tally (List.map userId logins) in
  match users with
  | [] => []
  | _ =>
      [ {| lg_uniqueUsers := N.of_nat (length users);
           lg_totalLogins := fold_right N.add 0%N (List.map snd users);
           lg_sessionDurations :=
             Some (List.map (fun un =>
                     somes (List.map (fun e => sessionDuration (eventData e))
                              (List.filter (fun e => bool_decide (userId e = fst un)) logins)))
                   users) |} ]
  end.

(** Engagement: first one group per (user, event type), then one group
    per event type. *)
Definition userEngagement mc es : list EngagementItem :=
  let docs := matchTypeIn ["feedback.created"; "feedback.commented";
                           "feedback.responded"; "feedback.resolved"]
                (match_ mc es) in
  let perUser := tally (List.map (fun e => (userId e, eventType e)) docs) in
  List.map (fun tn =>
    {| en_id := fst tn;
       en_uniqueUsers := snd tn;
       en_totalCount :=
         fold_right N.add 0%N
           (List.map snd (List.filter (fun un => bool_decide (snd (fst un) = fst tn)) perUser)) |})
    (tally (List.map (fun un => snd (fst un)) perUser)).

Definition notificationMetrics mc es
  : list (GroupItem (string * option string)) :=
  groupCount (List.map (fun e => (eventType e, channel (eventData e)))
    (matchTypeIn ["notification.sent"; "notification.read";
                  "notification.delivered"] (match_ mc es))).

End Reader.

(** ** utils/dataAggregator.js: the metric documents *)

Module Metrics.

Record Counts := {
  counts_total : N;
  counts_new : N;
  counts_inProgress : N;
  counts_resolved : N;
  counts_closed : N
}.

Record ByPriority := {
  low : N;
  medium : N;
  high : N;
  critical : N
}.

Record TimeMetrics := {
  tm_average : JS.value;
  tm_median : JS.value;
  tm_min : JS.value;
  tm_max : JS.value;
  tm_percentile95 : JS.value
}.

Record Distribution := {
  star1 : N; star2 : N; star3 : N; star4 : N; star5 : N
}.

Record Satisfaction := {
  sat_average : JS.value;
  sat_count : N;
  sat_distribution : Distribution
}.

Record Escalations := {
  esc_count : N;
  esc_percentage : JS.number;
  level1 : N; level2 : N; level3 : N
}.

Record Comments := {
  com_total : N;
  com_average : JS.number;
  com_internal : N;
  com_external : N
}.

Record Feedback := {
  counts : Counts;
  byPriority : ByPriority;
  byCategory : gmap string N;
  responseTimes : TimeMetrics;
  resolutionTimes : TimeMetrics;
  satisfaction : Satisfaction;
  escalations : Escalations;
  comments : Comments
}.

Record UserCounts := {
  users_total : N;
  users_active : N;
  users_new : N
}.

Record ByRole := {
  admin : N;
  manager : N;
  agent : N;
  customer : N
}.

Record Activity := {
  averageLogins : JS.number;
  averageSessionDuration : JS.number;
  totalSessions : N;
  totalLogins : N
}.

Record Engagement := {
  averageFeedbackSubmissions : JS.number;
  averageComments : JS.number;
  averageResponses : JS.number;
  averageResolutionTime : JS.number
}.

Record Performance := {
  averageFeedbackHandled : N;
  averageResolutionRate : N;
  averageSatisfactionScore : N;
  averageResponseTime : N
}.

Record ByChannel := {
  email_sent : N; email_delivered : N; email_opened : N;
  sms_sent : N; sms_delivered : N;
  push_sent : N; push_delivered : N; push_opened : N;
  inApp_sent : N; inApp_read : N
}.

Record Notifications := {
  notif_sent : N;
  notif_read : N;
  readRate : JS.number;
  byChannel : ByChannel
}.

Record User := {
  userCounts : UserCounts;
  byRole : ByRole;
  activity : Activity;
  engagement : Engagement;
  performance : Performance;
  notifications : Notifications
}.

End Metrics.

(** ** utils/dataAggregator.js: the class DataAggregator *)

Module DataAggregator.
Import AnalyticsEvent Mongo Reader Metrics Logger.

Definition zero : JS.number := JS.Num 0.
Definition hundred : JS.number := JS.ofZ 100.

(** *** _calculatePeriodDates

    [now] is what [new Date()] returns when the function runs. This is the
    function in a process time zone that keeps the offset [utcOffset] and
    for dates well inside the range of [Date];
    [Local._calculatePeriodDates] is the function in any zone, and the two
    agree where both apply ([calculators_agree]). *)
Definition _calculatePeriodDates (utcOffset now : Z) (period : string) (date : Z)
  : Outcome (Z * Z) :=
  if String.eqb period "daily" then
    Ok (Moment.startOf utcOffset Moment.Day date, Moment.endOf utcOffset Moment.Day date)
  else if String.eqb period "weekly" then
    Ok (Moment.startOf utcOffset Moment.Week date, Moment.endOf utcOffset Moment.Week date)
  else if String.eqb period "monthly" then
    Ok (Moment.startOf utcOffset Moment.Month date, Moment.endOf utcOffset Moment.Month date)
  else if String.eqb period "quarterly" then
    Ok (Moment.startOf utcOffset Moment.Quarter date, Moment.endOf utcOffset Moment.Quarter date)
  else if String.eqb period "yearly" then
    Ok (Moment.startOf utcOffset Moment.Year date, Moment.endOf utcOffset Moment.Year date)
  else if String.eqb period "all_time" then
    Ok (0, now)
  else
    Throw (Error ("Invalid period: " ++ period)).

(** *** _processFeedbackMetrics *)

(** [item.eventData?.status === 'in_progress'] *)
Definition statusIsInProgress {K} (item : GroupItem K) : bool :=
  match item_eventData item with
  | Some d => bool_decide (status d = Some "in_progress")
  | None => false
  end.

Definition countStatus (c : Counts) (item : GroupItem string) : Counts :=
  if String.eqb (_id item) "feedback.created" then
    {| counts_total := count item; counts_new := count item;
       counts_inProgress := counts_inProgress c;
       counts_resolved := counts_resolved c; counts_closed := counts_closed c |}
  else if String.eqb (_id item) "feedback.updated" && statusIsInProgress item then
    {| counts_total := counts_total c; counts_new := counts_new c;
       counts_inProgress := count item;
       counts_resolved := counts_resolved c; counts_closed := counts_closed c |}
  else if String.eqb (_id item) "feedback.resolved" then
    {| counts_total := counts_total c; counts_new := counts_new c;
       counts_inProgress := counts_inProgress c;
       counts_resolved := count item; counts_closed := counts_closed c |}
  else if String.eqb (_id item) "feedback.closed" then
    {| counts_total := counts_total c; counts_new := counts_new c;
       counts_inProgress := counts_inProgress c;
       counts_resolved := counts_resolved c; counts_closed := count item |}
  else c.

Definition processCounts (statusCounts : list (GroupItem string)) : Counts :=
  fold_left countStatus statusCounts
    {| counts_total := 0; counts_new := 0; counts_inProgress := 0;
       counts_resolved := 0; counts_closed := 0 |}%N.

(** A string is truthy when it is not empty. *)
Definition truthyString (s : option string) : option string :=
  match s with
  | Some "" | None => None
  | Some k => Some k
  end.

Definition countPriority (p : ByPriority) (item : GroupItem (option string))
  : ByPriority :=
  match truthyString (_id item) with
  | Some k =>
      if String.eqb k "low" then
        {| low := count item; medium := medium p; high := high p; critical := critical p |}
      else if String.eqb k "medium" then
        {| low := low p; medium := count item; high := high p; critical := critical p |}
      else if String.eqb k "high" then
        {| low := low p; medium := medium p; high := count item; critical := critical p |}
      else if String.eqb k "critical" then
        {| low := low p; medium := medium p; high := high p; critical := count item |}
      else p
  | None => p
  end.

Definition processPriority (priorityCounts : list (GroupItem (option string)))
  : ByPriority :=
  fold_left countPriority priorityCounts
    {| low := 0; medium := 0; high := 0; critical := 0 |}%N.

(** [byCategory[item._id.toString()] = item.count] on a plain object: the
    key [__proto__] names the prototype, and assigning a number to it
    creates no property. *)
Definition processCategory (categoryCounts : list (GroupItem (option string)))
  : gmap string N :=
  fold_left (fun (m : gmap string N) item =>
               match truthyString (_id item) with
               | Some k =>
                   if String.eqb k "__proto__" then m else <[k := count item]> m
               | None => m
               end) categoryCounts ∅.

(** [values.sort((a, b) => a - b)]: the stable ascending sort by numeric
    value; an element stays in front of the next one unless their
    difference is positive. *)
Fixpoint insertAsc (x : JS.value) (l : list JS.value) : list JS.value :=
  match l with
  | [] => [x]
  | y :: l' =>
      if JS.gt0 (JS.sub (JS.toNumber x) (JS.toNumber y))
      then y :: insertAsc x l'
      else x :: y :: l'
  end.

Definition sortAsc (l : list JS.value) : list JS.value :=
  fold_right insertAsc [] l.

(** [values[i]] *)
Definition index (values : list JS.value) (i : Z) : JS.value :=
  if i <? 0 then JS.VUndefined
  else nth (Z.to_nat i) values JS.VUndefined.

(** [Math.ceil(values.length * 0.95) - 1]; 0.95 is the exact rational,
    which gives the same ceiling as the double for every array length. *)
Definition p95Index (len : Z) : Z :=
  Qceiling (inject_Z len * (95 # 100)) - 1.

Definition medianOf (values : list JS.value) : JS.value :=
  let len := Z.of_nat (length values) in
  let mid := len / 2 in
  if len mod 2 =? 0 then
    JS.VNum (JS.div (JS.add (JS.toNumber (index values (mid - 1)))
                            (JS.toNumber (index values mid)))
                    (JS.ofZ 2))
  else index values mid.

Definition percentile95Of (values : list JS.value) : JS.value :=
  JS.orZero (index values (p95Index (Z.of_nat (length values)))).

Definition noTimes : TimeMetrics :=
  {| tm_average := JS.VNum zero; tm_median := JS.VNum zero;
     tm_min := JS.VNum zero; tm_max := JS.VNum zero;
     tm_percentile95 := JS.VNum zero |}.

(** The block shared by response and resolution times *)
Definition processTimes (times : list TimeGroup) : TimeMetrics :=
  match times with
  | g :: _ =>
      match tg_values g with
      | Some vs =>
          let values := sortAsc vs in
          {| tm_average := JS.orZero (tg_average g);
             tm_median := medianOf values;
             tm_min := JS.orZero (tg_min g);
             tm_max := JS.orZero (tg_max g);
             tm_percentile95 := percentile95Of values |}
      | None => noTimes
      end
  | [] => noTimes
  end.

Definition countScore (d : Distribution) (score : Z) : Distribution :=
  if score =? 1 then
    {| star1 := N.succ (star1 d); star2 := star2 d; star3 := star3 d; star4 := star4 d; star5 := star5 d |}
  else if score =? 2 then
    {| star1 := star1 d; star2 := N.succ (star2 d); star3 := star3 d; star4 := star4 d; star5 := star5 d |}
  else if score =? 3 then
    {| star1 := star1 d; star2 := star2 d; star3 := N.succ (star3 d); star4 := star4 d; star5 := star5 d |}
  else if score =? 4 then
    {| star1 := star1 d; star2 := star2 d; star3 := star3 d; star4 := N.succ (star4 d); star5 := star5 d |}
  else if score =? 5 then
    {| star1 := star1 d; star2 := star2 d; star3 := star3 d; star4 := star4 d; star5 := N.succ (star5 d) |}
  else d.

Definition noStars : Distribution :=
  {| star1 := 0; star2 := 0; star3 := 0; star4 := 0; star5 := 0 |}%N.

Definition processSatisfaction (satisfactionScores : list ScoreGroup)
  : Satisfaction :=
  match satisfactionScores with
  | g :: _ =>
      {| sat_average := JS.orZero (sg_average g);
         sat_count := sg_count g;
         sat_distribution :=
           match sg_scores g with
           | Some scores => fold_left countScore scores noStars
           | None => noStars
           end |}
  | [] => {| sat_average := JS.VNum zero; sat_count := 0%N;
             sat_distribution := noStars |}
  end.

(** The loop over [escalationData]; [percentage] is set after it. *)
Definition countEscalation (e : Escalations) (item : GroupItem (option Z))
  : Escalations :=
  let c := (esc_count e + count item)%N in
  match _id item with
  | Some 1 => {| esc_count := c; esc_percentage := esc_percentage e;
                 level1 := count item; level2 := level2 e; level3 := level3 e |}
  | Some 2 => {| esc_count := c; esc_percentage := esc_percentage e;
                 level1 := level1 e; level2 := count item; level3 := level3 e |}
  | Some 3 => {| esc_count := c; esc_percentage := esc_percentage e;
                 level1 := level1 e; level2 := level2 e; level3 := count item |}
  | _ => {| esc_count := c; esc_percentage := esc_percentage e;
            level1 := level1 e; level2 := level2 e; level3 := level3 e |}
  end.

Definition processEscalations (total : N) (escalationData : list (GroupItem (option Z)))
  : Escalations :=
  let e := fold_left countEscalation escalationData
             {| esc_count := 0%N; esc_percentage := zero;
                level1 := 0%N; level2 := 0%N; level3 := 0%N |} in
  if JS.gt0 (JS.ofN total) then
    {| esc_count := esc_count e;
       esc_percentage :=
         JS.mul (JS.div (JS.ofN (esc_count e)) (JS.ofN total)) hundred;
       level1 := level1 e; level2 := level2 e; level3 := level3 e |}
  else e.

Definition countComment (c : Comments) (item : GroupItem (option string))
  : Comments :=
  let t := (com_total c + count item)%N in
  if bool_decide (_id item = Some "internal") then
    {| com_total := t; com_average := com_average c;
       com_internal := count item; com_external := com_external c |}
  else if bool_decide (_id item = Some "external") then
    {| com_total := t; com_average := com_average c;
       com_internal := com_internal c; com_external := count item |}
  else
    {| com_total := t; com_average := com_average c;
       com_internal := com_internal c; com_external := com_external c |}.

Definition processComments (total : N) (commentData : list (GroupItem (option string)))
  : Comments :=
  let c := fold_left countComment commentData
             {| com_total := 0%N; com_average := zero;
                com_internal := 0%N; com_external := 0%N |} in
  if JS.gt0 (JS.ofN total) then
    {| com_total := com_total c;
       com_average := JS.div (JS.ofN (com_total c)) (JS.ofN total);
       com_internal := com_internal c; com_external := com_external c |}
  else c.

Definition _processFeedbackMetrics
    (statusCounts : list (GroupItem string))
    (priorityCounts categoryCounts : list (GroupItem (option string)))
    (responseTimes resolutionTimes : list TimeGroup)
    (satisfactionScores : list ScoreGroup)
    (escalationData : list (GroupItem (option Z)))
    (commentData : list (GroupItem (option string))) : Feedback :=
  let counts := processCounts statusCounts in
  {| counts := counts;
     byPriority := processPriority priorityCounts;
     byCategory := processCategory categoryCounts;
     Metrics.responseTimes := processTimes responseTimes;
     Metrics.resolutionTimes := processTimes resolutionTimes;
     satisfaction := processSatisfaction satisfactionScores;
     escalations := processEscalations (counts_total counts) escalationData;
     comments := processComments (counts_total counts) commentData |}.

(** *** _processUserMetrics *)

Definition countUser (c : UserCounts) (item : GroupItem string) : UserCounts :=
  if String.eqb (_id item) "user.created" then
    {| users_total := users_total c; users_active := users_active c;
       users_new := count item |}
  else if String.eqb (_id item) "user.active" then
    {| users_total := users_total c; users_active := count item;
       users_new := users_new c |}
  else c.

(** [counts.total = counts.new * 10] is the source's placeholder. *)
Definition processUserCounts (userCounts : list (GroupItem string)) : UserCounts :=
  let c := fold_left countUser userCounts
             {| users_total := 0; users_active := 0; users_new := 0 |}%N in
  {| users_total := (users_new c * 10)%N; users_active := users_active c;
     users_new := users_new c |}.

Definition countRole (r : ByRole) (item : GroupItem (option string)) : ByRole :=
  match truthyString (_id item) with
  | Some k =>
      if String.eqb k "admin" then
        {| admin := count item; manager := manager r; agent := agent r; customer := customer r |}
      else if String.eqb k "manager" then
        {| admin := admin r; manager := count item; agent := agent r; customer := customer r |}
      else if String.eqb k "agent" then
        {| admin := admin r; manager := manager r; agent := count item; customer := customer r |}
      else if String.eqb k "customer" then
        {| admin := admin r; manager := manager r; agent := agent r; customer := count item |}
      else r
  | None => r
  end.

Definition processRoles (roleCounts : list (GroupItem (option string))) : ByRole :=
  fold_left countRole roleCounts
    {| admin := 0; manager := 0; agent := 0; customer := 0 |}%N.

(** [durations.reduce((sum, duration) => sum + duration, 0) / durations.length] *)
Definition averageOf (durations : list Z) : JS.number :=
  JS.div (fold_left (fun sum duration => JS.add sum (JS.ofZ duration)) durations zero)
         (JS.ofZ (Z.of_nat (length durations))).

Definition processActivity (loginActivity : list LoginGroup) : Activity :=
  match loginActivity with
  | data :: _ =>
      {| averageLogins :=
           if JS.gt0 (JS.ofN (lg_uniqueUsers data))
           then JS.div (JS.ofN (lg_totalLogins data)) (JS.ofN (lg_uniqueUsers data))
           else zero;
         averageSessionDuration :=
           match lg_sessionDurations data with
           | Some (u :: us) => averageOf (concat (u :: us))
           | _ => zero
           end;
         totalSessions := lg_uniqueUsers data;
         totalLogins := lg_totalLogins data |}
  | [] => {| averageLogins := zero; averageSessionDuration := zero;
             totalSessions := 0%N; totalLogins := 0%N |}
  end.

Definition countEngagement (g : Engagement) (item : EngagementItem) : Engagement :=
  let ratio := JS.div (JS.ofN (en_totalCount item)) (JS.ofN (en_uniqueUsers item)) in
  let some := JS.gt0 (JS.ofN (en_uniqueUsers item)) in
  if String.eqb (en_id item) "feedback.created" && some then
    {| averageFeedbackSubmissions := ratio; averageComments := averageComments g;
       averageResponses := averageResponses g;
       averageResolutionTime := averageResolutionTime g |}
  else if String.eqb (en_id item) "feedback.commented" && some then
    {| averageFeedbackSubmissions := averageFeedbackSubmissions g;
       averageComments := ratio; averageResponses := averageResponses g;
       averageResolutionTime := averageResolutionTime g |}
  else if String.eqb (en_id item) "feedback.responded" && some then
    {| averageFeedbackSubmissions := averageFeedbackSubmissions g;
       averageComments := averageComments g; averageResponses := ratio;
       averageResolutionTime := averageResolutionTime g |}
  else g.

Definition processEngagement (userEngagement : list EngagementItem) : Engagement :=
  fold_left countEngagement userEngagement
    {| averageFeedbackSubmissions := zero; averageComments := zero;
       averageResponses := zero; averageResolutionTime := zero |}.

Definition setChannelSent (b : ByChannel) (channel : option string) (n : N)
  : ByChannel :=
  match truthyString channel with
  | Some k =>
      if String.eqb k "email" then
        {| email_sent := n; email_delivered := email_delivered b; email_opened := email_opened b;
           sms_sent := sms_sent b; sms_delivered := sms_delivered b;
           push_sent := push_sent b; push_delivered := push_delivered b; push_opened := push_opened b;
           inApp_sent := inApp_sent b; inApp_read := inApp_read b |}
      else if String.eqb k "sms" then
        {| email_sent := email_sent b; email_delivered := email_delivered b; email_opened := email_opened b;
           sms_sent := n; sms_delivered := sms_delivered b;
           push_sent := push_sent b; push_delivered := push_delivered b; push_opened := push_opened b;
           inApp_sent := inApp_sent b; inApp_read := inApp_read b |}
      else if String.eqb k "push" then
        {| email_sent := email_sent b; email_delivered := email_delivered b; email_opened := email_opened b;
           sms_sent := sms_sent b; sms_delivered := sms_delivered b;
           push_sent := n; push_delivered := push_delivered b; push_opened := push_opened b;
           inApp_sent := inApp_sent b; inApp_read := inApp_read b |}
      else if String.eqb k "inApp" then
        {| email_sent := email_sent b; email_delivered := email_delivered b; email_opened := email_opened b;
           sms_sent := sms_sent b; sms_delivered := sms_delivered b;
           push_sent := push_sent b; push_delivered := push_delivered b; push_opened := push_opened b;
           inApp_sent := n; inApp_read := inApp_read b |}
      else b
  | None => b
  end.

Definition setInAppRead (b : ByChannel) (n : N) : ByChannel :=
  {| email_sent := email_sent b; email_delivered := email_delivered b; email_opened := email_opened b;
     sms_sent := sms_sent b; sms_delivered := sms_delivered b;
     push_sent := push_sent b; push_delivered := push_delivered b; push_opened := push_opened b;
     inApp_sent := inApp_sent b; inApp_read := n |}.

Definition setDelivered (b : ByChannel) (channel : option string) (n : N)
  : ByChannel :=
  if bool_decide (channel = Some "email") then
    {| email_sent := email_sent b; email_delivered := n; email_opened := email_opened b;
       sms_sent := sms_sent b; sms_delivered := sms_delivered b;
       push_sent := push_sent b; push_delivered := push_delivered b; push_opened := push_opened b;
       inApp_sent := inApp_sent b; inApp_read := inApp_read b |}
  else if bool_decide (channel = Some "sms") then
    {| email_sent := email_sent b; email_delivered := email_delivered b; email_opened := email_opened b;
       sms_sent := sms_sent b; sms_delivered := n;
       push_sent := push_sent b; push_delivered := push_delivered b; push_opened := push_opened b;
       inApp_sent := inApp_sent b; inApp_read := inApp_read b |}
  else if bool_decide (channel = Some "push") then
    {| email_sent := email_sent b; email_delivered := email_delivered b; email_opened := email_opened b;
       sms_sent := sms_sent b; sms_delivered := sms_delivered b;
       push_sent := push_sent b; push_delivered := n; push_opened := push_opened b;
       inApp_sent := inApp_sent b; inApp_read := inApp_read b |}
  else b.

(** The loop over [notificationMetrics]; [readRate] is set after it. *)
Definition countNotification (n : Notifications)
    (item : GroupItem (string * option string)) : Notifications :=
  let eventType := fst (_id item) in
  let channel := snd (_id item) in
  if String.eqb eventType "notification.sent" then
    {| notif_sent := (notif_sent n + count item)%N; notif_read := notif_read n;
       readRate := readRate n;
       byChannel := setChannelSent (byChannel n) channel (count item) |}
  else if String.eqb eventType "notification.read" then
    {| notif_sent := notif_sent n; notif_read := (notif_read n + count item)%N;
       readRate := readRate n;
       byChannel := if bool_decide (channel = Some "inApp")
                    then setInAppRead (byChannel n) (count item)
                    else byChannel n |}
  else if String.eqb eventType "notification.delivered" then
    {| notif_sent := notif_sent n; notif_read := notif_read n;
       readRate := readRate n;
       byChannel := setDelivered (byChannel n) channel (count item) |}
  else n.

Definition noChannels : ByChannel :=
  {| email_sent := 0; email_delivered := 0; email_opened := 0;
     sms_sent := 0; sms_delivered := 0;
     push_sent := 0; push_delivered := 0; push_opened := 0;
     inApp_sent := 0; inApp_read := 0 |}%N.

Definition processNotifications
    (notificationMetrics : list (GroupItem (string * option string)))
  : Notifications :=
  let n := fold_left countNotification notificationMetrics
             {| notif_sent := 0%N; notif_read := 0%N; readRate := zero;
                byChannel := noChannels |} in
  if JS.gt0 (JS.ofN (notif_sent n)) then
    {| notif_sent := notif_sent n; notif_read := notif_read n;
       readRate := JS.mul (JS.div (JS.ofN (notif_read n)) (JS.ofN (notif_sent n))) hundred;
       byChannel := byChannel n |}
  else n.

Definition _processUserMetrics
    (userCounts : list (GroupItem string))
    (roleCounts : list (GroupItem (option string)))
    (loginActivity : list LoginGroup)
    (userEngagement : list EngagementItem)
    (notificationMetrics : list (GroupItem (string * option string))) : User :=
  {| Metrics.userCounts := processUserCounts userCounts;
     byRole := processRoles roleCounts;
     activity := processActivity loginActivity;
     engagement := processEngagement userEngagement;
     performance := {| averageFeedbackHandled := 0; averageResolutionRate := 0;
                       averageSatisfactionScore := 0; averageResponseTime := 0 |}%N;
     notifications := processNotifications notificationMetrics |}.

(** *** The metrics collections (models/feedbackMetrics.js,
    models/userMetrics.js)

    A stored document: the key fields of the query, the fields written by
    [$set] and the two timestamps Mongoose maintains for a schema declared
    with [timestamps: true]. *)

Record Doc (M : Type) := {
  period : string;
  date : Z;
  companyId : option string;
  metrics : M;
  calculatedAt : Z;
  doc_createdAt : Z;
  doc_updatedAt : Z
}.
Arguments period {M} _.
Arguments date {M} _.
Arguments companyId {M} _.
Arguments metrics {M} _.
Arguments calculatedAt {M} _.
Arguments doc_createdAt {M} _.
Arguments doc_updatedAt {M} _.

(** The filter [{ period, date, companyId }] *)
Definition hasKey {M} (p : string) (d : Z) (c : option string) (doc : Doc M) : bool :=
  String.eqb (period doc) p && (date doc =? d) && bool_decide (companyId doc = c).

(** [Model.findOneAndUpdate(query, { $set: { ...metrics, calculatedAt } },
    { upsert: true, new: true })]: the first document that matches has the
    fields replaced, and when none matches one is inserted; the updated
    document is returned with the collection. *)
Fixpoint findOneAndUpdate {M} (p : string) (d : Z) (c : option string)
    (m : M) (now : Z) (coll : list (Doc M)) : list (Doc M) * Doc M :=
  match coll with
  | [] =>
      let doc := {| period := p; date := d; companyId := c; metrics := m;
                    calculatedAt := now; doc_createdAt := now;
                    doc_updatedAt := now |} in
      ([doc], doc)
  | x :: rest =>
      if hasKey p d c x then
        let doc := {| period := period x; date := date x;
                      companyId := companyId x; metrics := m;
                      calculatedAt := now; doc_createdAt := doc_createdAt x;
                      doc_updatedAt := now |} in
        (doc :: rest, doc)
      else
        let r := findOneAndUpdate p d c m now rest in
        (x :: fst r, snd r)
  end.

(** *** The world the aggregator runs in *)

Inductive DbCall :=
| AggregateEvents (companyId : option string)
| UpsertFeedbackMetrics (companyId : option string)
| UpsertUserMetrics (companyId : option string)
| FindCompanies.

(** [clock] is the instant [new Date()] returns, [zone] the UTC offset of
    the process in minutes, [failing] the database calls that fail and the
    error each one throws: a store that cannot be reached, or, for an
    upsert, an update that Mongoose refuses to cast. *)
Record World := {
  clock : Z;
  zone : Z;
  events : list AnalyticsEvent.t;
  feedbackMetrics : list (Doc Feedback);
  userMetrics : list (Doc User);
  companies : list string;
  failing : DbCall -> option JsError;
  log : list LogEntry
}.

Definition M (A : Type) : Type := World -> Outcome A * World.

Definition ret {A} (a : A) : M A := fun w => (Ok a, w).

Definition bind {A B} (m : M A) (k : A -> M B) : M B :=
  fun w => match m w with
           | (Ok a, w') => k a w'
           | (Throw e, w') => (Throw e, w')
           end.

Definition throw {A} (e : JsError) : M A := fun w => (Throw e, w).

(** [try { m } catch (e) { h e }] *)
Definition tryCatch {A} (m : M A) (h : JsError -> M A) : M A :=
  fun w => match m w with
           | (Ok a, w') => (Ok a, w')
           | (Throw e, w') => h e w'
           end.

Definition lift {A} (o : Outcome A) : M A := fun w => (o, w).

#[export] Instance M_ret : MRet M := @ret.
#[export] Instance M_bind : MBind M := fun A B k m => bind m k.

Definition setLog (l : list LogEntry) (w : World) : World :=
  {| clock := clock w; zone := zone w; events := events w;
     feedbackMetrics := feedbackMetrics w; userMetrics := userMetrics w;
     companies := companies w; failing := failing w; log := l |}.

Definition setFeedbackMetrics (coll : list (Doc Feedback)) (w : World) : World :=
  {| clock := clock w; zone := zone w; events := events w;
     feedbackMetrics := coll; userMetrics := userMetrics w;
     companies := companies w; failing := failing w; log := log w |}.

Definition setUserMetrics (coll : list (Doc User)) (w : World) : World :=
  {| clock := clock w; zone := zone w; events := events w;
     feedbackMetrics := feedbackMetrics w; userMetrics := coll;
     companies := companies w; failing := failing w; log := log w |}.

(** Time passes: the clock is moved to [t]. *)
Definition setClock (t : Z) (w : World) : World :=
  {| clock := t; zone := zone w; events := events w;
     feedbackMetrics := feedbackMetrics w; userMetrics := userMetrics w;
     companies := companies w; failing := failing w; log := log w |}.

Definition logger (l : Level) (msg : string) (c : option string) : M unit :=
  fun w => (Ok tt,
            setLog (log w ++ [ {| level := l; message := msg; meta_companyId := c |} ]) w).

Definition newDate : M Z := fun w => (Ok (clock w), w).

Definition db (call : DbCall) : M unit :=
  fun w => match failing w call with
           | Some e => (Throw e, w)
           | None => (Ok tt, w)
           end.

Definition stored : M (list AnalyticsEvent.t) := fun w => (Ok (events w), w).

(** [AnalyticsEvent.aggregate([{ $match: matchCriteria }, ...])] *)
Definition aggregate {A} (mc : MatchCriteria)
    (pipeline : MatchCriteria -> list AnalyticsEvent.t -> A) : M A :=
  db (AggregateEvents (mc_companyId mc)) ;;
  es ← stored;
  mret (pipeline mc es).

Definition writeFeedbackMetrics (p : string) (d : Z) (c : option string)
    (m : Feedback) : M (Doc Feedback) :=
  fun w =>
    let r := findOneAndUpdate p d c m (clock w) (feedbackMetrics w) in
    (Ok (snd r), setFeedbackMetrics (fst r) w).

Definition writeUserMetrics (p : string) (d : Z) (c : option string)
    (m : User) : M (Doc User) :=
  fun w =>
    let r := findOneAndUpdate p d c m (clock w) (userMetrics w) in
    (Ok (snd r), setUserMetrics (fst r) w).

(** [FeedbackMetrics.findOneAndUpdate(query, update, options)] *)
Definition upsertFeedbackMetrics (p : string) (d : Z) (c : option string)
    (m : Feedback) : M (Doc Feedback) :=
  db (UpsertFeedbackMetrics c) ;; writeFeedbackMetrics p d c m.

(** [UserMetrics.findOneAndUpdate(query, update, options)] *)
Definition upsertUserMetrics (p : string) (d : Z) (c : option string)
    (m : User) : M (Doc User) :=
  db (UpsertUserMetrics c) ;; writeUserMetrics p d c m.

Definition calculatePeriodDates (period : string) (date : Z) : M (Z * Z) :=
  fun w => (_calculatePeriodDates (zone w) (clock w) period date, w).

(** *** aggregateFeedbackMetrics *)
Definition aggregateFeedbackMetrics (period : string) (date : Z)
    (companyId : option string) : M (Doc Feedback) :=
  tryCatch
    (logger info ("Aggregating feedback metrics for " ++ period ++ " period") companyId ;;
     range ← calculatePeriodDates period date;
     let startDate := fst range in
     let endDate := snd range in
     let matchCriteria :=
       {| mc_sourceService := "feedback"; mc_gte := startDate;
          mc_lt := endDate; mc_companyId := companyId |} in
     statusCounts ← aggregate matchCriteria Reader.statusCounts;
     priorityCounts ← aggregate matchCriteria Reader.priorityCounts;
     categoryCounts ← aggregate matchCriteria Reader.categoryCounts;
     responseTimes ← aggregate matchCriteria Reader.responseTimes;
     resolutionTimes ← aggregate matchCriteria Reader.resolutionTimes;
     satisfactionScores ← aggregate matchCriteria Reader.satisfactionScores;
     escalationData ← aggregate matchCriteria Reader.escalationData;
     commentData ← aggregate matchCriteria Reader.commentData;
     let metrics :=
       _processFeedbackMetrics statusCounts priorityCounts categoryCounts
         responseTimes resolutionTimes satisfactionScores escalationData
         commentData in
     feedbackMetrics ← upsertFeedbackMetrics period startDate companyId metrics;
     logger info ("Successfully aggregated feedback metrics for " ++ period ++ " period") companyId ;;
     mret feedbackMetrics)
    (fun e =>
       logger error ("Error aggregating feedback metrics: " ++ error_message e) companyId ;;
       throw e).

(** *** aggregateUserMetrics *)
Definition aggregateUserMetrics (period : string) (date : Z)
    (companyId : option string) : M (Doc User) :=
  tryCatch
    (logger info ("Aggregating user metrics for " ++ period ++ " period") companyId ;;
     range ← calculatePeriodDates period date;
     let startDate := fst range in
     let endDate := snd range in
     let matchCriteria :=
       {| mc_sourceService := "user"; mc_gte := startDate;
          mc_lt := endDate; mc_companyId := companyId |} in
     userCounts ← aggregate matchCriteria Reader.userCounts;
     roleCounts ← aggregate matchCriteria Reader.roleCounts;
     loginActivity ← aggregate matchCriteria Reader.loginActivity;
     userEngagement ← aggregate matchCriteria Reader.userEngagement;
     notificationMetrics ←
       aggregate {| mc_sourceService := "notification"; mc_gte := startDate;
                    mc_lt := endDate; mc_companyId := companyId |}
                 Reader.notificationMetrics;
     let metrics :=
       _processUserMetrics userCounts roleCounts loginActivity userEngagement
         notificationMetrics in
     userMetrics ← upsertUserMetrics period startDate companyId metrics;
     logger info ("Successfully aggregated user metrics for " ++ period ++ " period") companyId ;;
     mret userMetrics)
    (fun e =>
       logger error ("Error aggregating user metrics: " ++ error_message e) companyId ;;
       throw e).

Definition listed : M (list string) := fun w => (Ok (companies w), w).

(** [mongoose.connection.db.collection('companies').find(...).toArray()] *)
Definition findCompanies : M (list string) :=
  db FindCompanies ;; listed.

(** [for (const company of companies) { ... }] *)
Fixpoint forEachCompany (body : string -> M unit) (cs : list string) : M unit :=
  match cs with
  | [] => mret tt
  | c :: rest => body c ;; forEachCompany body rest
  end.

(** *** runScheduledAggregation *)
Definition runScheduledAggregation (periodType : string) : M unit :=
  tryCatch
    (logger info ("Running scheduled " ++ periodType ++ " aggregation") None ;;
     date ← newDate;
     companies ← findCompanies;
     aggregateFeedbackMetrics periodType date None ;;
     aggregateUserMetrics periodType date None ;;
     forEachCompany
       (fun company =>
          aggregateFeedbackMetrics periodType date (Some company) ;;
          aggregateUserMetrics periodType date (Some company) ;;
          mret tt)
       companies ;;
     logger info ("Completed scheduled " ++ periodType ++ " aggregation") None)
    (fun e =>
       logger error ("Error running scheduled " ++ periodType ++ " aggregation: "
                     ++ error_message e) None).

End DataAggregator.

(** ** controllers/metricsController.js: triggerAggregation *)

Module MetricsController.
Import Logger.

(** [req.body] and, of [req.user], the roles; the route runs the
    authentication middleware first, so the user is always present. *)
Record Body := {
  period : option string;
  companyId : option string;
  startDate : option string;
  endDate : option string
}.

Record Request := {
  body : Body;
  roles : list string
}.

Record Options := {
  opt_companyId : option string;
  opt_startDate : option Z;
  opt_endDate : option Z
}.

Record Data := {
  data_period : string;
  data_companyId : string;
  data_startDate : option Z;
  data_endDate : option Z
}.

(** [res.status(status).json({ success, error, message, data })] *)
Record Response := {
  status : Z;
  success : bool;
  error : option string;
  message : string;
  data : option Data
}.

(** What the handler does besides answering: the log entries it writes
    and the aggregation run it starts. The started run settles after the
    response was sent; its handlers are [onFulfilled] and [onRejected]. *)
Inductive Effect :=
| Logged (e : LogEntry)
| Started (period : string) (options : Options).

Definition onFulfilled : LogEntry :=
  entry info "Manual aggregation completed successfully".

Definition onRejected (e : JsError) : LogEntry :=
  entry Logger.error ("Error in manual aggregation: " ++ error_message e).

Definition periods : list string :=
  ["daily"; "weekly"; "monthly"; "quarterly"; "yearly"; "all_time"].

(** A string is truthy when it is not empty. *)
Definition given (s : option string) : option string :=
  match s with
  | Some "" | None => None
  | Some v => Some v
  end.

Definition validationError (msg : string) : Response :=
  {| status := 400; success := false; error := Some "Validation error";
     message := msg; data := None |}.

Section Handler.
(** [methods] are the names of the static methods of the object that
    [require('../utils/dataAggregator')] returns; [Date_parse] is the
    time value of [new Date(text)], [None] for an invalid date. *)
Variable methods : list string.
Variable Date_parse : string -> option Z.

(** [DataAggregator.runManualAggregation(period, options)]: calling a
    property that is not a function throws a [TypeError]. *)
Definition callRunManualAggregation (period : string) (options : Options)
  : Outcome Effect :=
  if bool_decide ("runManualAggregation" ∈ methods)
  then Ok (Started period options)
  else Throw (TypeError "DataAggregator.runManualAggregation is not a function").

Definition serverError (e : JsError) (done : list Effect)
  : Response * list Effect :=
  ({| status := 500; success := false; error := Some "Server error";
      message := error_message e; data := None |},
   (done ++ [Logged (entry Logger.error
                       ("Error triggering aggregation: " ++ error_message e))])%list).

Definition triggerAggregation (req : Request) : Response * list Effect :=
  if negb (bool_decide ("admin" ∈ roles req)) then
    ({| status := 403; success := false; error := Some "Access denied";
        message := "Only administrators can trigger manual aggregation";
        data := None |}, [])
  else
    match given (period (body req)) with
    | None =>
        (validationError
           "Invalid period. Must be one of: daily, weekly, monthly, quarterly, yearly, all_time",
         [])
    | Some p =>
        if negb (bool_decide (p ∈ periods)) then
          (validationError
             "Invalid period. Must be one of: daily, weekly, monthly, quarterly, yearly, all_time",
           [])
        else
          let parsedStartDate := given (startDate (body req)) ≫= Date_parse in
          let parsedEndDate := given (endDate (body req)) ≫= Date_parse in
          if bool_decide (is_Some (given (startDate (body req))))
             && bool_decide (parsedStartDate = None) then
            (validationError "Invalid startDate format", [])
          else if bool_decide (is_Some (given (endDate (body req))))
                  && bool_decide (parsedEndDate = None) then
            (validationError "Invalid endDate format", [])
          else
            let logged :=
              [Logged (entry info ("Triggering manual " ++ p ++ " aggregation"))] in
            match callRunManualAggregation p
                    {| opt_companyId := companyId (body req);
                       opt_startDate := parsedStartDate;
                       opt_endDate := parsedEndDate |} with
            | Ok started =>
                ({| status := 202; success := true; error := None;
                    message := p ++ " aggregation started successfully";
                    data := Some {| data_period := p;
                                    data_companyId :=
                                      default "all" (given (companyId (body req)));
                                    data_startDate := parsedStartDate;
                                    data_endDate := parsedEndDate |} |},
                 (logged ++ [started])%list)
            | Throw e => serverError e logged
            end
    end.

End Handler.

(** The static methods the class in utils/dataAggregator.js defines *)
Definition DataAggregator_methods : list string :=
  ["aggregateFeedbackMetrics"; "aggregateUserMetrics";
   "runScheduledAggregation"; "_calculatePeriodDates";
   "_processFeedbackMetrics"; "_processUserMetrics"].

End MetricsController.

(** ** utils/scheduler.js *)

Module Scheduler.
Import Logger.

(** What a job runs *)
Inductive Task :=
| Aggregation (periodType : string)
| ReportGeneration
| Custom (label : string).

(** The task object [cron.schedule] returns *)
Record Job := {
  schedule : string;
  task : Task
}.

(** [jobs] is the scheduler's map; [running] lists, oldest first, the
    job names of the executions that were started and have not settled
    yet; [log] is the logger's output. *)
Record State := {
  jobs : gmap string Job;
  running : list string;
  log : list LogEntry
}.

Definition initial : State := {| jobs := ∅; running := []; log := [] |}.

Definition say (l : Level) (msg : string) (s : State) : State :=
  {| jobs := jobs s; running := running s; log := log s ++ [entry l msg] |}.

(** [stopJob(name)] *)
Definition stopJob (name : string) (s : State) : bool * State :=
  match jobs s !! name with
  | Some _ =>
      (true, say info ("Stopped job: " ++ name)
               {| jobs := delete name (jobs s); running := running s; log := log s |})
  | None => (false, say warn ("Job " ++ name ++ " not found") s)
  end.

(** An environment that sets no variable *)
Definition unset : string -> option string := fun _ => None.

Section Cron.
(** [cron.validate] *)
Variable validate : string -> bool.
(** [process.env] *)
Variable env : string -> option string.

(** [process.env[name] || dflt]: the empty string is falsy. *)
Definition configured (name dflt : string) : string :=
  match env name with
  | Some v => if String.eqb v "" then dflt else v
  | None => dflt
  end.

(** [scheduleJob(name, schedule, task)] *)
Definition scheduleJob (name sched : string) (t : Task) (s : State)
  : bool * State :=
  if negb (validate sched) then
    (false, say Logger.error
              ("Invalid cron schedule for job " ++ name ++ ": " ++ sched) s)
  else
    let s1 := match jobs s !! name with
              | Some _ => snd (stopJob name s)
              | None => s
              end in
    (true, say info ("Scheduled job " ++ name ++ " with schedule: " ++ sched)
             {| jobs := <[name := {| schedule := sched; task := t |}]> (jobs s1);
                running := running s1; log := log s1 |}).

(** [initialize()]: the three aggregation schedules are read from the
    environment, each with its default; the schedule of the report
    generation is fixed. *)
Definition initialize (s : State) : State :=
  let s := say info "Initializing analytics scheduler" s in
  let dailySchedule := configured "DAILY_AGGREGATION_SCHEDULE" "0 0 * * *" in
  let s := snd (scheduleJob "daily-aggregation" dailySchedule (Aggregation "daily") s) in
  let weeklySchedule := configured "WEEKLY_AGGREGATION_SCHEDULE" "0 0 * * 0" in
  let s := snd (scheduleJob "weekly-aggregation" weeklySchedule (Aggregation "weekly") s) in
  let monthlySchedule := configured "MONTHLY_AGGREGATION_SCHEDULE" "0 0 1 * *" in
  let s := snd (scheduleJob "monthly-aggregation" monthlySchedule (Aggregation "monthly") s) in
  let s := snd (scheduleJob "report-generation" "0 1 * * *" ReportGeneration s) in
  say info "Analytics scheduler initialized successfully" s.
End Cron.

(** The callback [scheduleJob] hands to [cron.schedule], up to its
    [await task()]: node-cron calls it at every instant the schedule
    matches. *)
Definition fire (name : string) (s : State) : State :=
  match jobs s !! name with
  | Some _ =>
      let s := say info ("Executing scheduled job: " ++ name) s in
      {| jobs := jobs s; running := running s ++ [name]; log := log s |}
  | None => s
  end.

(** Remove the oldest execution of [name] from the running ones. *)
Fixpoint settled (name : string) (l : list string) : list string :=
  match l with
  | [] => []
  | n :: rest => if String.eqb n name then rest else n :: settled name rest
  end.

(** The rest of the callback, run when the awaited task settles *)
Definition finish (name : string) (outcome : Outcome unit) (s : State) : State :=
  let s := {| jobs := jobs s; running := settled name (running s); log := log s |} in
  match outcome with
  | Ok _ => say info ("Job " ++ name ++ " completed") s
  | Throw e => say Logger.error ("Error executing job " ++ name ++ ": " ++ error_message e) s
  end.

(** What the runtime can do to a scheduler *)
Inductive Event :=
| Trigger (name : string)
| Settle (name : string) (outcome : Outcome unit).

Definition step (s : State) (e : Event) : State :=
  match e with
  | Trigger name => fire name s
  | Settle name outcome => finish name outcome s
  end.

Definition run (es : list Event) (s : State) : State := fold_left step es s.

(** Executions of [name] in progress *)
Definition inProgress (name : string) (s : State) : nat :=
  length (List.filter (String.eqb name) (running s)).

End Scheduler.

(** ** The period kinds whose window follows the calendar *)

Module Kinds.

Definition calendarKinds : list string :=
  ["daily"; "weekly"; "monthly"; "quarterly"; "yearly"].

End Kinds.

(** ** Counting with groups *)

Module Tallies.
Import Mongo.

Section Keys.
Context {K : Type} `{EqDecision K}.

(** How often [k] occurs among the keys *)
Definition occurrences (k : K) (keys : list K) : N :=
  N.of_nat (length (List.filter (fun x => bool_decide (x = k)) keys)).

(** The counts of a tally that stand under [k], added up *)
Definition weight (k : K) (t : list (K * N)) : N :=
  fold_right N.add 0%N
    (List.map snd (List.filter (fun kn => bool_decide (fst kn = k)) t)).

(** The count of the last group with id [k], as a loop that assigns it
    leaves it: [acc] when there is none *)
Definition lastCount (k : K) (items : list (GroupItem K)) (acc : N) : N :=
  fold_left (fun acc item => if bool_decide (_id item = k) then count item else acc)
            items acc.

(** The group of a tally entry *)
Definition item_of (kn : K * N) : GroupItem K :=
  {| _id := fst kn; count := snd kn; item_eventData := None |}.

End Keys.

End Tallies.

(** ** The reducers as the specification words them *)

Module Stats.

(** An integer duration as it sits in a [values] array *)
Definition sample (z : Z) : JS.value := JS.VNum (JS.ofZ z).

(** Ascending insertion sort on integers *)
Fixpoint insertZ (x : Z) (l : list Z) : list Z :=
  match l with
  | [] => [x]
  | y :: l' => if y <? x then y :: insertZ x l' else x :: y :: l'
  end.

Definition sortZ (l : list Z) : list Z := fold_right insertZ [] l.

(** rate(numerator, denominator):
    [denominator == 0 ? 0 : numerator / denominator * 100] *)
Definition rate (numerator denominator : N) : JS.number :=
  if (denominator =? 0)%N then JS.Num 0
  else JS.mul (JS.div (JS.ofN numerator) (JS.ofN denominator)) (JS.ofZ 100).

(** The plain quotient of an average, [0] for a zero denominator *)
Definition quotient (numerator denominator : N) : JS.number :=
  if (denominator =? 0)%N then JS.Num 0
  else JS.div (JS.ofN numerator) (JS.ofN denominator).

End Stats.

(** ** The assembled metrics as functions of the stored events *)

Module Assembled.
Import Mongo Reader DataAggregator.

Definition feedbackCriteria (s e : Z) (c : option string) : MatchCriteria :=
  {| mc_sourceService := "feedback"; mc_gte := s; mc_lt := e; mc_companyId := c |}.

Definition userCriteria (s e : Z) (c : option string) : MatchCriteria :=
  {| mc_sourceService := "user"; mc_gte := s; mc_lt := e; mc_companyId := c |}.

Definition notificationCriteria (s e : Z) (c : option string) : MatchCriteria :=
  {| mc_sourceService := "notification"; mc_gte := s; mc_lt := e; mc_companyId := c |}.

(** What [aggregateFeedbackMetrics] hands to the upsert *)
Definition feedbackOf (s e : Z) (c : option string) (es : list AnalyticsEvent.t)
  : Metrics.Feedback :=
  let mc := feedbackCriteria s e c in
  _processFeedbackMetrics
    (Reader.statusCounts mc es) (Reader.priorityCounts mc es)
    (Reader.categoryCounts mc es) (Reader.responseTimes mc es)
    (Reader.resolutionTimes mc es) (Reader.satisfactionScores mc es)
    (Reader.escalationData mc es) (Reader.commentData mc es).

(** What [aggregateUserMetrics] hands to the upsert *)
Definition userOf (s e : Z) (c : option string) (es : list AnalyticsEvent.t)
  : Metrics.User :=
  let mc := userCriteria s e c in
  _processUserMetrics
    (Reader.userCounts mc es) (Reader.roleCounts mc es)
    (Reader.loginActivity mc es) (Reader.userEngagement mc es)
    (Reader.notificationMetrics (notificationCriteria s e c) es).

Definition note (l : Logger.Level) (msg : string) (c : option string)
  : Logger.LogEntry :=
  {| Logger.level := l; Logger.message := msg; Logger.meta_companyId := c |}.

(** Documents of a collection stored under a key *)
Definition under {M} (p : string) (d : Z) (c : option string)
    (coll : list (Doc M)) : list (Doc M) :=
  List.filter (hasKey p d c) coll.

(** No two documents of the collection have the same key. *)
Definition uniqueKeys {M} (coll : list (Doc M)) : Prop :=
  forall p d c, (length (under p d c coll) <= 1)%nat.

(** At most one document of each type is stored under a key. *)
Definition onePerKey (w : World) : Prop :=
  uniqueKeys (feedbackMetrics w) /\ uniqueKeys (userMetrics w).

(** A computation that keeps it so, whether it returns or throws *)
Definition tidy {A} (m : M A) : Prop :=
  forall w, onePerKey w -> onePerKey (snd (m w)).


(** The log shows that the aggregation of company [c] was entered: both
    assemblers log the company id when they start. *)
Definition processed (c : string) (w : World) : bool :=
  existsb (fun e => bool_decide (Logger.meta_companyId e = Some c)) (log w).

(** Between [w] and [w'] nothing was logged for company [c] and no metrics
    document of company [c] was written. *)
Definition untouched (c : string) (w w' : World) : Prop :=
  (exists new, log w' = (log w ++ new)%list /\
               Forall (fun e => Logger.meta_companyId e <> Some c) new) /\
  (forall p d, under p d (Some c) (feedbackMetrics w')
               = under p d (Some c) (feedbackMetrics w)) /\
  (forall p d, under p d (Some c) (userMetrics w')
               = under p d (Some c) (userMetrics w)).

(** Some database call made for scope [c] fails in [w]. *)
Definition scopeFails (c : option string) (w : World) : Prop :=
  failing w (AggregateEvents c) <> None \/
  failing w (UpsertFeedbackMetrics c) <> None \/
  failing w (UpsertUserMetrics c) <> None.

(** [w'] has the clock, the zone, the events, the companies and the failing
    calls of [w]. *)
Definition steady (w w' : World) : Prop :=
  failing w' = failing w /\ clock w' = clock w /\ zone w' = zone w /\
  events w' = events w /\ companies w' = companies w.

(** The body of the loop of [runScheduledAggregation] *)
Definition perCompany (periodType : string) (date : Z) (company : string)
  : M unit :=
  aggregateFeedbackMetrics periodType date (Some company) ;;
  aggregateUserMetrics periodType date (Some company) ;;
  mret tt.

End Assembled.

(** ** Sample data *)

Module Samples.
Import AnalyticsEvent DataAggregator.

Definition feedbackEvent (type : string) (at_ : Z) (data : EventData)
  : AnalyticsEvent.t :=
  {| sourceService := "feedback"; eventType := type; eventData := data;
     userId := None; AnalyticsEvent.companyId := None; timestamp := at_ |}.

Definition notificationEvent (type : string) (at_ : Z) : AnalyticsEvent.t :=
  {| sourceService := "notification"; eventType := type; eventData := noData;
     userId := None; AnalyticsEvent.companyId := None; timestamp := at_ |}.

Definition inProgress : EventData :=
  {| priority := None; categoryId := None; createdAt := None; score := None;
     escalationLevel := None; commentType := None;
     status := Some "in_progress"; role := None; sessionDuration := None;
     channel := None |}.

(** A store with one feedback created, escalated twice and updated to
    in-progress three times, and one notification sent and read twice, all
    on 1970-01-01; two companies; every database call succeeds. *)
Definition world : World :=
  {| clock := 1000;
     zone := 0;
     events := [ feedbackEvent "feedback.created" 10 noData;
                 feedbackEvent "feedback.escalated" 20 noData;
                 feedbackEvent "feedback.escalated" 30 noData;
                 feedbackEvent "feedback.updated" 40 inProgress;
                 feedbackEvent "feedback.updated" 50 inProgress;
                 feedbackEvent "feedback.updated" 60 inProgress;
                 notificationEvent "notification.sent" 70;
                 notificationEvent "notification.read" 80;
                 notificationEvent "notification.read" 90 ];
     feedbackMetrics := [];
     userMetrics := [];
     companies := ["A"; "B"];
     failing := fun _ => None;
     log := [] |}.

Definition feedbackRun : Outcome (Doc Metrics.Feedback) * World :=
  Eval vm_compute in aggregateFeedbackMetrics "daily" 500 None world.

Definition userRun : Outcome (Doc Metrics.User) * World :=
  Eval vm_compute in aggregateUserMetrics "daily" 500 None world.

Definition emptyFeedbackDoc : Doc Metrics.Feedback :=
  Eval vm_compute in
    snd (findOneAndUpdate "" 0 None
           (_processFeedbackMetrics [] [] [] [] [] [] [] []) 0 []).

Definition emptyUserDoc : Doc Metrics.User :=
  Eval vm_compute in
    snd (findOneAndUpdate "" 0 None (_processUserMetrics [] [] [] [] []) 0 []).

Definition produced {M} (dflt : Doc M) (r : Outcome (Doc M) * World) : Doc M :=
  match fst r with
  | Ok doc => doc
  | Throw _ => dflt
  end.

Definition feedbackDoc : Doc Metrics.Feedback := produced emptyFeedbackDoc feedbackRun.
Definition userDoc : Doc Metrics.User := produced emptyUserDoc userRun.



(** A store whose single event, a feedback created, is dated 150, later
    than the clock, which shows 100. *)
Definition futureWorld : World :=
  {| clock := 100;
     zone := 0;
     events := [ feedbackEvent "feedback.created" 150 noData ];
     feedbackMetrics := [];
     userMetrics := [];
     companies := [];
     failing := fun _ => None;
     log := [] |}.

(** The sample store when the reads for company A fail *)
Definition failingWorld : World :=
  {| clock := clock world; zone := zone world; events := events world;
     feedbackMetrics := []; userMetrics := [];
     companies := ["A"; "B"];
     failing := fun call =>
       match call with
       | AggregateEvents (Some c) =>
           if String.eqb c "A" then Some (Error "store unavailable") else None
       | _ => None
       end;
     log := [] |}.

Definition scheduledRun : Outcome unit * World :=
  Eval vm_compute in runScheduledAggregation "daily" failingWorld.

Definition futureFirst : Outcome (Doc Metrics.Feedback) * World :=
  Eval vm_compute in aggregateFeedbackMetrics "all_time" 100 None futureWorld.

Definition futureSecond : Outcome (Doc Metrics.Feedback) * World :=
  Eval vm_compute in
    aggregateFeedbackMetrics "all_time" 100 None (setClock 200 (snd futureFirst)).

End Samples.

(** ** Counting the selected events *)

Module Selection.
Import AnalyticsEvent Mongo Reader Metrics.

(** How many of the stored events the criteria select have type [ty] *)
Definition selected (mc : MatchCriteria) (ty : string)
    (es : list AnalyticsEvent.t) : N :=
  N.of_nat (length (ofType ty (match_ mc es))).

(** How many of them satisfy [P] besides *)
Definition selectedWith (mc : MatchCriteria) (ty : string)
    (P : AnalyticsEvent.t -> bool) (es : list AnalyticsEvent.t) : N :=
  N.of_nat (length (List.filter P (ofType ty (match_ mc es)))).

(** The entries of a satisfaction distribution, added up *)
Definition stars (d : Distribution) : N :=
  (star1 d + star2 d + star3 d + star4 d + star5 d)%N.

(** The counts of a tally whose key satisfies [P], added up *)
Definition weightIf {K} (P : K -> bool) (t : list (K * N)) : N :=
  fold_right N.add 0%N
    (List.map snd (List.filter (fun kn => P (fst kn)) t)).

End Selection.

(** ** What a run leaves in a collection *)

Module Written.
Import DataAggregator Assembled.

(** The collection holds, under the key, a document with metrics [m]
    calculated at [now]. *)
Definition keeps {M} (p : string) (s : Z) (c : option string) (m : M)
    (now : Z) (coll : list (Doc M)) : Prop :=
  exists doc, doc ∈ under p s c coll /\ metrics doc = m /\ calculatedAt doc = now.

(** The scopes of a scheduled run: the platform and every listed company *)
Definition scopes (w : World) : list (option string) :=
  None :: List.map Some (companies w).

(** No database call fails. *)
Definition healthy (w : World) : Prop := forall call, failing w call = None.

(** Mongoose casts the values of an update to the Number fields of the
    schema: NaN is rejected with a CastError, one of the failures of the
    upsert; [null] and the infinities pass, [undefined] is left out. *)
Definition castNumber (n : JS.number) : bool :=
  match n with
  | JS.NaN => false
  | _ => true
  end.

Definition castValue (v : JS.value) : bool :=
  match v with
  | JS.VNum n => castNumber n
  | _ => true
  end.

Definition castTimes (t : Metrics.TimeMetrics) : bool :=
  castValue (Metrics.tm_average t) && castValue (Metrics.tm_median t) &&
  castValue (Metrics.tm_min t) && castValue (Metrics.tm_max t) &&
  castValue (Metrics.tm_percentile95 t).

(** The numbers of the feedback metrics and of the user metrics can be
    stored. *)
Definition castFeedback (m : Metrics.Feedback) : bool :=
  castTimes (Metrics.responseTimes m) && castTimes (Metrics.resolutionTimes m) &&
  castValue (Metrics.sat_average (Metrics.satisfaction m)) &&
  castNumber (Metrics.esc_percentage (Metrics.escalations m)) &&
  castNumber (Metrics.com_average (Metrics.comments m)).

Definition castUser (m : Metrics.User) : bool :=
  castNumber (Metrics.averageLogins (Metrics.activity m)) &&
  castNumber (Metrics.averageSessionDuration (Metrics.activity m)) &&
  castNumber (Metrics.averageFeedbackSubmissions (Metrics.engagement m)) &&
  castNumber (Metrics.averageComments (Metrics.engagement m)) &&
  castNumber (Metrics.averageResponses (Metrics.engagement m)) &&
  castNumber (Metrics.averageResolutionTime (Metrics.engagement m)) &&
  castNumber (Metrics.readRate (Metrics.notifications m)).

(** The metrics of every scope of a run over the window from [s] to [e]
    can be stored. *)
Definition storable (s e : Z) (w : World) : Prop :=
  forall c, c ∈ scopes w ->
    castFeedback (feedbackOf s e c (events w)) = true /\
    castUser (userOf s e c (events w)) = true.

(** The world is the one a run started in at [now], but for the log and
    the metrics collections. *)
Definition during (now z : Z) (es : list AnalyticsEvent.t) (w : World) : Prop :=
  healthy w /\ clock w = now /\ zone w = z /\ events w = es.

Definition keptFeedback (p : string) (now s e : Z) (es : list AnalyticsEvent.t)
    (c : option string) (w : World) : Prop :=
  keeps p s c (feedbackOf s e c es) now (feedbackMetrics w).

Definition keptUser (p : string) (now s e : Z) (es : list AnalyticsEvent.t)
    (c : option string) (w : World) : Prop :=
  keeps p s c (userOf s e c es) now (userMetrics w).

End Written.

(** ** More sample data *)

Module Logins.
Import AnalyticsEvent.

(** A login of [user] that carries no session duration *)
Definition loginEvent (user : string) (at_ : Z) : AnalyticsEvent.t :=
  {| sourceService := "user"; eventType := "user.login"; eventData := noData;
     userId := Some user; AnalyticsEvent.companyId := None; timestamp := at_ |}.

Definition twoLogins : list AnalyticsEvent.t :=
  [loginEvent "u1" 10; loginEvent "u2" 20].

End Logins.

(** ** controllers/metricsController.js: the read handlers

    [getFeedbackMetrics], [getUserMetrics] and [getMetricsSummary] share
    their first part: the parameters are taken from [req.query], the access
    of the caller is checked, and the database filter is built from the
    parameters taken at the start. *)

Module MetricsReads.

(** [req.user]: the roles and the company, as the text [toString] gives *)
Record User := {
  roles : list string;
  user_companyId : option string
}.

(** The parameters of [req.query] the three handlers share; [None] is a
    parameter that is not given. *)
Record Query := {
  companyId : option string;
  period : option string;
  startDate : option string;
  endDate : option string
}.

(** The [periodStart] condition of the filter; a bound is [Some None] when
    its text gives an invalid date. *)
Record Range := {
  gte : option (option Z);
  lte : option (option Z)
}.

(** The [query] object handed to [find] or [findOne] *)
Record Filter := {
  f_companyId : option string;
  f_period : option string;
  f_periodStart : option Range
}.

(** How far the shared part gets: the 403 answer, or the cache lookup
    under the key made from [prefix] and [req.query], whose [companyId]
    is [key_companyId], with the filter for the database. *)
Inductive Step :=
| Forbidden (message : string)
| Lookup (prefix : string) (key_companyId : option string) (filter : Filter).

(** The access check. It answers 403 or goes on, and then gives the
    [companyId] that [req.query] holds after it: the user's company when
    the check assigns it, the parameter otherwise. *)
Definition checkAccess (user : option User) (companyId : option string)
  : string + option string :=
  match user with
  | Some u =>
      if negb (bool_decide ("admin" ∈ roles u)) then
        match MetricsController.given (user_companyId u) with
        | Some own =>
            match MetricsController.given companyId with
            | None => inr (Some own)
            | Some asked =>
                if negb (String.eqb asked own) then
                  inl "You do not have permission to access metrics for this company"
                else inr companyId
            end
        | None => inl "You do not have permission to access company metrics"
        end
      else inr companyId
  | None => inr companyId
  end.

Section Parse.
(** The time value of [new Date(text)], [None] for an invalid date *)
Variable Date_parse : string -> option Z.

(** [period = 'monthly'] in the destructuring: the default stands in for
    a parameter that is not given. *)
Definition periodOf (q : Query) : option string :=
  match period q with
  | None => Some "monthly"
  | Some p => Some p
  end.

Definition rangeOf (q : Query) : option Range :=
  match MetricsController.given (startDate q), MetricsController.given (endDate q) with
  | None, None => None
  | s, e => Some {| gte := Date_parse <$> s; lte := Date_parse <$> e |}
  end.

(** The filter, built from the constants taken from [req.query] before the
    access check ran *)
Definition filterOf (dated : bool) (q : Query) : Filter :=
  {| f_companyId := MetricsController.given (companyId q);
     f_period := MetricsController.given (periodOf q);
     f_periodStart := if dated then rangeOf q else None |}.

Definition prepare (prefix : string) (dated : bool) (user : option User)
    (q : Query) : Step :=
  match checkAccess user (companyId q) with
  | inl message => Forbidden message
  | inr keyCompany => Lookup prefix keyCompany (filterOf dated q)
  end.

Definition getFeedbackMetrics := prepare "feedback-metrics" true.
Definition getUserMetrics := prepare "user-metrics" true.
Definition getMetricsSummary := prepare "metrics-summary" false.

End Parse.

End MetricsReads.

(** ** controllers/metricsController.js: getMetricsSummary after the cache
    lookup missed *)

Module MetricsSummary.
Import Logger.

(** An entry of [categories] or [roles] *)
Record Entry := {
  name : JS.value;
  entry_count : JS.value
}.

(** A metrics document as the handler reads it: [doc[field]] for the
    numeric fields, and the lists [categories] and [roles], [None] when the
    document has none. *)
Record Document := {
  field : string -> JS.value;
  periodStart : option Z;
  periodEnd : option Z;
  categories : option (list Entry);
  docRoles : option (list Entry)
}.

(** What the four [findOne] calls give *)
Record Found := {
  feedbackMetrics : option Document;
  userMetrics : option Document;
  previousFeedbackMetrics : option Document;
  previousUserMetrics : option Document
}.

Record Change := {
  value : JS.number;
  previousValue : JS.number;
  change : JS.number;
  percentChange : JS.number
}.

(** [x === 0] for a number *)
Definition isZero (x : JS.number) : bool :=
  match x with
  | JS.Num q => JS.qzero q
  | _ => false
  end.

(** [calculateChange(current, previous, field)] *)
Definition calculateChange (current previous : option Document) (f : string)
  : option Change :=
  match current, previous with
  | Some cur, Some prev =>
      let currentValue := JS.toNumber (JS.orZero (field cur f)) in
      let previousValue := JS.toNumber (JS.orZero (field prev f)) in
      if isZero previousValue then None
      else Some {| value := currentValue;
                   previousValue := previousValue;
                   change := JS.sub currentValue previousValue;
                   percentChange :=
                     JS.mul (JS.div (JS.sub currentValue previousValue) previousValue)
                            (JS.ofZ 100) |}
  | _, _ => None
  end.

Record FeedbackSummary := {
  total : option Change;
  open : option Change;
  resolved : option Change;
  avgResponseTime : option Change;
  avgResolutionTime : option Change;
  satisfactionScore : option Change;
  topCategories : list Entry
}.

Record UserSummary := {
  users_total : option Change;
  active : option Change;
  new : option Change;
  engagement : option Change;
  topRoles : list Entry
}.

Record Summary := {
  summary_period : option string;
  summary_periodStart : option Z;
  summary_periodEnd : option Z;
  feedback : FeedbackSummary;
  users : UserSummary
}.

(** [res.status(status).json(...)], and whether the summary was cached *)
Record Response := {
  status : Z;
  success : bool;
  data : option Summary;
  message : option string;
  cached : bool
}.

(** [list?.slice(0, 3).map(...) || []] *)
Definition top3 (l : option (list Entry)) : list Entry :=
  match l with
  | Some es => take 3 es
  | None => []
  end.

Section Handler.
(** [methods] are the names of the static methods of the object that
    [require('../utils/dataAggregator')] returns, and [implementation] is
    what a method [getPreviousPeriodStart] would return if there were
    one. *)
Variable methods : list string.
Variable implementation : option Z -> option string -> option Z.

(** [DataAggregator.getPreviousPeriodStart(periodStart, period)]: calling
    a property that is not a function throws a [TypeError]. *)
Definition callGetPreviousPeriodStart (start : option Z) (period : option string)
  : Outcome (option Z) :=
  if bool_decide ("getPreviousPeriodStart" ∈ methods)
  then Ok (implementation start period)
  else Throw (TypeError "DataAggregator.getPreviousPeriodStart is not a function").

(** The body of the [try] block from the two first [findOne] calls on *)
Definition summarize (period : option string) (found : Found) : Outcome Summary :=
  match
    match feedbackMetrics found with
    | Some doc => callGetPreviousPeriodStart (periodStart doc) period
    | None => Ok None
    end
  with
  | Throw e => Throw e
  | Ok _ =>
      let fm := feedbackMetrics found in
      let pfm := previousFeedbackMetrics found in
      let um := userMetrics found in
      let pum := previousUserMetrics found in
      Ok {| summary_period := period;
            summary_periodStart := fm ≫= periodStart;
            summary_periodEnd := fm ≫= periodEnd;
            feedback :=
              {| total := calculateChange fm pfm "totalFeedback";
                 open := calculateChange fm pfm "openFeedback";
                 resolved := calculateChange fm pfm "resolvedFeedback";
                 avgResponseTime := calculateChange fm pfm "avgResponseTime";
                 avgResolutionTime := calculateChange fm pfm "avgResolutionTime";
                 satisfactionScore := calculateChange fm pfm "avgSatisfactionScore";
                 topCategories := top3 (fm ≫= categories) |};
            users :=
              {| users_total := calculateChange um pum "totalUsers";
                 active := calculateChange um pum "activeUsers";
                 new := calculateChange um pum "newUsers";
                 engagement := calculateChange um pum "avgEngagementScore";
                 topRoles := top3 (um ≫= docRoles) |} |}
  end.

Definition answer (period : option string) (found : Found) : Response :=
  match summarize period found with
  | Ok s => {| status := 200; success := true; data := Some s;
               message := None; cached := true |}
  | Throw e => {| status := 500; success := false; data := None;
                  message := Some (error_message e); cached := false |}
  end.

End Handler.

End MetricsSummary.

(** ** Sample documents *)

Module SummarySamples.
Import MetricsSummary.

(** A document whose only field is [totalUsers] *)
Definition withUsers (n : Z) : Document :=
  {| field := fun f => if String.eqb f "totalUsers" then JS.VNum (JS.ofZ n)
                       else JS.VUndefined;
     periodStart := Some 0; periodEnd := None;
     categories := None; docRoles := None |}.

Definition found : Found :=
  {| feedbackMetrics := Some (withUsers 6); userMetrics := Some (withUsers 6);
     previousFeedbackMetrics := None; previousUserMetrics := Some (withUsers 4) |}.

Definition sixAfterFour : Change :=
  {| value := JS.ofZ 6; previousValue := JS.ofZ 4; change := JS.ofZ 2;
     percentChange := JS.ofZ 50 |}.

End SummarySamples.

(** ** utils/cache.js: generateKey *)

Module Cache.

Section Key.
(** The sign of [keyA.localeCompare(keyB)]: [Lt] for a negative number,
    [Eq] for 0, [Gt] for a positive one *)
Variable localeCompare : string -> string -> comparison.

(** [Object.entries(params)] with the entries whose value is [undefined] or
    [null] left out; the values are texts. *)
Definition entries (params : list (string * option string)) : list (string * string) :=
  omap (fun kv => match snd kv with
                  | Some v => Some (fst kv, v)
                  | None => None
                  end) params.

(** [sort] with the comparator on the keys: the stable sort, in which an
    entry stays in front of a later one unless the comparator gives a
    positive number. *)
Fixpoint insertEntry (kv : string * string) (l : list (string * string))
  : list (string * string) :=
  match l with
  | [] => [kv]
  | x :: l' =>
      match localeCompare (fst kv) (fst x) with
      | Gt => x :: insertEntry kv l'
      | _ => kv :: x :: l'
      end
  end.

Definition sortEntries (l : list (string * string)) : list (string * string) :=
  fold_right insertEntry [] l.

Definition generateKey (prefix : string) (params : list (string * option string))
  : string :=
  String.concat ":"
    (prefix :: List.map (fun kv => fst kv ++ ":" ++ snd kv)
                        (sortEntries (entries params))).
End Key.

End Cache.

(** ** utils/scheduler.js: the next run of a scheduled report

    [_generateScheduledReports] moves a fresh [Date] by the frequency of the
    report and sets its time of day. The methods of [Date] work on the
    fields of the local time; [utcOffset] is the offset of the process
    time zone in minutes, taken as fixed. *)

Module Reports.
Import Moment.

Definition MS_PER_HOUR : Z := 3600000.

Section Zone.
Variable utcOffset : Z.

(** TimeWithinDay of the local time *)
Definition timeWithinDay (t : Z) : Z := localTime utcOffset t mod MS_PER_DAY.

(** The time value of a local day number and a time within the day *)
Definition fromLocal (day time : Z) : Z :=
  day * MS_PER_DAY + time - utcOffset * MS_PER_MINUTE.

(** [d.setDate(date)] *)
Definition setDate (t date : Z) : Z :=
  fromLocal (MakeDay (year utcOffset t) (month utcOffset t) date) (timeWithinDay t).

(** [d.setMonth(month)] *)
Definition setMonth (t month : Z) : Z :=
  fromLocal (MakeDay (year utcOffset t) month (Moment.date utcOffset t)) (timeWithinDay t).

(** [d.setHours(hour, minute, 0, 0)] *)
Definition setHours (t hour minute : Z) : Z :=
  fromLocal (localDay utcOffset t) (hour * MS_PER_HOUR + minute * MS_PER_MINUTE).

(** The [switch] on the frequency, which has no default case, and the
    [setHours] after it; [now] is what [new Date()] gives. *)
Definition nextRun (frequency : string) (hour minute now : Z) : Z :=
  let moved :=
    if String.eqb frequency "daily" then
      setDate now (Moment.date utcOffset now + 1)
    else if String.eqb frequency "weekly" then
      setDate now (Moment.date utcOffset now + 7)
    else if String.eqb frequency "monthly" then
      setMonth now (month utcOffset now + 1)
    else if String.eqb frequency "quarterly" then
      setMonth now (month utcOffset now + 3)
    else now in
  setHours moved hour minute.
End Zone.

(** The frequencies of the report schema *)
Definition frequencies : list string := ["daily"; "weekly"; "monthly"; "quarterly"].

End Reports.

(** * Properties *)

(** ** The calendar *)

Import Moment Calendar.

Lemma allFrom_spec p k : forall from n,
  allFrom p from k = true -> from <= n < from + Z.of_nat k -> p n = true.
Proof.
  induction k as [|k IH]; intros from n H Hn; [lia|].
  cbn [allFrom] in H. apply andb_prop in H as [H0 H1].
  destruct (Z.eq_dec n from) as [->|Hne]; [exact H0|].
  apply (IH (from + 1)); [exact H1|lia].
Qed.

Lemma enclosedb_true n : enclosedb n = true -> enclosed n.
Proof.
  unfold enclosedb, enclosed. destruct (civil_from_days n) as [[y m] d].
  rewrite !andb_true_iff. lia.
Qed.

Lemma cycle_enclosed :
  allFrom enclosedb cycleStart (Z.to_nat cycleDays) = true.
Proof. vm_cast_no_check (eq_refl true). Qed.

Lemma civil_from_days_shift n k :
  civil_from_days (n + cycleDays * k) =
  let '(y, m, d) := civil_from_days n in (y + 400 * k, m, d).
Proof.
  unfold civil_from_days, cycleDays.
  replace (n + 146097 * k + 719468) with (n + 719468 + k * 146097) by lia.
  rewrite Z.div_add by lia.
  set (era := (n + 719468) / 146097).
  replace (n + 719468 + k * 146097 - (era + k) * 146097)
    with (n + 719468 - era * 146097) by lia.
  set (doe := n + 719468 - era * 146097).
  set (yoe := (doe - doe / 1460 + doe / 36524 - doe / 146096) / 365).
  set (doy := doe - (365 * yoe + yoe / 4 - yoe / 100)).
  set (mp := (5 * doy + 2) / 153).
  destruct ((if mp <? 10 then mp + 3 else mp - 9) <=? 2); f_equal; f_equal; lia.
Qed.

Lemma days_from_civil_shift y m d k :
  days_from_civil (y + 400 * k) m d = days_from_civil y m d + cycleDays * k.
Proof.
  unfold days_from_civil, cycleDays.
  set (y0 := if m <=? 2 then y - 1 else y).
  replace (if m <=? 2 then y + 400 * k - 1 else y + 400 * k)
    with (y0 + k * 400) by (unfold y0; destruct (m <=? 2); lia).
  rewrite Z.div_add by lia.
  set (era := y0 / 400).
  replace (y0 + k * 400 - (era + k) * 400) with (y0 - era * 400) by lia.
  lia.
Qed.

Lemma MakeDay_shift y m d k :
  MakeDay (y + 400 * k) m d = MakeDay y m d + cycleDays * k.
Proof.
  unfold MakeDay.
  replace (y + 400 * k + m / 12) with (y + m / 12 + 400 * k) by lia.
  rewrite days_from_civil_shift. lia.
Qed.

Lemma enclosed_shift n k : enclosed n -> enclosed (n + cycleDays * k).
Proof.
  unfold enclosed. rewrite civil_from_days_shift.
  destruct (civil_from_days n) as [[y m] d].
  rewrite !MakeDay_shift.
  replace (y + 400 * k + 1) with (y + 1 + 400 * k) by lia.
  rewrite MakeDay_shift. lia.
Qed.

(** Every day number is enclosed. *)
Lemma all_enclosed n : enclosed n.
Proof.
  pose (k := (n - cycleStart) / cycleDays).
  pose (r := n - cycleDays * k).
  assert (Hr : cycleStart <= r < cycleStart + cycleDays).
  { unfold r, k, cycleStart, cycleDays.
    pose proof (Z.mod_pos_bound (n - -719468) 146097 ltac:(lia)).
    pose proof (Z.div_mod (n - -719468) 146097 ltac:(lia)). lia. }
  replace n with (r + cycleDays * k) by (unfold r; lia).
  apply enclosed_shift, enclosedb_true.
  apply (allFrom_spec _ _ _ _ cycle_enclosed).
  unfold cycleDays in *. lia.
Qed.

Lemma MakeDay_date y m d j : MakeDay y m (d + j) = MakeDay y m d + j.
Proof. unfold MakeDay. lia. Qed.


(** ** The period calculator *)


Section Window.
Variable utcOffset : Z.
Variable t : Z.

Let n := localDay utcOffset t.
Let shift := utcOffset * MS_PER_MINUTE.

(** The instant lies in its local day. *)
Lemma day_bounds : n * MS_PER_DAY - shift <= t <= (n + 1) * MS_PER_DAY - shift - 1.
Proof.
  unfold n, shift, localDay, localTime, MS_PER_DAY, MS_PER_MINUTE.
  pose proof (Z.div_mod (t + utcOffset * 60000) 86400000 ltac:(lia)).
  pose proof (Z.mod_pos_bound (t + utcOffset * 60000) 86400000 ltac:(lia)).
  lia.
Qed.

Lemma startOf_Day : startOf utcOffset Day t = n * MS_PER_DAY - shift.
Proof.
  unfold startOf, startOfDate, Moment.year, Moment.month, Moment.date. fold n. fold shift.
  pose proof (all_enclosed n) as H. unfold enclosed in H.
  destruct (civil_from_days n) as [[y m] d]. cbn [fst snd].
  destruct H as (_ & _ & -> & _). reflexivity.
Qed.

Lemma endOf_Day : endOf utcOffset Day t = (n + 1) * MS_PER_DAY - shift - 1.
Proof.
  unfold endOf, startOfDate, Moment.year, Moment.month, Moment.date. fold n. fold shift.
  pose proof (all_enclosed n) as H. unfold enclosed in H.
  destruct (civil_from_days n) as [[y m] d]. cbn [fst snd].
  rewrite MakeDay_date. destruct H as (_ & _ & -> & _). reflexivity.
Qed.

Lemma startOf_Week :
  startOf utcOffset Week t = (n - weekday utcOffset t) * MS_PER_DAY - shift.
Proof.
  unfold startOf, startOfDate, Moment.year, Moment.month, Moment.date. fold n. fold shift.
  pose proof (all_enclosed n) as H. unfold enclosed in H.
  destruct (civil_from_days n) as [[y m] d]. cbn [fst snd].
  replace (d - weekday utcOffset t) with (d + - weekday utcOffset t) by lia.
  rewrite MakeDay_date. destruct H as (_ & _ & -> & _). lia.
Qed.

Lemma endOf_Week :
  endOf utcOffset Week t = startOf utcOffset Week t + 7 * MS_PER_DAY - 1.
Proof.
  rewrite startOf_Week.
  unfold endOf, startOfDate, Moment.year, Moment.month, Moment.date. fold n. fold shift.
  pose proof (all_enclosed n) as H. unfold enclosed in H.
  destruct (civil_from_days n) as [[y m] d]. cbn [fst snd].
  replace (d - weekday utcOffset t + 7) with (d + (7 - weekday utcOffset t)) by lia.
  rewrite MakeDay_date. destruct H as (_ & _ & -> & _). lia.
Qed.

Lemma weekday_range : 0 <= weekday utcOffset t <= 6.
Proof.
  unfold weekday. pose proof (Z.mod_pos_bound (localDay utcOffset t + 4) 7 ltac:(lia)). lia.
Qed.

(** Month, quarter and year start no later than the day and end no
    earlier. *)
Lemma calendar_bounds u :
  u = Month \/ u = Quarter \/ u = Year ->
  startOf utcOffset u t <= n * MS_PER_DAY - shift /\
  (n + 1) * MS_PER_DAY - shift - 1 <= endOf utcOffset u t.
Proof.
  intros Hu.
  unfold startOf, endOf, startOfDate, Moment.year, Moment.month, Moment.date. fold n. fold shift.
  pose proof (all_enclosed n) as H. unfold enclosed in H.
  destruct (civil_from_days n) as [[y m] d]. cbn [fst snd].
  destruct H as (Hm & Hd & Hn & Hnext & Hq & Hy).
  assert (Hfirst : MakeDay y (m - 1) 1 <= n).
  { pose proof (MakeDay_date y (m - 1) d (1 - d)) as E.
    replace (d + (1 - d)) with 1 in E by lia. lia. }
  replace (m - 1 + 1) with m by lia.
  unfold MS_PER_DAY.
  destruct Hu as [-> | [-> | ->]]; lia.
Qed.

End Window.

(** The local day and the day of the week of a day boundary *)
Lemma localDay_boundary utcOffset k :
  localDay utcOffset (k * MS_PER_DAY - utcOffset * MS_PER_MINUTE) = k.
Proof.
  unfold localDay, localTime, MS_PER_DAY.
  replace (k * 86400000 - utcOffset * MS_PER_MINUTE + utcOffset * MS_PER_MINUTE)
    with (k * 86400000) by lia.
  apply Z.div_mul. lia.
Qed.

Lemma boundary_midnight utcOffset k :
  isMidnight utcOffset (k * MS_PER_DAY - utcOffset * MS_PER_MINUTE).
Proof.
  unfold isMidnight, localTime.
  replace (k * MS_PER_DAY - utcOffset * MS_PER_MINUTE + utcOffset * MS_PER_MINUTE)
    with (k * MS_PER_DAY) by lia.
  apply Z.mod_mul. unfold MS_PER_DAY. lia.
Qed.

Lemma midnight_boundary utcOffset s :
  isMidnight utcOffset s ->
  s = localDay utcOffset s * MS_PER_DAY - utcOffset * MS_PER_MINUTE.
Proof.
  unfold isMidnight, localDay. intros H.
  pose proof (Z.div_mod (localTime utcOffset s) MS_PER_DAY ltac:(unfold MS_PER_DAY; lia)) as E.
  rewrite H in E. unfold localTime in *. lia.
Qed.

Lemma startOf_Week_sunday utcOffset t :
  isSundayMidnight utcOffset (startOf utcOffset Week t).
Proof.
  rewrite startOf_Week. split; [apply boundary_midnight|].
  unfold weekday at 1. rewrite localDay_boundary.
  unfold weekday.
  set (n := localDay utcOffset t).
  pose proof (Z.div_mod (n + 4) 7 ltac:(lia)) as E.
  replace (n - (n + 4) mod 7 + 4) with (((n + 4) / 7) * 7) by lia.
  apply Z.mod_mul. lia.
Qed.

(** No Sunday midnight lies between the start of the week and the
    instant. *)
Lemma startOf_Week_latest utcOffset t s :
  isSundayMidnight utcOffset s -> s <= t -> s <= startOf utcOffset Week t.
Proof.
  intros [Hmid Hsun] Hle.
  rewrite startOf_Week.
  rewrite (midnight_boundary _ _ Hmid) in Hle |- *.
  unfold weekday in *.
  set (k := localDay utcOffset s) in *.
  set (n := localDay utcOffset t) in *.
  pose proof (day_bounds utcOffset t) as B. fold n in B.
  assert (Hkn : k <= n) by (unfold MS_PER_DAY in *; lia).
  pose proof (Z.div_mod (k + 4) 7 ltac:(lia)) as Ek. rewrite Hsun in Ek.
  pose proof (Z.div_mod (n + 4) 7 ltac:(lia)) as En.
  pose proof (Z.mod_pos_bound (n + 4) 7 ltac:(lia)) as Bn.
  assert (k <= n - (n + 4) mod 7) by lia.
  unfold MS_PER_DAY. lia.
Qed.


Import DataAggregator.

(** ** Calendar windows in day numbers *)

Lemma spansb_true k : spansb k = true -> spans k.
Proof.
  unfold spansb, spans. rewrite !andb_true_iff.
  intros [[[H1 H2] H3] H4]. split; [lia|]. split; intros Hk.
  - apply Z.eqb_eq in Hk. rewrite Hk in H3. apply andb_true_iff in H3. lia.
  - apply Z.eqb_eq in Hk. rewrite Hk in H4. apply andb_true_iff in H4. lia.
Qed.

Lemma cycle_spans : allFrom spansb 0 (Z.to_nat 4800) = true.
Proof. vm_compute. reflexivity. Qed.

Lemma monthStart_shift k j : monthStart (k + 4800 * j) = monthStart k + cycleDays * j.
Proof.
  unfold monthStart, MakeDay.
  replace (k + 4800 * j) with (k + (400 * j) * 12) by lia.
  rewrite Z.div_add, Z.mod_add by lia.
  replace (0 + (k / 12 + 400 * j)) with (0 + k / 12 + 400 * j) by lia.
  rewrite days_from_civil_shift. lia.
Qed.

Lemma all_spans k : spans k.
Proof.
  pose (j := k / 4800). pose (r := k mod 4800).
  pose proof (Z.div_mod k 4800 ltac:(lia)) as E.
  pose proof (Z.mod_pos_bound k 4800 ltac:(lia)) as B.
  fold j r in E, B.
  assert (Hr : spans r).
  { apply spansb_true. apply (allFrom_spec _ _ _ _ cycle_spans). lia. }
  replace k with (r + 4800 * j) by lia.
  unfold spans in *.
  replace (r + 4800 * j + 1) with (r + 1 + 4800 * j) by lia.
  replace (r + 4800 * j + 3) with (r + 3 + 4800 * j) by lia.
  replace (r + 4800 * j + 12) with (r + 12 + 4800 * j) by lia.
  rewrite !monthStart_shift.
  replace ((r + 4800 * j) mod 3) with (r mod 3)
    by (replace (r + 4800 * j) with (r + (1600 * j) * 3) by lia;
        now rewrite Z.mod_add by lia).
  replace ((r + 4800 * j) mod 12) with (r mod 12)
    by (replace (r + 4800 * j) with (r + (400 * j) * 12) by lia;
        now rewrite Z.mod_add by lia).
  destruct Hr as (H1 & H2 & H3). split; [lia|]. split; intros Hk.
  - specialize (H2 Hk). lia.
  - specialize (H3 Hk). lia.
Qed.

Lemma monthStart_next k : monthStart k < monthStart (k + 1).
Proof. destruct (all_spans k) as [H _]. lia. Qed.

Lemma monthStart_mono a b : a <= b -> monthStart a <= monthStart b.
Proof.
  intros Hab. replace b with (a + Z.of_nat (Z.to_nat (b - a))) by lia.
  induction (Z.to_nat (b - a)) as [|n IH]; [now rewrite Z.add_0_r|].
  rewrite Nat2Z.inj_succ.
  pose proof (monthStart_next (a + Z.of_nat n)).
  replace (a + Z.succ (Z.of_nat n)) with (a + Z.of_nat n + 1) by lia. lia.
Qed.

Lemma MakeDay_index y mo d : MakeDay y mo d = MakeDay 0 (12 * y + mo) d.
Proof.
  unfold MakeDay.
  replace (12 * y + mo) with (mo + y * 12) by lia.
  rewrite Z.div_add, Z.mod_add by lia. f_equal. f_equal. f_equal. lia.
Qed.

(** A day lies in the month its civil date names. *)
Lemma monthIndex_bounds n :
  monthStart (monthIndex n) <= n < monthStart (monthIndex n + 1).
Proof.
  pose proof (all_enclosed n) as H. unfold enclosed, monthIndex, monthStart in *.
  destruct (civil_from_days n) as [[y m] d].
  destruct H as (Hm & Hd & Hn & Hnext & _).
  rewrite (MakeDay_index y (m - 1) d) in Hn. rewrite (MakeDay_index y m 1) in Hnext.
  replace (12 * y + m - 1 + 1) with (12 * y + m) by lia.
  replace (12 * y + m - 1) with (12 * y + (m - 1)) by lia.
  pose proof (MakeDay_date 0 (12 * y + (m - 1)) 1 (d - 1)) as E.
  replace (1 + (d - 1)) with d in E by lia. lia.
Qed.

Lemma monthIndex_unique n k :
  monthStart k <= n < monthStart (k + 1) -> monthIndex n = k.
Proof.
  intros Hk. pose proof (monthIndex_bounds n) as Hn.
  destruct (Z.lt_trichotomy (monthIndex n) k) as [Hlt|[Heq|Hgt]]; [|exact Heq|].
  - pose proof (monthStart_mono (monthIndex n + 1) k ltac:(lia)). lia.
  - pose proof (monthStart_mono (k + 1) (monthIndex n) ltac:(lia)). lia.
Qed.

Lemma monthIndex_between n a g :
  0 < g -> monthStart a <= n < monthStart (a + g) -> a <= monthIndex n < a + g.
Proof.
  intros Hg Ha. pose proof (monthIndex_bounds n) as Hn.
  split.
  - destruct (Z.le_gt_cases a (monthIndex n)) as [|Hlt]; [assumption|].
    pose proof (monthStart_mono (monthIndex n + 1) a ltac:(lia)). lia.
  - destruct (Z.lt_ge_cases (monthIndex n) (a + g)) as [|Hge]; [assumption|].
    pose proof (monthStart_mono (a + g) (monthIndex n) ltac:(lia)). lia.
Qed.

Section Buckets.
Variable utcOffset : Z.

Let shift := utcOffset * MS_PER_MINUTE.

(** What [startOf] and [endOf] compute, in day numbers *)
Lemma startOf_firstDay u t :
  startOf utcOffset u t = firstDay u (localDay utcOffset t) * MS_PER_DAY - shift.
Proof.
  destruct u; [apply startOf_Day | apply startOf_Week | | |];
    unfold startOf, startOfDate, Moment.year, Moment.month, firstDay,
      monthIndex, monthStart, monthsOf;
    pose proof (all_enclosed (localDay utcOffset t)) as H; unfold enclosed in H;
    destruct (civil_from_days (localDay utcOffset t)) as [[y m] d];
    cbn [fst snd]; destruct H as (Hm & _); fold shift;
    rewrite MakeDay_index; do 3 f_equal.
  - rewrite Z.mod_1_r. lia.
  - replace (12 * y + m - 1) with (m - 1 + (4 * y) * 3) by lia.
    rewrite Z.mod_add by lia. lia.
  - replace (12 * y + m - 1) with (m - 1 + y * 12) by lia.
    rewrite Z.mod_add by lia. rewrite Z.mod_small by lia. lia.
Qed.

Lemma endOf_nextFirstDay u t :
  endOf utcOffset u t
  = nextFirstDay u (localDay utcOffset t) * MS_PER_DAY - shift - 1.
Proof.
  destruct u;
    [apply endOf_Day
    | rewrite endOf_Week, startOf_Week; unfold nextFirstDay, weekday, MS_PER_DAY; fold shift; lia
    | | |];
    unfold endOf, startOfDate, Moment.year, Moment.month, nextFirstDay,
      monthIndex, monthStart, monthsOf;
    pose proof (all_enclosed (localDay utcOffset t)) as H; unfold enclosed in H;
    destruct (civil_from_days (localDay utcOffset t)) as [[y m] d];
    cbn [fst snd]; destruct H as (Hm & _); fold shift;
    rewrite MakeDay_index; do 4 f_equal.
  - rewrite Z.mod_1_r. lia.
  - replace (12 * y + m - 1) with (m - 1 + (4 * y) * 3) by lia.
    rewrite Z.mod_add by lia. lia.
  - replace (12 * y + m - 1) with (m - 1 + y * 12) by lia.
    rewrite Z.mod_add by lia. rewrite Z.mod_small by lia. lia.
Qed.

End Buckets.

(** A day lies in its window. *)
Lemma firstDay_bounds u n : firstDay u n <= n < nextFirstDay u n.
Proof.
  destruct u; unfold firstDay, nextFirstDay, monthsOf.
  - lia.
  - pose proof (Z.mod_pos_bound (n + 4) 7 ltac:(lia)). lia.
  - rewrite Z.mod_1_r. replace (monthIndex n - 0) with (monthIndex n) by lia.
    apply monthIndex_bounds.
  - pose proof (Z.mod_pos_bound (monthIndex n) 3 ltac:(lia)).
    pose proof (monthIndex_bounds n).
    pose proof (monthStart_mono (monthIndex n - monthIndex n mod 3) (monthIndex n) ltac:(lia)).
    pose proof (monthStart_mono (monthIndex n + 1) (monthIndex n - monthIndex n mod 3 + 3) ltac:(lia)).
    lia.
  - pose proof (Z.mod_pos_bound (monthIndex n) 12 ltac:(lia)).
    pose proof (monthIndex_bounds n).
    pose proof (monthStart_mono (monthIndex n - monthIndex n mod 12) (monthIndex n) ltac:(lia)).
    pose proof (monthStart_mono (monthIndex n + 1) (monthIndex n - monthIndex n mod 12 + 12) ltac:(lia)).
    lia.
Qed.

Lemma aligned_floor k a g : 0 < g -> a mod g = 0 -> a <= k < a + g -> k - k mod g = a.
Proof.
  intros Hg Ha Hk.
  pose proof (Z.div_mod a g ltac:(lia)) as Ea. rewrite Ha in Ea.
  assert (E : k mod g = k - a).
  { symmetry. apply (Z.mod_unique_pos k g (a / g) (k - a)); lia. }
  lia.
Qed.

Lemma aligned_index k g : 0 < g -> (k - k mod g) mod g = 0.
Proof.
  intros Hg. pose proof (Z.div_mod k g ltac:(lia)) as E.
  replace (k - k mod g) with ((k / g) * g) by lia. apply Z.mod_mul. lia.
Qed.

(** Every day of a window has that window. *)
Lemma firstDay_stable u n n' :
  firstDay u n <= n' < nextFirstDay u n ->
  firstDay u n' = firstDay u n /\ nextFirstDay u n' = nextFirstDay u n.
Proof.
  assert (Hmonths : forall g, 0 < g ->
            monthStart (monthIndex n - monthIndex n mod g) <= n'
              < monthStart (monthIndex n - monthIndex n mod g + g) ->
            monthIndex n' - monthIndex n' mod g = monthIndex n - monthIndex n mod g).
  { intros g Hg H. apply aligned_floor; [exact Hg|now apply aligned_index|].
    now apply monthIndex_between. }
  destruct u; unfold firstDay, nextFirstDay, monthsOf; intros H.
  - lia.
  - pose proof (Z.mod_pos_bound (n + 4) 7 ltac:(lia)).
    pose proof (Z.div_mod (n + 4) 7 ltac:(lia)).
    assert (E : (n' + 4) mod 7 = n' + 4 - 7 * ((n + 4) / 7)).
    { symmetry. apply (Z.mod_unique_pos (n' + 4) 7 ((n + 4) / 7)); lia. }
    lia.
  - rewrite (Hmonths 1) by (lia || exact H). auto.
  - rewrite (Hmonths 3) by (lia || exact H). auto.
  - rewrite (Hmonths 12) by (lia || exact H). auto.
Qed.

(** The first day of the next window starts its own window. *)
Lemma nextFirstDay_first u n : firstDay u (nextFirstDay u n) = nextFirstDay u n.
Proof.
  assert (Hmonths : forall g, 0 < g ->
            let a := monthIndex n - monthIndex n mod g + g in
            monthIndex (monthStart a) - monthIndex (monthStart a) mod g = a).
  { intros g Hg a. apply aligned_floor; [exact Hg| |].
    - unfold a. replace (monthIndex n - monthIndex n mod g + g)
        with (monthIndex n - monthIndex n mod g + 1 * g) by lia.
      rewrite Z.mod_add by lia. now apply aligned_index.
    - rewrite (monthIndex_unique (monthStart a) a); [lia|].
      pose proof (monthStart_next a). lia. }
  destruct u; unfold firstDay, nextFirstDay, monthsOf.
  - reflexivity.
  - pose proof (Z.div_mod (n + 4) 7 ltac:(lia)).
    replace (n - (n + 4) mod 7 + 7 + 4) with (((n + 4) / 7 + 1) * 7) by lia.
    rewrite Z.mod_mul by lia. lia.
  - now rewrite (Hmonths 1) by lia.
  - now rewrite (Hmonths 3) by lia.
  - now rewrite (Hmonths 12) by lia.
Qed.

Import Kinds.

Lemma calendar_kind_unit p :
  p ∈ calendarKinds ->
  exists u, forall utcOffset now t,
    _calculatePeriodDates utcOffset now p t
    = Ok (startOf utcOffset u t, endOf utcOffset u t).
Proof.
  unfold calendarKinds. rewrite !elem_of_cons.
  intros [->|[->|[->|[->|[->|H]]]]];
    [exists Day | exists Week | exists Month | exists Quarter | exists Year
    | now apply elem_of_nil in H]; reflexivity.
Qed.

Lemma localDay_in_window utcOffset u t t' :
  startOf utcOffset u t <= t' <= endOf utcOffset u t ->
  firstDay u (localDay utcOffset t) <= localDay utcOffset t'
    < nextFirstDay u (localDay utcOffset t).
Proof.
  rewrite startOf_firstDay, endOf_nextFirstDay.
  pose proof (day_bounds utcOffset t') as B. unfold MS_PER_DAY in *. lia.
Qed.

Lemma window_stable utcOffset u t t' :
  startOf utcOffset u t <= t' <= endOf utcOffset u t ->
  startOf utcOffset u t' = startOf utcOffset u t /\
  endOf utcOffset u t' = endOf utcOffset u t.
Proof.
  intros H. apply localDay_in_window in H.
  destruct (firstDay_stable u _ _ H) as [E1 E2].
  now rewrite !startOf_firstDay, !endOf_nextFirstDay, E1, E2.
Qed.

(** ** The period calculator in a zone whose clocks change *)

Lemma timeClip_inside v :
  - Local.MAX_TIME <= v <= Local.MAX_TIME -> Local.timeClip v = Some v.
Proof.
  intros H. unfold Local.timeClip.
  destruct (Z.leb_spec (- Local.MAX_TIME) v); [|lia].
  destruct (Z.leb_spec v Local.MAX_TIME); [reflexivity|lia].
Qed.

Lemma MakeDay_firstDay u n :
  match u with
  | Year => MakeDay (fst (fst (civil_from_days n))) 0 1
  | Quarter =>
      MakeDay (fst (fst (civil_from_days n)))
        (snd (fst (civil_from_days n)) - 1 - (snd (fst (civil_from_days n)) - 1) mod 3) 1
  | Month => MakeDay (fst (fst (civil_from_days n))) (snd (fst (civil_from_days n)) - 1) 1
  | Week =>
      MakeDay (fst (fst (civil_from_days n))) (snd (fst (civil_from_days n)) - 1)
        (snd (civil_from_days n) - (n + 4) mod 7)
  | Day =>
      MakeDay (fst (fst (civil_from_days n))) (snd (fst (civil_from_days n)) - 1)
        (snd (civil_from_days n))
  end = firstDay u n.
Proof.
  pose proof (startOf_firstDay 0 u (n * MS_PER_DAY - 0 * MS_PER_MINUTE)) as H.
  cbv zeta in H. rewrite localDay_boundary in H.
  assert (E : forall a b, a * MS_PER_DAY - 0 * MS_PER_MINUTE = b * MS_PER_DAY - 0 * MS_PER_MINUTE -> a = b)
    by (unfold MS_PER_DAY; lia).
  apply E. rewrite <- H. clear H E.
  unfold startOf, startOfDate, Moment.year, Moment.month, Moment.date, Moment.weekday.
  rewrite !localDay_boundary. destruct u; reflexivity.
Qed.

Lemma MakeDay_nextFirstDay u n :
  match u with
  | Year => MakeDay (fst (fst (civil_from_days n)) + 1) 0 1
  | Quarter =>
      MakeDay (fst (fst (civil_from_days n)))
        (snd (fst (civil_from_days n)) - 1 - (snd (fst (civil_from_days n)) - 1) mod 3 + 3) 1
  | Month =>
      MakeDay (fst (fst (civil_from_days n))) (snd (fst (civil_from_days n)) - 1 + 1) 1
  | Week =>
      MakeDay (fst (fst (civil_from_days n))) (snd (fst (civil_from_days n)) - 1)
        (snd (civil_from_days n) - (n + 4) mod 7 + 7)
  | Day =>
      MakeDay (fst (fst (civil_from_days n))) (snd (fst (civil_from_days n)) - 1)
        (snd (civil_from_days n) + 1)
  end = nextFirstDay u n.
Proof.
  pose proof (endOf_nextFirstDay 0 u (n * MS_PER_DAY - 0 * MS_PER_MINUTE)) as H.
  cbv zeta in H. rewrite localDay_boundary in H.
  assert (E : forall a b,
            a * MS_PER_DAY - 0 * MS_PER_MINUTE - 1 = b * MS_PER_DAY - 0 * MS_PER_MINUTE - 1 ->
            a = b)
    by (unfold MS_PER_DAY; lia).
  apply E. rewrite <- H. clear H E.
  unfold endOf, startOfDate, Moment.year, Moment.month, Moment.date, Moment.weekday.
  rewrite !localDay_boundary. destruct u; reflexivity.
Qed.

(** What [startOf] and [endOf] compute, in day numbers *)
Lemma local_startOf_firstDay z u t :
  Local.startOf z u t
  = Local.timeClip (Local.midnight z (firstDay u (Local.localDay z t))).
Proof.
  rewrite <- (MakeDay_firstDay u (Local.localDay z t)).
  unfold Local.startOf, Local.startOfDate, Local.year, Local.month, Local.date,
    Local.weekday, Local.midnight.
  destruct u; reflexivity.
Qed.

Lemma local_endOf_nextFirstDay z u t :
  Local.endOf z u t
  = Local.justBefore
      (Local.timeClip (Local.midnight z (nextFirstDay u (Local.localDay z t)))).
Proof.
  rewrite <- (MakeDay_nextFirstDay u (Local.localDay z t)).
  unfold Local.endOf, Local.startOfDate, Local.year, Local.month, Local.date,
    Local.weekday, Local.midnight.
  destruct u; reflexivity.
Qed.

(** The instant lies in its local day. *)
Lemma local_day_bounds z t :
  Local.localDay z t * MS_PER_DAY <= Local.localTime z t
    < (Local.localDay z t + 1) * MS_PER_DAY.
Proof.
  unfold Local.localDay, MS_PER_DAY.
  pose proof (Z.div_mod (Local.localTime z t) 86400000 ltac:(lia)).
  pose proof (Z.mod_pos_bound (Local.localTime z t) 86400000 ltac:(lia)).
  lia.
Qed.

Lemma midnight_near z d :
  Local.regular z ->
  d * MS_PER_DAY - MS_PER_DAY < Local.midnight z d < d * MS_PER_DAY + MS_PER_DAY.
Proof.
  intros (Hoff & _). specialize (Hoff (d * MS_PER_DAY)).
  unfold Local.midnight, Local.utc, MS_PER_DAY, MS_PER_MINUTE in *. lia.
Qed.




(** The offsets in force at two midnights account for the time between
    them. *)
Lemma midnight_distance z a b :
  Local.regular z ->
  Local.midnight z b - Local.midnight z a
  = (b - a) * MS_PER_DAY
    - (Local.offsetAt z (Local.midnight z b) - Local.offsetAt z (Local.midnight z a))
      * MS_PER_MINUTE.
Proof.
  intros (_ & H0 & _).
  pose proof (H0 a) as Ea. pose proof (H0 b) as Eb.
  unfold Local.localTime in Ea, Eb. lia.
Qed.

(** The window of a unit: it runs from the local midnight that starts the
    first day of the unit to the millisecond before the local midnight
    that starts the next one, and holds the instant. *)
Lemma local_window z u t k :
  Local.regular z ->
  nextFirstDay u (Local.localDay z t) - firstDay u (Local.localDay z t) <= k ->
  Local.inside (k + 2) t ->
  Local.startOf z u t = Some (Local.midnight z (firstDay u (Local.localDay z t))) /\
  Local.endOf z u t = Some (Local.midnight z (nextFirstDay u (Local.localDay z t)) - 1) /\
  Local.midnight z (firstDay u (Local.localDay z t)) <= t
    <= Local.midnight z (nextFirstDay u (Local.localDay z t)) - 1.
Proof.
  intros Hreg Hk Hin.
  rewrite local_startOf_firstDay, local_endOf_nextFirstDay.
  set (n := Local.localDay z t) in *.
  set (a := firstDay u n) in *. set (b := nextFirstDay u n) in *.
  pose proof (firstDay_bounds u n) as Hab. fold a b in Hab.
  pose proof (local_day_bounds z t) as Hday. fold n in Hday.
  pose proof (midnight_near z a Hreg) as Na.
  pose proof (midnight_near z b Hreg) as Nb.
  pose proof (midnight_near z n Hreg) as Nn.
  pose proof (midnight_near z (n + 1) Hreg) as Nn1.
  destruct Hreg as (_ & _ & H1 & _).
  assert (Hn : Local.midnight z n <= t) by (apply H1; lia).
  assert (Hn1 : t < Local.midnight z (n + 1)).
  { destruct (Z.lt_ge_cases t (Local.midnight z (n + 1))) as [|Hge]; [assumption|].
    apply H1 in Hge. lia. }
  assert (Ha : Local.midnight z a <= t).
  { apply H1. unfold MS_PER_DAY in *. lia. }
  assert (Hb : t < Local.midnight z b).
  { destruct (Z.lt_ge_cases t (Local.midnight z b)) as [|Hge]; [assumption|].
    apply H1 in Hge. unfold MS_PER_DAY in *. lia. }
  unfold Local.inside, Local.MAX_TIME, MS_PER_DAY in *.
  rewrite (timeClip_inside (Local.midnight z a))
    by (unfold Local.MAX_TIME; lia).
  rewrite (timeClip_inside (Local.midnight z b))
    by (unfold Local.MAX_TIME; lia).
  cbn [Local.justBefore].
  rewrite (timeClip_inside (Local.midnight z b - 1))
    by (unfold Local.MAX_TIME; lia).
  repeat split; lia.
Qed.

Lemma window_valid z u t k :
  0 <= k -> Local.inside k t ->
  Local.window z u (Some t) = (Local.startOf z u t, Local.endOf z u t).
Proof.
  intros Hk Hin. unfold Local.window. cbn [mbind option_bind].
  rewrite timeClip_inside; [reflexivity|].
  unfold Local.inside, MS_PER_DAY in Hin. lia.
Qed.

Lemma window_days u n :
  nextFirstDay u n - firstDay u n
  <= match u with Day => 1 | Week => 7 | _ => 366 end.
Proof.
  destruct u; unfold firstDay, nextFirstDay, monthsOf.
  - lia.
  - lia.
  - rewrite Z.mod_1_r. replace (monthIndex n - 0) with (monthIndex n) by lia.
    destruct (all_spans (monthIndex n)) as [H _]. lia.
  - pose proof (aligned_index (monthIndex n) 3 ltac:(lia)) as Ha.
    destruct (all_spans (monthIndex n - monthIndex n mod 3)) as (_ & H & _).
    specialize (H Ha). lia.
  - pose proof (aligned_index (monthIndex n) 12 ltac:(lia)) as Ha.
    destruct (all_spans (monthIndex n - monthIndex n mod 12)) as (_ & _ & H).
    specialize (H Ha). lia.
Qed.

(** Zones that are regular: the fixed ones and one with a clock change *)
Lemma fixed_regular k : - 1440 < k < 1440 -> Local.regular (Local.fixed k).
Proof.
  intros Hk.
  unfold Local.regular, Local.midnight, Local.localTime, Local.utc, Local.fixed.
  cbn [Local.offsetAt Local.offsetOfLocal].
  repeat split; intros; lia.
Qed.

Lemma springForward_regular : Local.regular Local.springForward.
Proof.
  unfold Local.regular, Local.midnight, Local.localTime, Local.utc, Local.springForward,
    MS_PER_DAY, MS_PER_MINUTE.
  cbn [Local.offsetAt Local.offsetOfLocal].
  split; [|split; [|split]].
  - intros l. destruct (l <? 1710039600000); lia.
  - intros d.
    destruct (Z.ltb_spec (d * 86400000) 1710039600000);
      match goal with |- context [?a <? ?b] => destruct (Z.ltb_spec a b) end; lia.
  - intros d t.
    destruct (Z.ltb_spec (d * 86400000) 1710039600000);
      destruct (Z.ltb_spec t 1710054000000); lia.
  - intros d t.
    destruct (Z.ltb_spec (d * 86400000) 1710039600000);
      destruct (Z.ltb_spec t 1710054000000); lia.
Qed.




(** In a zone that keeps one offset the two models agree. *)
Lemma fixed_zone_agrees z k u t :
  Local.keeps z k -> - 1440 < k < 1440 -> Local.inside 368 t ->
  Local.startOf z u t = Some (startOf k u t) /\
  Local.endOf z u t = Some (endOf k u t).
Proof.
  intros [Hat Hof] Hk Hin.
  assert (Hreg : Local.regular z).
  { unfold Local.regular, Local.midnight, Local.localTime, Local.utc.
    repeat split; intros; rewrite ?Hat, ?Hof in *; lia. }
  assert (Hday : Local.localDay z t = localDay k t).
  { unfold Local.localDay, Local.localTime, localDay, localTime. now rewrite Hat. }
  destruct (local_window z u t 366 Hreg) as (Hs & He & _).
  { pose proof (window_days u (Local.localDay z t)). destruct u; lia. }
  { exact Hin. }
  rewrite Hs, He, startOf_firstDay, endOf_nextFirstDay, Hday.
  unfold Local.midnight, Local.utc. rewrite !Hof. split; reflexivity.
Qed.

(** So do the two period calculators. *)
Lemma calculators_agree z k now p t :
  Local.keeps z k -> - 1440 < k < 1440 -> Local.inside 368 t ->
  Local._calculatePeriodDates z now p (Some t)
  = match _calculatePeriodDates k now p t with
    | Ok (s, e) => Ok (Some s, Some e)
    | Throw err => Throw err
    end.
Proof.
  intros Hz Hk Hin.
  assert (H : forall u, Local.window z u (Some t) = (Some (startOf k u t), Some (endOf k u t))).
  { intros u. rewrite (window_valid z u t 368 ltac:(lia) Hin).
    now destruct (fixed_zone_agrees z k u t Hz Hk Hin) as [-> ->]. }
  unfold Local._calculatePeriodDates, _calculatePeriodDates. rewrite !H.
  repeat (destruct (String.eqb p _); [reflexivity|]). reflexivity.
Qed.

(** For an invalid reference date the calendar windows are invalid dates
    and nothing is thrown. *)
Example invalid_reference_sample :
  Local._calculatePeriodDates (Local.fixed 0) 0 "weekly" None = Ok (None, None).
Proof. reflexivity. Qed.

Example daily_window_sample :
  _calculatePeriodDates 0 0 "daily" 86399999 = Ok (0, 86399999).
Proof. vm_compute. reflexivity. Qed.

Example all_time_window_sample :
  _calculatePeriodDates 0 5000 "all_time" 1000 = Ok (0, 5000).
Proof. reflexivity. Qed.
(** 2024-02-15T10:30:00Z is 1707993000000. *)
Example moment_month_sample :
  Moment.startOf 0 Moment.Month 1707993000000 = 1706745600000 /\
  Moment.endOf 0 Moment.Month 1707993000000 = 1709251199999 /\
  Moment.startOf 0 Moment.Week 1707993000000 = 1707609600000 /\
  Moment.startOf 0 Moment.Quarter 1707993000000 = 1704067200000 /\
  Moment.endOf 0 Moment.Year 1707993000000 = 1735689599999 /\
  Moment.startOf 180 Moment.Day 1707993000000 = 1707944400000.
Proof. repeat split; vm_compute; reflexivity. Qed.

(** ** JavaScript numbers *)

Import Mongo Reader Metrics Stats.

Lemma Qred_sign_pos q : (0 <? Qnum (Qred q)) = (0 <? Qnum q).
Proof.
  pose proof (Qred_correct q) as E. unfold Qeq in E.
  destruct (Qred q) as [a b], q as [c d]; cbn [Qnum Qden] in *.
  apply eq_true_iff_eq. rewrite !Z.ltb_lt. nia.
Qed.

Lemma Qred_zero q : JS.qzero (Qred q) = JS.qzero q.
Proof.
  unfold JS.qzero.
  pose proof (Qred_correct q) as E. unfold Qeq in E.
  destruct (Qred q) as [a b], q as [c d]; cbn [Qnum Qden] in *.
  apply eq_true_iff_eq. rewrite !Z.eqb_eq. nia.
Qed.

(** [x - y > 0] on integers *)
Lemma gt0_sub_ofZ x y : JS.gt0 (JS.sub (JS.ofZ x) (JS.ofZ y)) = (y <? x).
Proof.
  unfold JS.sub, JS.neg, JS.add, JS.ofZ, JS.gt0.
  rewrite Qred_sign_pos.
  pose proof (Qred_correct (- inject_Z y)) as E. unfold Qeq in E.
  destruct (Qred (- inject_Z y)) as [a b]. cbn in *.
  apply eq_true_iff_eq. rewrite !Z.ltb_lt. nia.
Qed.

Lemma gt0_ofN n : JS.gt0 (JS.ofN n) = negb (n =? 0)%N.
Proof.
  unfold JS.gt0, JS.ofN, JS.ofZ. cbn.
  apply eq_true_iff_eq. rewrite negb_true_iff, Z.ltb_lt, N.eqb_neq. lia.
Qed.

(** ** The statistical reducers *)

Lemma insertAsc_sample x l :
  insertAsc (sample x) (List.map sample l) = List.map sample (insertZ x l).
Proof.
  induction l as [|y l IH]; [reflexivity|].
  cbn [List.map insertAsc insertZ].
  assert (E : forall z, JS.toNumber (sample z) = JS.ofZ z) by reflexivity.
  rewrite !E, gt0_sub_ofZ.
  destruct (y <? x); cbn [List.map]; [now rewrite IH | reflexivity].
Qed.

Lemma sortAsc_sample l : sortAsc (List.map sample l) = List.map sample (sortZ l).
Proof.
  induction l as [|x l IH]; [reflexivity|].
  cbn [List.map sortAsc sortZ fold_right].
  fold (sortAsc (List.map sample l)). fold (sortZ l).
  now rewrite IH, insertAsc_sample.
Qed.

Lemma insertZ_perm x l : Permutation (insertZ x l) (x :: l).
Proof.
  induction l as [|y l IH]; [reflexivity|].
  cbn [insertZ]. destruct (y <? x); [|reflexivity].
  rewrite IH. apply perm_swap.
Qed.

Lemma sortZ_perm l : Permutation (sortZ l) l.
Proof.
  induction l as [|x l IH]; [constructor|].
  cbn [sortZ fold_right]. fold (sortZ l).
  rewrite insertZ_perm. now constructor.
Qed.

Lemma insertZ_sorted x l : Sorted Z.le l -> Sorted Z.le (insertZ x l).
Proof.
  induction l as [|y l IH]; intros Hs; [repeat constructor|].
  cbn [insertZ]. destruct (Z.ltb_spec y x) as [Hlt|Hge].
  - inversion Hs as [|? ? Hs' Hhd]; subst.
    constructor; [now apply IH|].
    destruct l as [|z l]; cbn [insertZ].
    + constructor. lia.
    + destruct (z <? x); constructor; [|lia].
      now inversion Hhd.
  - constructor; [exact Hs|]. constructor. lia.
Qed.

Lemma sortZ_sorted l : Sorted Z.le (sortZ l).
Proof.
  induction l as [|x l IH]; [constructor|].
  cbn [sortZ fold_right]. now apply insertZ_sorted.
Qed.

Lemma sortZ_length l : length (sortZ l) = length l.
Proof. apply Permutation_length, sortZ_perm. Qed.

Lemma index_sample l i :
  0 <= i < Z.of_nat (length l) ->
  index (List.map sample l) i = sample (nth (Z.to_nat i) l 0).
Proof.
  intros Hi. unfold index.
  destruct (Z.ltb_spec i 0); [lia|].
  rewrite (nth_indep _ JS.VUndefined (sample 0)) by (rewrite length_map; lia).
  apply (map_nth sample).
Qed.

(** [ceil(n * 0.95) - 1] is the integer [k] with
    [100 k < 95 n <= 100 (k + 1)]; it is an index of the array. *)
Lemma p95Index_spec n :
  1 <= n ->
  100 * p95Index n < 95 * n <= 100 * (p95Index n + 1) /\ 0 <= p95Index n < n.
Proof.
  intros Hn. unfold p95Index, Qceiling, Qfloor.
  cbn [inject_Z Qmult Qopp Qnum Qden].
  change (Z.pos (1 * 100)) with 100.
  pose proof (Z.div_mod (- (n * 95)) 100 ltac:(lia)).
  pose proof (Z.mod_pos_bound (- (n * 95)) 100 ltac:(lia)).
  lia.
Qed.

Lemma orZero_sample z : JS.orZero (sample z) = sample z.
Proof.
  unfold sample, JS.orZero, JS.truthy, JS.ofZ, JS.qzero. cbn.
  destruct (Z.eqb_spec z 0) as [->|]; reflexivity.
Qed.

(** The statistics of a non-empty list of integer durations, in terms of
    its ascending sort. *)
Lemma processTimes_samples x xs :
  let samples := x :: xs in
  let n := Z.of_nat (length samples) in
  let sorted := sortZ samples in
  let m := processTimes (timeGroup (List.map Some samples)) in
  tm_median m =
    (if n mod 2 =? 0
     then JS.VNum (JS.div (JS.add (JS.ofZ (nth (Z.to_nat (n / 2 - 1)) sorted 0))
                                  (JS.ofZ (nth (Z.to_nat (n / 2)) sorted 0)))
                          (JS.ofZ 2))
     else sample (nth (Z.to_nat (n / 2)) sorted 0)) /\
  tm_percentile95 m = sample (nth (Z.to_nat (p95Index n)) sorted 0).
Proof.
  intros samples n sorted m.
  assert (Hn : 1 <= n) by (unfold n, samples; cbn [length]; lia).
  assert (Hvals : sortAsc (List.map pushed (List.map Some samples)) = List.map sample sorted).
  { rewrite List.map_map. apply sortAsc_sample. }
  assert (Hlen : Z.of_nat (length (List.map sample sorted)) = n).
  { rewrite length_map. unfold sorted. now rewrite sortZ_length. }
  assert (Hm : m = {| tm_average := JS.orZero (avg (List.map Some samples));
                      tm_median := medianOf (sortAsc (List.map pushed (List.map Some samples)));
                      tm_min := JS.orZero (Mongo.min (List.map Some samples));
                      tm_max := JS.orZero (Mongo.max (List.map Some samples));
                      tm_percentile95 :=
                        percentile95Of (sortAsc (List.map pushed (List.map Some samples))) |})
    by reflexivity.
  rewrite Hm. cbn [tm_median tm_percentile95].
  rewrite Hvals. unfold medianOf, percentile95Of. rewrite Hlen.
  pose proof (Z.div_mod n 2 ltac:(lia)).
  pose proof (Z.mod_pos_bound n 2 ltac:(lia)).
  pose proof (p95Index_spec n Hn) as [_ Hidx].
  split.
  - destruct (Z.eqb_spec (n mod 2) 0) as [Heven|Hodd].
    + rewrite !index_sample by (rewrite <- Hlen, length_map in *; lia).
      reflexivity.
    + rewrite index_sample by (rewrite <- Hlen, length_map in *; lia).
      reflexivity.
  - rewrite index_sample by (rewrite <- Hlen, length_map in *; lia).
    apply orZero_sample.
Qed.

(** The JavaScript average of two integers is their rational mean. *)
Lemma average_of_two a b :
  exists q, JS.div (JS.add (JS.ofZ a) (JS.ofZ b)) (JS.ofZ 2) = JS.Num q /\
            (q == (inject_Z a + inject_Z b) / 2)%Q.
Proof.
  unfold JS.div, JS.add, JS.ofZ. cbn [JS.qzero inject_Z Qnum Z.eqb].
  eexists. split; [reflexivity|].
  rewrite !Qred_correct. reflexivity.
Qed.

(** C2: with no sample the median and the 95th percentile are 0; for a
    non-empty list of durations, [sorted] being the list in ascending
    order and [n] its length, the median is the mean of the two middle
    elements of [sorted] when [n] is even and its middle element when [n]
    is odd, and the 95th percentile is the element of [sorted] at index
    [ceil(n * 0.95) - 1], the integer [k] with [100 k < 95 n <= 100 (k + 1)];
    for the samples 10, 20, 30, 40 the median is 25 and the 95th percentile
    is 40. *)
Theorem median_and_percentile95 :
  (tm_median (processTimes (timeGroup [])) = sample 0 /\
   tm_percentile95 (processTimes (timeGroup [])) = sample 0) /\
  (forall x xs,
     let samples := x :: xs in
     let n := Z.of_nat (length samples) in
     let m := processTimes (timeGroup (List.map Some samples)) in
     exists sorted,
       Sorted Z.le sorted /\ Permutation sorted samples /\
       (let lower := nth (Z.to_nat (n / 2 - 1)) sorted 0 in
        let upper := nth (Z.to_nat (n / 2)) sorted 0 in
        exists q, tm_median m = JS.VNum (JS.Num q) /\
          if Z.even n
          then (q == (inject_Z lower + inject_Z upper) / 2)%Q
          else q = inject_Z upper) /\
       (exists k, 100 * k < 95 * n <= 100 * (k + 1) /\ 0 <= k < n /\
          tm_percentile95 m = sample (nth (Z.to_nat k) sorted 0))) /\
  (tm_median (processTimes (timeGroup [Some 10; Some 20; Some 30; Some 40]))
     = sample 25 /\
   tm_percentile95 (processTimes (timeGroup [Some 10; Some 20; Some 30; Some 40]))
     = sample 40).
Proof.
  split; [split; reflexivity|]. split; [|split; vm_compute; reflexivity].
  intros x xs samples n m.
  exists (sortZ samples).
  split; [apply sortZ_sorted|]. split; [apply sortZ_perm|].
  destruct (processTimes_samples x xs) as [Hmed Hp95].
  fold samples in Hmed, Hp95. fold n in Hmed, Hp95. fold m in Hmed, Hp95.
  assert (Hn : 1 <= n) by (unfold n, samples; cbn [length]; lia).
  split.
  - intros lower upper. rewrite Hmed.
    destruct (Z.eqb_spec (n mod 2) 0) as [Heven|Hodd].
    + destruct (average_of_two (nth (Z.to_nat (n / 2 - 1)) (sortZ samples) 0)
                               (nth (Z.to_nat (n / 2)) (sortZ samples) 0))
        as (q & -> & Hq).
      exists q. split; [reflexivity|].
      rewrite Zeven_mod, Heven. exact Hq.
    + eexists. split; [reflexivity|].
      rewrite Zeven_mod. destruct (Z.eqb_spec (n mod 2) 0); [lia|reflexivity].
  - exists (p95Index n). pose proof (p95Index_spec n Hn) as [? ?].
    repeat split; try lia. exact Hp95.
Qed.

(** ** Rates and percentages *)

Lemma rate_finite n d : JS.is_finite (rate n d).
Proof.
  unfold rate. destruct (N.eqb_spec d 0) as [->|Hd]; [exact I|].
  unfold JS.div, JS.ofN, JS.ofZ, JS.qzero. cbn [inject_Z Qnum].
  destruct (Z.eqb_spec (Z.of_N d) 0); [lia|]. exact I.
Qed.

Lemma quotient_finite n d : JS.is_finite (quotient n d).
Proof.
  unfold quotient. destruct (N.eqb_spec d 0) as [->|Hd]; [exact I|].
  unfold JS.div, JS.ofN, JS.ofZ, JS.qzero. cbn [inject_Z Qnum].
  destruct (Z.eqb_spec (Z.of_N d) 0); [lia|]. exact I.
Qed.

Lemma countEscalation_percentage l : forall e,
  esc_percentage (fold_left countEscalation l e) = esc_percentage e.
Proof.
  induction l as [|item l IH]; intros e; [reflexivity|].
  cbn [fold_left]. rewrite IH. unfold countEscalation.
  destruct (_id item) as [[|[[]|[]|]|]|]; reflexivity.
Qed.

Lemma countComment_average l : forall c,
  com_average (fold_left countComment l c) = com_average c.
Proof.
  induction l as [|item l IH]; intros c; [reflexivity|].
  cbn [fold_left]. rewrite IH. unfold countComment.
  repeat case_bool_decide; reflexivity.
Qed.

Lemma countNotification_readRate l : forall n,
  readRate (fold_left countNotification l n) = readRate n.
Proof.
  induction l as [|item l IH]; intros n; [reflexivity|].
  cbn [fold_left]. rewrite IH. unfold countNotification.
  repeat (destruct (String.eqb _ _); [reflexivity|]). reflexivity.
Qed.

Lemma processEscalations_rate total data :
  esc_percentage (processEscalations total data)
  = rate (esc_count (processEscalations total data)) total.
Proof.
  unfold processEscalations, rate. rewrite gt0_ofN.
  destruct (N.eqb_spec total 0) as [->|Hd]; cbn [negb].
  - apply countEscalation_percentage.
  - reflexivity.
Qed.

Lemma processComments_quotient total data :
  com_average (processComments total data)
  = quotient (com_total (processComments total data)) total.
Proof.
  unfold processComments, quotient. rewrite gt0_ofN.
  destruct (N.eqb_spec total 0) as [->|Hd]; cbn [negb].
  - apply countComment_average.
  - reflexivity.
Qed.

Lemma processNotifications_rate data :
  readRate (processNotifications data)
  = rate (notif_read (processNotifications data))
         (notif_sent (processNotifications data)).
Proof.
  unfold processNotifications, rate. rewrite gt0_ofN.
  set (n := fold_left countNotification data _).
  destruct (N.eqb_spec (notif_sent n) 0) as [E|Hd]; cbn [negb].
  - rewrite E. cbn [N.eqb]. apply countNotification_readRate.
  - cbn [notif_sent notif_read readRate].
    destruct (N.eqb_spec (notif_sent n) 0); [contradiction|reflexivity].
Qed.

(** C3: in the documents the processing functions build, the escalation
    percentage is the rate of the escalation count to the feedback total,
    the notification read rate is the rate of the read count to the sent
    count and the average comments per item is the quotient of the comment
    total by the feedback total, where a rate is 0 for a zero denominator
    and numerator / denominator * 100 otherwise and a quotient is 0 for a
    zero denominator and numerator / denominator otherwise; each of them
    is a finite number, never NaN. *)
Theorem rates_guard_zero_denominator :
  (forall statusCounts priorityCounts categoryCounts responseTimes
          resolutionTimes satisfactionScores escalationData commentData,
     let m := _processFeedbackMetrics statusCounts priorityCounts categoryCounts
                responseTimes resolutionTimes satisfactionScores escalationData
                commentData in
     esc_percentage (escalations m)
       = rate (esc_count (escalations m)) (counts_total (counts m)) /\
     JS.is_finite (esc_percentage (escalations m)) /\
     com_average (comments m)
       = quotient (com_total (comments m)) (counts_total (counts m)) /\
     JS.is_finite (com_average (comments m))) /\
  (forall userCounts roleCounts loginActivity userEngagement notificationMetrics,
     let m := _processUserMetrics userCounts roleCounts loginActivity
                userEngagement notificationMetrics in
     readRate (notifications m)
       = rate (notif_read (notifications m)) (notif_sent (notifications m)) /\
     JS.is_finite (readRate (notifications m))) /\
  (forall numerator, rate numerator 0 = JS.Num 0 /\ quotient numerator 0 = JS.Num 0).
Proof.
  split; [|split].
  - intros. unfold m, _processFeedbackMetrics. cbn [escalations comments counts].
    rewrite processEscalations_rate, processComments_quotient.
    repeat split; auto using rate_finite, quotient_finite.
  - intros. unfold m, _processUserMetrics. cbn [notifications].
    rewrite processNotifications_rate. split; auto using rate_finite.
  - intros. split; reflexivity.
Qed.

(** ** The assemblers *)

Import Logger Assembled.

Ltac world_fields :=
  cbn [failing clock zone events feedbackMetrics userMetrics companies log
       setLog setFeedbackMetrics setUserMetrics setClock mc_companyId fst snd].

Ltac run_aggregator :=
  cbv [aggregateFeedbackMetrics aggregateUserMetrics tryCatch mbind M_bind bind
       mret M_ret ret throw logger calculatePeriodDates aggregate db stored
       upsertFeedbackMetrics upsertUserMetrics writeFeedbackMetrics
       writeUserMetrics];
  world_fields.

(** [aggregateFeedbackMetrics] in one piece: it logs its start, then either
    fails, logging the error and throwing it again, or upserts the metrics
    of the events in the window and logs its success. *)
Lemma aggregateFeedbackMetrics_unfold p d c w :
  aggregateFeedbackMetrics p d c w =
  let started := note info ("Aggregating feedback metrics for " ++ p ++ " period") c in
  let failed e :=
    (Throw e,
     setLog ((log w ++ [started])
               ++ [note Logger.error ("Error aggregating feedback metrics: " ++ error_message e) c]) w) in
  match _calculatePeriodDates (zone w) (clock w) p d with
  | Throw e => failed e
  | Ok (s, e) =>
      match failing w (AggregateEvents c) with
      | Some err => failed err
      | None =>
          match failing w (UpsertFeedbackMetrics c) with
          | Some err => failed err
          | None =>
              let r := findOneAndUpdate p s c (feedbackOf s e c (events w))
                         (clock w) (feedbackMetrics w) in
              (Ok (snd r),
               setLog ((log w ++ [started])
                         ++ [note info ("Successfully aggregated feedback metrics for " ++ p ++ " period") c])
                      (setFeedbackMetrics (fst r) w))
          end
      end
  end.
Proof.
  run_aggregator.
  destruct (_calculatePeriodDates (zone w) (clock w) p d) as [[s e]|err];
    world_fields.
  - destruct (failing w (AggregateEvents c)) eqn:Ea;
      [|destruct (failing w (UpsertFeedbackMetrics c)) eqn:Eu];
      repeat (progress (world_fields; rewrite ?Ea, ?Eu)); reflexivity.
  - reflexivity.
Qed.

Lemma aggregateUserMetrics_unfold p d c w :
  aggregateUserMetrics p d c w =
  let started := note info ("Aggregating user metrics for " ++ p ++ " period") c in
  let failed e :=
    (Throw e,
     setLog ((log w ++ [started])
               ++ [note Logger.error ("Error aggregating user metrics: " ++ error_message e) c]) w) in
  match _calculatePeriodDates (zone w) (clock w) p d with
  | Throw e => failed e
  | Ok (s, e) =>
      match failing w (AggregateEvents c) with
      | Some err => failed err
      | None =>
          match failing w (UpsertUserMetrics c) with
          | Some err => failed err
          | None =>
              let r := findOneAndUpdate p s c (userOf s e c (events w))
                         (clock w) (userMetrics w) in
              (Ok (snd r),
               setLog ((log w ++ [started])
                         ++ [note info ("Successfully aggregated user metrics for " ++ p ++ " period") c])
                      (setUserMetrics (fst r) w))
          end
      end
  end.
Proof.
  run_aggregator.
  destruct (_calculatePeriodDates (zone w) (clock w) p d) as [[s e]|err];
    world_fields.
  - destruct (failing w (AggregateEvents c)) eqn:Ea;
      [|destruct (failing w (UpsertUserMetrics c)) eqn:Eu];
      repeat (progress (world_fields; rewrite ?Ea, ?Eu)); reflexivity.
  - reflexivity.
Qed.

(** *** The upsert *)

Lemma hasKey_spec {M} p d c (x : Doc M) :
  hasKey p d c x = true <-> period x = p /\ date x = d /\ companyId x = c.
Proof.
  unfold hasKey. rewrite !andb_true_iff, String.eqb_eq, Z.eqb_eq, bool_decide_eq_true.
  tauto.
Qed.

(** The document the upsert returns: the key of the query, the new
    metrics, the time of the write. *)
Lemma findOneAndUpdate_doc {M} p d c (m : M) now coll :
  let doc := snd (findOneAndUpdate p d c m now coll) in
  period doc = p /\ date doc = d /\ companyId doc = c /\
  metrics doc = m /\ calculatedAt doc = now /\ doc_updatedAt doc = now.
Proof.
  induction coll as [|x coll IH]; cbn [findOneAndUpdate].
  - cbn. tauto.
  - destruct (hasKey p d c x) eqn:E; cbn [snd].
    + apply hasKey_spec in E. cbn. tauto.
    + exact IH.
Qed.


(** Documents of other keys are left as they are. *)
Lemma findOneAndUpdate_others {M} p d c (m : M) now coll p' d' c' :
  (p', d', c') <> (p, d, c) ->
  under p' d' c' (fst (findOneAndUpdate p d c m now coll)) = under p' d' c' coll.
Proof.
  intros Hne. unfold under.
  assert (Hoff : forall x : Doc M, hasKey p d c x = true -> hasKey p' d' c' x = false).
  { intros x Hx. apply hasKey_spec in Hx as (<- & <- & <-).
    destruct (hasKey p' d' c' x) eqn:E; [|reflexivity].
    apply hasKey_spec in E as (<- & <- & <-). contradiction. }
  induction coll as [|x coll IH]; cbn [findOneAndUpdate].
  - cbn [fst List.filter]. rewrite Hoff; [reflexivity|].
    apply hasKey_spec. cbn. tauto.
  - destruct (hasKey p d c x) eqn:E; cbn [fst List.filter].
    + rewrite (Hoff x E). rewrite Hoff; [reflexivity|].
      apply hasKey_spec. apply hasKey_spec in E. cbn. tauto.
    + now rewrite IH.
Qed.



(** *** Status counts *)

Lemma groupCount_eventData {K} `{EqDecision K} (keys : list K) :
  Forall (fun item => item_eventData item = None) (groupCount keys).
Proof.
  unfold groupCount. apply List.Forall_forall. intros item Hin.
  apply in_map_iff in Hin as (kn & <- & _). reflexivity.
Qed.

Lemma processCounts_new_total items :
  counts_new (processCounts items) = counts_total (processCounts items).
Proof.
  unfold processCounts.
  set (c0 := {| counts_total := 0%N; counts_new := 0%N; counts_inProgress := 0%N;
                counts_resolved := 0%N; counts_closed := 0%N |}).
  assert (H0 : counts_new c0 = counts_total c0) by reflexivity.
  revert H0. generalize c0. clear c0.
  induction items as [|item items IH]; intros c Hc; [exact Hc|].
  cbn [fold_left]. apply IH. unfold countStatus.
  repeat (destruct (_ : bool); [try reflexivity; exact Hc|]). exact Hc.
Qed.

Lemma processCounts_inProgress items :
  Forall (fun item => item_eventData item = None) items ->
  counts_inProgress (processCounts items) = 0%N.
Proof.
  unfold processCounts.
  set (c0 := {| counts_total := 0%N; counts_new := 0%N; counts_inProgress := 0%N;
                counts_resolved := 0%N; counts_closed := 0%N |}).
  assert (H0 : counts_inProgress c0 = 0%N) by reflexivity.
  revert H0. generalize c0. clear c0.
  induction items as [|item items IH]; intros c Hc Hall; [exact Hc|].
  inversion Hall as [|? ? Hitem Hrest]; subst.
  cbn [fold_left]. apply IH; [|exact Hrest]. unfold countStatus, statusIsInProgress.
  rewrite Hitem, andb_false_r.
  repeat (destruct (_ : bool); [exact Hc|]). exact Hc.
Qed.

(** C9: in every feedback metrics document aggregation produces, the
    in-progress count is 0 and the new count equals the total, whatever
    events the window holds. *)
Theorem in_progress_is_never_counted p d c w doc w' :
  aggregateFeedbackMetrics p d c w = (Ok doc, w') ->
  counts_inProgress (counts (metrics doc)) = 0%N /\
  counts_new (counts (metrics doc)) = counts_total (counts (metrics doc)).
Proof.
  rewrite aggregateFeedbackMetrics_unfold. cbv zeta.
  destruct (_calculatePeriodDates (zone w) (clock w) p d) as [[s e]|err];
    [|discriminate].
  destruct (failing w (AggregateEvents c)); [discriminate|].
  destruct (failing w (UpsertFeedbackMetrics c)); [discriminate|].
  intros H. injection H as <- _.
  destruct (findOneAndUpdate_doc p s c (feedbackOf s e c (events w)) (clock w)
              (feedbackMetrics w)) as (_ & _ & _ & -> & _).
  unfold feedbackOf, _processFeedbackMetrics. cbn [counts].
  split.
  - apply processCounts_inProgress, groupCount_eventData.
  - apply processCounts_new_total.
Qed.

Lemma in_progress_is_never_counted_witness :
  aggregateFeedbackMetrics "daily" 500 None Samples.world
    = (Ok Samples.feedbackDoc, snd Samples.feedbackRun) /\
  counts_inProgress (counts (metrics Samples.feedbackDoc)) = 0%N /\
  counts_new (counts (metrics Samples.feedbackDoc))
    = counts_total (counts (metrics Samples.feedbackDoc)).
Proof.
  split; [vm_compute; reflexivity|].
  apply (in_progress_is_never_counted "daily" 500 None Samples.world
           Samples.feedbackDoc (snd Samples.feedbackRun)).
  vm_compute. reflexivity.
Defined.

(** ** Bounds of the percentages *)

Lemma rate_bounds n d :
  exists q, rate n d = JS.Num q /\ (0 <= q)%Q /\
            (d = 0%N -> q = 0%Q) /\ ((n <= d)%N -> (q <= 100)%Q).
Proof.
  unfold rate. destruct d as [|p]; cbn [N.eqb].
  - exists 0%Q. repeat split; intros; try reflexivity; discriminate.
  - unfold JS.div, JS.mul, JS.ofN, JS.ofZ, JS.qzero. cbn [inject_Z Qnum Z.of_N Z.eqb].
    eexists. split; [reflexivity|].
    split; [|split; [discriminate|]].
    + rewrite !Qred_correct. unfold Qle, Qdiv, Qmult, Qinv. cbn. lia.
    + intros Hle. rewrite !Qred_correct. unfold Qle, Qdiv, Qmult, Qinv. cbn. lia.
Qed.

(** C6, as the code has it: in every metrics document aggregation
    produces, the escalation percentage and the notification read rate are
    finite numbers that are not negative, 0 when their denominator is 0,
    and at most 100 whenever the numerator does not exceed the denominator
    (escalations counted in the window against feedback created in it,
    notifications read against notifications sent). *)
Theorem percentages_in_documents :
  (forall p d c w doc w',
     aggregateFeedbackMetrics p d c w = (Ok doc, w') ->
     exists q,
       esc_percentage (escalations (metrics doc)) = JS.Num q /\ (0 <= q)%Q /\
       (counts_total (counts (metrics doc)) = 0%N -> q = 0%Q) /\
       ((esc_count (escalations (metrics doc)) <= counts_total (counts (metrics doc)))%N ->
        (q <= 100)%Q)) /\
  (forall p d c w doc w',
     aggregateUserMetrics p d c w = (Ok doc, w') ->
     exists q,
       readRate (notifications (metrics doc)) = JS.Num q /\ (0 <= q)%Q /\
       (notif_sent (notifications (metrics doc)) = 0%N -> q = 0%Q) /\
       ((notif_read (notifications (metrics doc)) <= notif_sent (notifications (metrics doc)))%N ->
        (q <= 100)%Q)).
Proof.
  split; intros p d c w doc w'.
  - rewrite aggregateFeedbackMetrics_unfold. cbv zeta.
    destruct (_calculatePeriodDates (zone w) (clock w) p d) as [[s e]|err];
      [|discriminate].
    destruct (failing w (AggregateEvents c)); [discriminate|].
    destruct (failing w (UpsertFeedbackMetrics c)); [discriminate|].
    intros H. injection H as <- _.
    destruct (findOneAndUpdate_doc p s c (feedbackOf s e c (events w)) (clock w)
                (feedbackMetrics w)) as (_ & _ & _ & -> & _).
    unfold feedbackOf, _processFeedbackMetrics. cbn [escalations counts].
    rewrite processEscalations_rate. apply rate_bounds.
  - rewrite aggregateUserMetrics_unfold. cbv zeta.
    destruct (_calculatePeriodDates (zone w) (clock w) p d) as [[s e]|err];
      [|discriminate].
    destruct (failing w (AggregateEvents c)); [discriminate|].
    destruct (failing w (UpsertUserMetrics c)); [discriminate|].
    intros H. injection H as <- _.
    destruct (findOneAndUpdate_doc p s c (userOf s e c (events w)) (clock w)
                (userMetrics w)) as (_ & _ & _ & -> & _).
    unfold userOf, _processUserMetrics. cbn [notifications].
    rewrite processNotifications_rate. apply rate_bounds.
Qed.

Lemma percentages_in_documents_witness :
  (aggregateFeedbackMetrics "daily" 500 None Samples.world
     = (Ok Samples.feedbackDoc, snd Samples.feedbackRun) /\
   exists q,
     esc_percentage (escalations (metrics Samples.feedbackDoc)) = JS.Num q /\
     (0 <= q)%Q) /\
  (aggregateUserMetrics "daily" 500 None Samples.world
     = (Ok Samples.userDoc, snd Samples.userRun) /\
   exists q,
     readRate (notifications (metrics Samples.userDoc)) = JS.Num q /\
     (0 <= q)%Q).
Proof.
  destruct percentages_in_documents as [Hf Hu].
  split.
  - split; [vm_compute; reflexivity|].
    destruct (Hf "daily" 500 None Samples.world Samples.feedbackDoc
                (snd Samples.feedbackRun) ltac:(vm_compute; reflexivity))
      as (q & Hq & Hpos & _).
    exists q. split; assumption.
  - split; [vm_compute; reflexivity|].
    destruct (Hu "daily" 500 None Samples.world Samples.userDoc
                (snd Samples.userRun) ltac:(vm_compute; reflexivity))
      as (q & Hq & Hpos & _).
    exists q. split; assumption.
Defined.

(** C6 as the specification states it does not hold: with one feedback
    created and two escalations in the window the escalation percentage of
    the document is 200, and with one notification sent and two read the
    read rate is 200. *)
Lemma percentage_above_100 :
  ~ (forall p d c w doc w',
       aggregateFeedbackMetrics p d c w = (Ok doc, w') ->
       exists q, esc_percentage (escalations (metrics doc)) = JS.Num q /\
                 (0 <= q <= 100)%Q).
Proof.
  intros H.
  destruct (H "daily" 500 None Samples.world Samples.feedbackDoc
              (snd Samples.feedbackRun) ltac:(vm_compute; reflexivity))
    as (q & Hq & _ & Hle).
  vm_compute in Hq. injection Hq as <-.
  apply Hle. reflexivity.
Qed.

Example escalation_percentage_sample :
  esc_percentage (escalations (metrics Samples.feedbackDoc)) = JS.Num 200 /\
  readRate (notifications (metrics Samples.userDoc)) = JS.Num 200.
Proof. split; vm_compute; reflexivity. Qed.

(** ** Aggregating twice *)






(** *** One document per key *)

Lemma tidy_bind {A B} (m : M A) (k : A -> M B) :
  tidy m -> (forall a, tidy (k a)) -> tidy (m ≫= k).
Proof.
  intros Hm Hk w Hw. unfold mbind, M_bind, bind.
  specialize (Hm w Hw). destruct (m w) as [[a|e] w']; cbn [snd] in *.
  - now apply Hk.
  - exact Hm.
Qed.


Lemma tidy_same {A} (m : M A) :
  (forall w, feedbackMetrics (snd (m w)) = feedbackMetrics w /\
             userMetrics (snd (m w)) = userMetrics w) ->
  tidy m.
Proof.
  intros H w [Hf Hu]. destruct (H w) as [Ef Eu]. unfold onePerKey.
  now rewrite Ef, Eu.
Qed.


Lemma tidy_db call : tidy (db call).
Proof.
  apply tidy_same. intros w. unfold db.
  destruct (failing w call); split; reflexivity.
Qed.

Lemma tidy_aggregate {A} mc (pipeline : MatchCriteria -> list AnalyticsEvent.t -> A) :
  tidy (aggregate mc pipeline).
Proof.
  unfold aggregate. apply tidy_bind; [apply tidy_db|]. intros _.
  apply tidy_same. intros w. split; reflexivity.
Qed.










Example all_time_aggregation_sample :
  counts_total (counts (metrics (Samples.produced Samples.emptyFeedbackDoc Samples.futureFirst))) = 0%N /\
  counts_total (counts (metrics (Samples.produced Samples.emptyFeedbackDoc Samples.futureSecond))) = 1%N /\
  date (Samples.produced Samples.emptyFeedbackDoc Samples.futureFirst)
    = date (Samples.produced Samples.emptyFeedbackDoc Samples.futureSecond).
Proof. repeat split; vm_compute; reflexivity. Qed.

(** ** The scheduled run *)

Lemma untouched_refl c w : untouched c w w.
Proof.
  repeat split; auto. exists []. split; [now rewrite app_nil_r|constructor].
Qed.

Lemma untouched_trans c w1 w2 w3 :
  untouched c w1 w2 -> untouched c w2 w3 -> untouched c w1 w3.
Proof.
  intros ((n1 & L1 & F1) & A1 & B1) ((n2 & L2 & F2) & A2 & B2).
  split; [|split].
  - exists (n1 ++ n2)%list. split.
    + now rewrite L2, L1, app_assoc.
    + now apply Forall_app.
  - intros p d. now rewrite A2, A1.
  - intros p d. now rewrite B2, B1.
Qed.

Lemma steady_refl w : steady w w.
Proof. repeat split. Qed.

Lemma steady_trans w1 w2 w3 : steady w1 w2 -> steady w2 w3 -> steady w1 w3.
Proof. unfold steady. intuition congruence. Qed.

Lemma untouched_logged c w entries :
  Forall (fun e => meta_companyId e <> Some c) entries ->
  untouched c w (setLog (log w ++ entries)%list w).
Proof.
  intros H. split; [|split; reflexivity]. exists entries. split; [reflexivity|exact H].
Qed.

(** An aggregation of one scope touches no other company. *)
Lemma aggregateFeedbackMetrics_untouched p d c c' w :
  c <> Some c' ->
  untouched c' w (snd (aggregateFeedbackMetrics p d c w)) /\
  steady w (snd (aggregateFeedbackMetrics p d c w)).
Proof.
  intros Hne. rewrite aggregateFeedbackMetrics_unfold. cbv zeta.
  assert (Hmeta : forall l msg, meta_companyId (note l msg c) <> Some c')
    by (intros; exact Hne).
  destruct (_calculatePeriodDates (zone w) (clock w) p d) as [[s e]|err];
    [destruct (failing w (AggregateEvents c));
     [|destruct (failing w (UpsertFeedbackMetrics c))]|];
    cbn [snd]; (split; [|repeat split]).
  1-2, 4: rewrite <- app_assoc; apply untouched_logged; repeat constructor; apply Hmeta.
  split; [|split].
  - eexists. cbn [log setLog]. rewrite <- app_assoc. split; [reflexivity|].
    repeat constructor; apply Hmeta.
  - intros p' d'. cbn [feedbackMetrics setLog setFeedbackMetrics].
    apply findOneAndUpdate_others. congruence.
  - reflexivity.
Qed.

Lemma aggregateUserMetrics_untouched p d c c' w :
  c <> Some c' ->
  untouched c' w (snd (aggregateUserMetrics p d c w)) /\
  steady w (snd (aggregateUserMetrics p d c w)).
Proof.
  intros Hne. rewrite aggregateUserMetrics_unfold. cbv zeta.
  assert (Hmeta : forall l msg, meta_companyId (note l msg c) <> Some c')
    by (intros; exact Hne).
  destruct (_calculatePeriodDates (zone w) (clock w) p d) as [[s e]|err];
    [destruct (failing w (AggregateEvents c));
     [|destruct (failing w (UpsertUserMetrics c))]|];
    cbn [snd]; (split; [|repeat split]).
  1-2, 4: rewrite <- app_assoc; apply untouched_logged; repeat constructor; apply Hmeta.
  split; [|split].
  - eexists. cbn [log setLog]. rewrite <- app_assoc. split; [reflexivity|].
    repeat constructor; apply Hmeta.
  - reflexivity.
  - intros p' d'. cbn [userMetrics setLog setUserMetrics].
    apply findOneAndUpdate_others. congruence.
Qed.

Lemma perCompany_unfold p d x w :
  perCompany p d x w =
  match aggregateFeedbackMetrics p d (Some x) w with
  | (Ok _, w1) =>
      match aggregateUserMetrics p d (Some x) w1 with
      | (Ok _, w2) => (Ok tt, w2)
      | (Throw e, w2) => (Throw e, w2)
      end
  | (Throw e, w1) => (Throw e, w1)
  end.
Proof.
  unfold perCompany, mbind, M_bind, bind, mret, M_ret, ret.
  destruct (aggregateFeedbackMetrics p d (Some x) w) as [[?|?] w1]; [|reflexivity].
  destruct (aggregateUserMetrics p d (Some x) w1) as [[?|?] w2]; reflexivity.
Qed.

Lemma perCompany_untouched p d x c' w :
  x <> c' ->
  untouched c' w (snd (perCompany p d x w)) /\ steady w (snd (perCompany p d x w)).
Proof.
  intros Hne. rewrite perCompany_unfold.
  assert (Hs : Some x <> Some c') by congruence.
  pose proof (aggregateFeedbackMetrics_untouched p d (Some x) c' w Hs) as [U1 S1].
  destruct (aggregateFeedbackMetrics p d (Some x) w) as [[?|?] w1]; cbn [snd] in *;
    [|now split].
  pose proof (aggregateUserMetrics_untouched p d (Some x) c' w1 Hs) as [U2 S2].
  destruct (aggregateUserMetrics p d (Some x) w1) as [[?|?] w2]; cbn [snd] in *;
    (split; [eapply untouched_trans | eapply steady_trans]; eassumption).
Qed.

(** The aggregation of a scope whose database calls fail throws. *)
Lemma perCompany_throws p d c w :
  scopeFails (Some c) w ->
  exists e w1, perCompany p d c w = (Throw e, w1).
Proof.
  intros Hfail. rewrite perCompany_unfold.
  rewrite aggregateFeedbackMetrics_unfold. cbv zeta.
  destruct (_calculatePeriodDates (zone w) (clock w) p d) as [[s e]|err] eqn:Hcalc;
    [|eauto].
  destruct (failing w (AggregateEvents (Some c))) eqn:Ea; [eauto|].
  destruct (failing w (UpsertFeedbackMetrics (Some c))) eqn:Eu; [eauto|].
  destruct Hfail as [H|[H|H]]; try contradiction.
  rewrite aggregateUserMetrics_unfold. cbv zeta. world_fields.
  rewrite Hcalc, Ea.
  destruct (failing w (UpsertUserMetrics (Some c))) eqn:Ev; [eauto|contradiction].
Qed.

Lemma forEachCompany_cons p d x l w :
  forEachCompany (perCompany p d) (x :: l) w =
  match perCompany p d x w with
  | (Ok _, w1) => forEachCompany (perCompany p d) l w1
  | (Throw e, w1) => (Throw e, w1)
  end.
Proof. reflexivity. Qed.

(** The loop stops at the first scope that fails: it throws, and it has
    touched no company outside those before that scope and that scope. *)
Lemma forEachCompany_stops p d c c' post : forall pre w,
  scopeFails (Some c) w ->
  c' ∉ pre -> c' <> c ->
  (exists e w1, forEachCompany (perCompany p d) (pre ++ c :: post)%list w = (Throw e, w1)) /\
  untouched c' w (snd (forEachCompany (perCompany p d) (pre ++ c :: post)%list w)).
Proof.
  induction pre as [|x pre IH]; intros w Hfail Hpre Hc; cbn [app];
    rewrite forEachCompany_cons.
  - destruct (perCompany_throws p d c w Hfail) as (e & w1 & E).
    pose proof (perCompany_untouched p d c c' w ltac:(congruence)) as [U _].
    rewrite E in *. split; [eauto|exact U].
  - assert (Hx : x <> c') by (intros ->; apply Hpre; left).
    assert (Hpre' : c' ∉ pre) by (intros H; apply Hpre; now right).
    pose proof (perCompany_untouched p d x c' w Hx) as [U S].
    destruct (perCompany p d x w) as [[?|e] w1]; cbn [snd] in *; [|split; eauto].
    assert (Hfail1 : scopeFails (Some c) w1).
    { destruct S as (Ef & _). unfold scopeFails in *. now rewrite Ef. }
    destruct (IH w1 Hfail1 Hpre' Hc) as [T U1].
    split; [exact T|]. eapply untouched_trans; eassumption.
Qed.

Lemma aggregateFeedbackMetrics_steady p d c w :
  steady w (snd (aggregateFeedbackMetrics p d c w)).
Proof.
  rewrite aggregateFeedbackMetrics_unfold. cbv zeta.
  destruct (_calculatePeriodDates (zone w) (clock w) p d) as [[s e]|err];
    [destruct (failing w (AggregateEvents c));
     [|destruct (failing w (UpsertFeedbackMetrics c))]|];
    repeat split.
Qed.

Lemma aggregateUserMetrics_steady p d c w :
  steady w (snd (aggregateUserMetrics p d c w)).
Proof.
  rewrite aggregateUserMetrics_unfold. cbv zeta.
  destruct (_calculatePeriodDates (zone w) (clock w) p d) as [[s e]|err];
    [destruct (failing w (AggregateEvents c));
     [|destruct (failing w (UpsertUserMetrics c))]|];
    repeat split.
Qed.

Lemma perCompany_steady p d x w : steady w (snd (perCompany p d x w)).
Proof.
  rewrite perCompany_unfold.
  pose proof (aggregateFeedbackMetrics_steady p d (Some x) w) as S1.
  destruct (aggregateFeedbackMetrics p d (Some x) w) as [[?|?] w1]; cbn [snd] in *;
    [|exact S1].
  pose proof (aggregateUserMetrics_steady p d (Some x) w1) as S2.
  destruct (aggregateUserMetrics p d (Some x) w1) as [[?|?] w2]; cbn [snd] in *;
    eapply steady_trans; eassumption.
Qed.

Lemma forEachCompany_throws p d c post : forall pre w,
  scopeFails (Some c) w ->
  exists e w1, forEachCompany (perCompany p d) (pre ++ c :: post)%list w = (Throw e, w1).
Proof.
  induction pre as [|x pre IH]; intros w Hfail; cbn [app];
    rewrite forEachCompany_cons.
  - destruct (perCompany_throws p d c w Hfail) as (e & w1 & ->). eauto.
  - pose proof (perCompany_steady p d x w) as S.
    destruct (perCompany p d x w) as [[?|e] w1]; cbn [snd] in *; [|eauto].
    apply IH. destruct S as (Ef & _). unfold scopeFails in *. now rewrite Ef.
Qed.

(** [runScheduledAggregation] in one piece *)
Lemma runScheduledAggregation_unfold p w :
  runScheduledAggregation p w =
  let caught (e : JsError) (w' : World) : Outcome unit * World :=
    (Ok tt,
     setLog (log w' ++ [note Logger.error
                          ("Error running scheduled " ++ p ++ " aggregation: "
                           ++ error_message e) None])%list w') in
  let w0 := setLog (log w ++ [note info ("Running scheduled " ++ p ++ " aggregation") None])%list w in
  match failing w FindCompanies with
  | Some e => caught e w0
  | None =>
      match aggregateFeedbackMetrics p (clock w) None w0 with
      | (Throw e, w1) => caught e w1
      | (Ok _, w1) =>
          match aggregateUserMetrics p (clock w) None w1 with
          | (Throw e, w2) => caught e w2
          | (Ok _, w2) =>
              match forEachCompany (perCompany p (clock w)) (companies w) w2 with
              | (Throw e, w3) => caught e w3
              | (Ok _, w3) =>
                  (Ok tt,
                   setLog (log w3 ++ [note info ("Completed scheduled " ++ p ++ " aggregation") None])%list w3)
              end
          end
      end
  end.
Proof.
  cbv zeta.
  cbv [runScheduledAggregation tryCatch mbind M_bind bind logger newDate
       findCompanies db listed].
  world_fields.
  destruct (failing w FindCompanies); [reflexivity|]. world_fields.
  destruct (aggregateFeedbackMetrics p (clock w) None _) as [[?|?] w1]; [|reflexivity].
  destruct (aggregateUserMetrics p (clock w) None w1) as [[?|?] w2]; [|reflexivity].
  match goal with
  | |- context [forEachCompany ?f (companies w) w2] =>
      change f with (perCompany p (clock w))
  end.
  destruct (forEachCompany (perCompany p (clock w)) (companies w) w2) as [[?|?] w3];
    reflexivity.
Qed.

Lemma last_snoc {A} (l : list A) (x : A) : last (l ++ [x]) = Some x.
Proof. induction l as [|y [|z l] IH]; [reflexivity..|exact IH]. Qed.

(** C5, as the code has it: the scheduled run never lets an exception
    out. When a database call made for one company fails, the error is
    caught by the handler of the whole run, whose error message is the last
    entry of the log, and the run ends there: for a company that is neither
    the failing one nor listed before it, so for every company listed after
    the failing one, nothing is logged and no metrics document is written. *)
Theorem scheduled_run_stops_at_failure p w pre c post :
  companies w = (pre ++ c :: post)%list ->
  scopeFails (Some c) w ->
  fst (runScheduledAggregation p w) = Ok tt /\
  (exists e,
     last (log (snd (runScheduledAggregation p w)))
     = Some (note Logger.error
               ("Error running scheduled " ++ p ++ " aggregation: " ++ error_message e)
               None)) /\
  (forall c', c' ∉ pre -> c' <> c ->
              untouched c' w (snd (runScheduledAggregation p w))).
Proof.
  intros Hcs Hfail.
  assert (Hnone : forall (c' : string) l msg, meta_companyId (note l msg None) <> Some c')
    by (intros; discriminate).
  assert (Hcaught : forall c' w' (e : JsError),
            untouched c' w w' ->
            untouched c' w
              (setLog (log w' ++ [note Logger.error
                                    ("Error running scheduled " ++ p ++ " aggregation: "
                                     ++ error_message e) None])%list w')).
  { intros c' w' e U. eapply untouched_trans; [exact U|].
    apply untouched_logged. repeat constructor. apply Hnone. }
  rewrite runScheduledAggregation_unfold. cbv zeta.
  set (w0 := setLog _ w).
  assert (U0 : forall c', untouched c' w w0)
    by (intros c'; apply untouched_logged; repeat constructor; apply Hnone).
  assert (S0 : steady w w0) by (repeat split).
  destruct (failing w FindCompanies) as [e|].
  { cbn [fst snd]. split; [reflexivity|]. split.
    - exists e. cbn [log setLog]. apply last_snoc.
    - intros c' _ _. now apply Hcaught. }
  pose proof (fun c' => aggregateFeedbackMetrics_untouched p (clock w) None c' w0
                          ltac:(discriminate)) as H1.
  destruct (aggregateFeedbackMetrics p (clock w) None w0) as [[?|e] w1]; cbn [snd] in H1.
  2: { cbn [fst snd]. split; [reflexivity|]. split.
       - exists e. cbn [log setLog]. apply last_snoc.
       - intros c' _ _. apply Hcaught. eapply untouched_trans; [apply U0|apply H1]. }
  pose proof (fun c' => aggregateUserMetrics_untouched p (clock w) None c' w1
                          ltac:(discriminate)) as H2.
  destruct (aggregateUserMetrics p (clock w) None w1) as [[?|e] w2]; cbn [snd] in H2.
  2: { cbn [fst snd]. split; [reflexivity|]. split.
       - exists e. cbn [log setLog]. apply last_snoc.
       - intros c' _ _. apply Hcaught.
         eapply untouched_trans; [apply U0|].
         eapply untouched_trans; [apply H1|apply H2]. }
  assert (S2 : steady w w2).
  { eapply steady_trans; [exact S0|].
    eapply steady_trans; [apply (H1 c)|apply (H2 c)]. }
  assert (Hfail2 : scopeFails (Some c) w2).
  { destruct S2 as (Ef & _). unfold scopeFails in *. now rewrite Ef. }
  rewrite Hcs.
  pose proof (fun c' Hpre Hc => forEachCompany_stops p (clock w) c c' post pre w2 Hfail2 Hpre Hc)
    as H3.
  destruct (forEachCompany (perCompany p (clock w)) (pre ++ c :: post) w2)
    as [[?|e] w3] eqn:E3.
  { destruct (forEachCompany_throws p (clock w) c post pre w2 Hfail2) as (e & w' & T).
    rewrite T in E3. discriminate E3. }
  cbn [fst snd]. split; [reflexivity|]. split.
  - exists e. cbn [log setLog]. apply last_snoc.
  - intros c' Hpre Hc. apply Hcaught.
    eapply untouched_trans; [apply U0|].
    eapply untouched_trans; [apply H1|].
    eapply untouched_trans; [apply H2|].
    destruct (H3 c' Hpre Hc) as [_ U3]. exact U3.
Qed.

Lemma scheduled_run_stops_at_failure_witness :
  companies Samples.failingWorld = ([] ++ "A" :: ["B"])%list /\
  scopeFails (Some "A") Samples.failingWorld /\
  fst (runScheduledAggregation "daily" Samples.failingWorld) = Ok tt /\
  untouched "B" Samples.failingWorld
    (snd (runScheduledAggregation "daily" Samples.failingWorld)).
Proof.
  assert (Hfail : scopeFails (Some "A") Samples.failingWorld).
  { left. vm_compute. discriminate. }
  split; [reflexivity|]. split; [exact Hfail|].
  destruct (scheduled_run_stops_at_failure "daily" Samples.failingWorld [] "A" ["B"]
              eq_refl Hfail) as (Hok & _ & Huntouched).
  split; [exact Hok|].
  apply Huntouched; [apply not_elem_of_nil | discriminate].
Defined.

(** C5 as the specification states it does not hold: with the companies A
    and B and the reads for A failing, the run ends in the handler of the
    whole run and the aggregation of B is never entered. *)
Lemma later_company_not_processed :
  ~ (forall p w pre c post c',
       companies w = (pre ++ c :: post)%list ->
       scopeFails (Some c) w ->
       c' ∈ post ->
       processed c' (snd (runScheduledAggregation p w)) = true).
Proof.
  intros H.
  assert (Hfail : scopeFails (Some "A") Samples.failingWorld).
  { left. vm_compute. discriminate. }
  specialize (H "daily" Samples.failingWorld [] "A" ["B"] "B" eq_refl Hfail
                ltac:(apply list_elem_of_here)).
  vm_compute in H. discriminate H.
Qed.

(** ** The manual trigger *)

Lemma invalid_period_throws utcOffset now p date :
  p ∉ MetricsController.periods ->
  _calculatePeriodDates utcOffset now p date = Throw (Error ("Invalid period: " ++ p)).
Proof.
  unfold MetricsController.periods. rewrite !not_elem_of_cons.
  intros (H1 & H2 & H3 & H4 & H5 & H6 & _).
  unfold _calculatePeriodDates.
  apply String.eqb_neq in H1, H2, H3, H4, H5, H6.
  now rewrite H1, H2, H3, H4, H5, H6.
Qed.

(** C7: for a period kind outside the six recognized ones the period
    calculator throws the invalid-period error, and the manual trigger
    answers an administrative caller with the validation error, status
    400, having started no aggregation and done nothing else. *)
Theorem unrecognized_period_is_rejected p :
  p ∉ MetricsController.periods ->
  (forall utcOffset now date,
     _calculatePeriodDates utcOffset now p date
     = Throw (Error ("Invalid period: " ++ p))) /\
  (forall z now date,
     Local._calculatePeriodDates z now p date
     = Throw (Error ("Invalid period: " ++ p))) /\
  (forall methods Date_parse req,
     MetricsController.period (MetricsController.body req) = Some p ->
     "admin" ∈ MetricsController.roles req ->
     MetricsController.triggerAggregation methods Date_parse req
     = (MetricsController.validationError
          "Invalid period. Must be one of: daily, weekly, monthly, quarterly, yearly, all_time",
        []) /\
     MetricsController.status
       (fst (MetricsController.triggerAggregation methods Date_parse req)) = 400 /\
     MetricsController.error
       (fst (MetricsController.triggerAggregation methods Date_parse req))
     = Some "Validation error").
Proof.
  intros Hp. split; [intros; now apply invalid_period_throws|].
  split.
  { intros z now date. pose proof Hp as Hp'.
    unfold MetricsController.periods in Hp'. rewrite !not_elem_of_cons in Hp'.
    destruct Hp' as (H1 & H2 & H3 & H4 & H5 & H6 & _).
    unfold Local._calculatePeriodDates.
    apply String.eqb_neq in H1, H2, H3, H4, H5, H6.
    now rewrite H1, H2, H3, H4, H5, H6. }
  intros methods Date_parse req Hreq Ha.
  assert (E : MetricsController.triggerAggregation methods Date_parse req
              = (MetricsController.validationError
                   "Invalid period. Must be one of: daily, weekly, monthly, quarterly, yearly, all_time",
                 [])).
  { unfold MetricsController.triggerAggregation. rewrite Hreq.
    rewrite (bool_decide_eq_true_2 _ Ha). cbn [negb].
    destruct (MetricsController.given (Some p)) as [q|] eqn:Eq.
    - assert (q = p) as ->.
      { unfold MetricsController.given in Eq. destruct p as [|a p']; congruence. }
      rewrite (bool_decide_eq_false_2 _ Hp). reflexivity.
    - reflexivity. }
  rewrite E. split; [reflexivity|]. split; reflexivity.
Qed.

(** An administrator asks for the period hourly. *)
Lemma unrecognized_period_is_rejected_witness :
  ("hourly" ∉ MetricsController.periods) /\
  _calculatePeriodDates 0 0 "hourly" 0 = Throw (Error "Invalid period: hourly") /\
  MetricsController.triggerAggregation MetricsController.DataAggregator_methods
    (fun _ => None)
    {| MetricsController.body :=
         {| MetricsController.period := Some "hourly";
            MetricsController.companyId := None;
            MetricsController.startDate := None;
            MetricsController.endDate := None |};
       MetricsController.roles := ["admin"] |}
  = (MetricsController.validationError
       "Invalid period. Must be one of: daily, weekly, monthly, quarterly, yearly, all_time",
     []).
Proof.
  assert (H : "hourly" ∉ MetricsController.periods).
  { unfold MetricsController.periods. rewrite !not_elem_of_cons.
    repeat split; try discriminate. apply not_elem_of_nil. }
  destruct (unrecognized_period_is_rejected "hourly" H) as (Hcalc & _ & Htrigger).
  split; [exact H|]. split; [exact (Hcalc 0 0 0)|].
  apply Htrigger; [reflexivity|apply list_elem_of_here].
Defined.

(** The handler checks the role of the caller before the period: a caller
    without the admin role gets the access-denied answer whatever the
    period, and nothing is started. *)
Lemma trigger_checks_the_role_first methods Date_parse req :
  "admin" ∉ MetricsController.roles req ->
  MetricsController.status
    (fst (MetricsController.triggerAggregation methods Date_parse req)) = 403 /\
  snd (MetricsController.triggerAggregation methods Date_parse req) = [].
Proof.
  intros Ha. unfold MetricsController.triggerAggregation.
  rewrite (bool_decide_eq_false_2 _ Ha). cbn [negb fst snd]. split; reflexivity.
Qed.

(** C8 at an administrator's request for a daily aggregation: the class in
    utils/dataAggregator.js has no static method runManualAggregation, the
    call throws a TypeError inside the handler's try block, and the answer
    is the 500 of its catch block; no run is started. *)
Theorem manual_trigger_answers_500 :
  forall Date_parse,
    MetricsController.triggerAggregation MetricsController.DataAggregator_methods
      Date_parse
      {| MetricsController.body :=
           {| MetricsController.period := Some "daily";
              MetricsController.companyId := None;
              MetricsController.startDate := None;
              MetricsController.endDate := None |};
         MetricsController.roles := ["admin"] |}
    = ({| MetricsController.status := 500;
          MetricsController.success := false;
          MetricsController.error := Some "Server error";
          MetricsController.message :=
            "DataAggregator.runManualAggregation is not a function";
          MetricsController.data := None |},
       [MetricsController.Logged
          (entry info "Triggering manual daily aggregation");
        MetricsController.Logged
          (entry Logger.error
             "Error triggering aggregation: DataAggregator.runManualAggregation is not a function")]).
Proof. intros. vm_compute. reflexivity. Qed.

(** With the class as it is, no request at all is answered 202 and no
    request starts a run. *)
Lemma manual_trigger_never_accepts Date_parse req :
  MetricsController.status
    (fst (MetricsController.triggerAggregation
            MetricsController.DataAggregator_methods Date_parse req)) <> 202 /\
  forall p o,
    MetricsController.Started p o ∉
      snd (MetricsController.triggerAggregation
             MetricsController.DataAggregator_methods Date_parse req).
Proof.
  unfold MetricsController.triggerAggregation,
    MetricsController.callRunManualAggregation, MetricsController.serverError,
    MetricsController.validationError.
  assert (E : bool_decide ("runManualAggregation" ∈ MetricsController.DataAggregator_methods)
              = false) by (vm_compute; reflexivity).
  rewrite E.
  repeat match goal with
         | |- context [if ?b then _ else _] => destruct b
         | |- context [match ?o with Some _ => _ | None => _ end] => destruct o
         end;
    cbn [fst snd MetricsController.status]; (split; [discriminate|]);
    intros p' o' Hin;
    repeat (apply elem_of_cons in Hin as [Hin|Hin]; [discriminate Hin|]);
    try (apply elem_of_app in Hin as [Hin|Hin];
         repeat (apply elem_of_cons in Hin as [Hin|Hin]; [discriminate Hin|]));
    now apply elem_of_nil in Hin.
Qed.

(** ** The scheduler *)

Lemma inProgress_fire name s :
  is_Some (Scheduler.jobs s !! name) ->
  Scheduler.inProgress name (Scheduler.fire name s)
  = S (Scheduler.inProgress name s).
Proof.
  intros [job Hjob]. unfold Scheduler.fire, Scheduler.inProgress. rewrite Hjob.
  cbn [Scheduler.running Scheduler.say Scheduler.jobs].
  rewrite List.filter_app, length_app. cbn [List.filter].
  rewrite String.eqb_refl. cbn [length]. lia.
Qed.

Lemma jobs_fire name s : Scheduler.jobs (Scheduler.fire name s) = Scheduler.jobs s.
Proof.
  unfold Scheduler.fire. destruct (Scheduler.jobs s !! name); reflexivity.
Qed.

(** C10, as the code has it: the scheduler keeps no record of running
    executions and skips nothing. Every trigger of a scheduled job logs the
    execution and starts the task, whether or not earlier executions of the
    same job are still in progress, so after [k] triggers in a row [k] more
    executions of that job are in progress. *)
Theorem every_trigger_starts_an_execution name s k :
  is_Some (Scheduler.jobs s !! name) ->
  Scheduler.inProgress name
    (Scheduler.run (repeat (Scheduler.Trigger name) k) s)
  = (Scheduler.inProgress name s + k)%nat /\
  Scheduler.log (Scheduler.fire name s)
  = (Scheduler.log s ++ [entry info ("Executing scheduled job: " ++ name)])%list.
Proof.
  intros Hjob. split.
  - revert s Hjob. induction k as [|k IH]; intros s Hjob; cbn [repeat Scheduler.run fold_left].
    + lia.
    + fold (Scheduler.run (repeat (Scheduler.Trigger name) k) (Scheduler.fire name s)).
      cbn [Scheduler.step]. rewrite IH by (now rewrite jobs_fire).
      rewrite inProgress_fire by exact Hjob. lia.
  - destruct Hjob as [job Hjob]. unfold Scheduler.fire. now rewrite Hjob.
Qed.

Lemma every_trigger_starts_an_execution_witness :
  is_Some (Scheduler.jobs (Scheduler.initialize (fun _ => true) Scheduler.unset Scheduler.initial)
             !! "daily-aggregation") /\
  Scheduler.inProgress "daily-aggregation"
    (Scheduler.run (repeat (Scheduler.Trigger "daily-aggregation") 2)
       (Scheduler.initialize (fun _ => true) Scheduler.unset Scheduler.initial)) = 2%nat.
Proof.
  assert (H : is_Some (Scheduler.jobs (Scheduler.initialize (fun _ => true) Scheduler.unset Scheduler.initial)
                         !! "daily-aggregation")).
  { vm_compute. eauto. }
  split; [exact H|].
  exact (proj1 (every_trigger_starts_an_execution "daily-aggregation" _ 2 H)).
Defined.

(** C10 as the specification states it does not hold: two triggers of the
    daily aggregation job, the second while the first execution has not
    settled, leave two executions of the job in progress. *)
Lemma same_job_runs_twice :
  ~ (forall validate name events,
       (Scheduler.inProgress name
          (Scheduler.run events
             (Scheduler.initialize validate Scheduler.unset Scheduler.initial))
        <= 1)%nat).
Proof.
  intros H.
  specialize (H (fun _ => true) "daily-aggregation"
                [Scheduler.Trigger "daily-aggregation";
                 Scheduler.Trigger "daily-aggregation"]).
  vm_compute in H. lia.
Qed.

(** * Further properties *)

(** ** Windows of the period calculator *)

(** X1: every reference inside a daily, weekly, monthly, quarterly or
    yearly window has that same window, so all the aggregations of one
    period write under one key. *)
Theorem window_of_any_reference_inside p utcOffset now now' t t' s e :
  p ∈ calendarKinds ->
  _calculatePeriodDates utcOffset now p t = Ok (s, e) ->
  s <= t' <= e ->
  _calculatePeriodDates utcOffset now' p t' = Ok (s, e).
Proof.
  intros Hp. destruct (calendar_kind_unit p Hp) as [u Hu].
  rewrite !Hu. intros H Ht'.
  assert (Hs : startOf utcOffset u t = s) by congruence.
  assert (He : endOf utcOffset u t = e) by congruence.
  subst s e. destruct (window_stable utcOffset u t t' Ht') as [-> ->]. reflexivity.
Qed.

Lemma monthly_kind : "monthly" ∈ calendarKinds.
Proof. unfold calendarKinds. rewrite !elem_of_cons. auto. Qed.

Lemma window_of_any_reference_inside_witness :
  ("monthly" ∈ calendarKinds) /\
  _calculatePeriodDates 0 0 "monthly" 1707993000000 = Ok (1706745600000, 1709251199999) /\
  1706745600000 <= 1709251199999 <= 1709251199999 /\
  _calculatePeriodDates 0 7 "monthly" 1709251199999 = Ok (1706745600000, 1709251199999).
Proof.
  split; [exact monthly_kind|]. split; [vm_compute; reflexivity|]. split; [lia|].
  apply (window_of_any_reference_inside "monthly" 0 0 7 1707993000000 1709251199999
           1706745600000 1709251199999 monthly_kind);
    [vm_compute; reflexivity | lia].
Defined.

(** X2: in a process time zone of which every local midnight exists
    exactly once, and for a reference 368 days or more inside the range of
    [Date], a monthly window lasts 28 to 31 days, a quarterly one 90 to 92
    and a yearly one 365 or 366, counting its last millisecond, less the
    change of the UTC offset between its two ends: whole days where the
    zone keeps one offset, an hour less or more where the window holds a
    clock change. *)
Theorem calendar_window_lengths z now t :
  Local.regular z -> Local.inside 368 t ->
  (exists s e days,
     Local._calculatePeriodDates z now "monthly" (Some t) = Ok (Some s, Some e) /\
     e + 1 - s = days * 86400000 - (Local.offsetAt z (e + 1) - Local.offsetAt z s) * 60000 /\
     28 <= days <= 31) /\
  (exists s e days,
     Local._calculatePeriodDates z now "quarterly" (Some t) = Ok (Some s, Some e) /\
     e + 1 - s = days * 86400000 - (Local.offsetAt z (e + 1) - Local.offsetAt z s) * 60000 /\
     90 <= days <= 92) /\
  (exists s e days,
     Local._calculatePeriodDates z now "yearly" (Some t) = Ok (Some s, Some e) /\
     e + 1 - s = days * 86400000 - (Local.offsetAt z (e + 1) - Local.offsetAt z s) * 60000 /\
     365 <= days <= 366).
Proof.
  intros Hreg Hin.
  set (n := Local.localDay z t).
  set (k := monthIndex n).
  assert (Hwin : forall u, u = Month \/ u = Quarter \/ u = Year ->
            Local.startOf z u t = Some (Local.midnight z (firstDay u n)) /\
            Local.endOf z u t = Some (Local.midnight z (nextFirstDay u n) - 1) /\
            Local.midnight z (nextFirstDay u n) - 1 + 1 - Local.midnight z (firstDay u n)
            = (nextFirstDay u n - firstDay u n) * 86400000
              - (Local.offsetAt z (Local.midnight z (nextFirstDay u n) - 1 + 1)
                 - Local.offsetAt z (Local.midnight z (firstDay u n))) * 60000).
  { intros u Hu.
    destruct (local_window z u t 366 Hreg) as (Hs & He & _).
    { pose proof (window_days u n). fold n. destruct Hu as [-> | [-> | ->]]; lia. }
    { exact Hin. }
    split; [exact Hs|]. split; [exact He|].
    replace (Local.midnight z (nextFirstDay u n) - 1 + 1)
      with (Local.midnight z (nextFirstDay u n)) by lia.
    pose proof (midnight_distance z (firstDay u n) (nextFirstDay u n) Hreg) as E.
    unfold MS_PER_DAY, MS_PER_MINUTE in E. lia. }
  split; [|split].
  - destruct (Hwin Month ltac:(auto)) as (Hs & He & Hlen).
    eexists _, _, _. split; [|split; [exact Hlen|]].
    + transitivity (Ok (Local.window z Month (Some t)));
        [reflexivity
        | rewrite (window_valid z Month t 368 ltac:(lia) Hin), Hs, He; reflexivity].
    + unfold firstDay, nextFirstDay, monthsOf. fold k.
      rewrite Z.mod_1_r. replace (k - 0) with k by lia.
      destruct (all_spans k) as [H _]. lia.
  - destruct (Hwin Quarter ltac:(auto)) as (Hs & He & Hlen).
    eexists _, _, _. split; [|split; [exact Hlen|]].
    + transitivity (Ok (Local.window z Quarter (Some t)));
        [reflexivity
        | rewrite (window_valid z Quarter t 368 ltac:(lia) Hin), Hs, He; reflexivity].
    + unfold firstDay, nextFirstDay, monthsOf. fold k.
      pose proof (aligned_index k 3 ltac:(lia)) as Ha.
      destruct (all_spans (k - k mod 3)) as (_ & H & _). specialize (H Ha). lia.
  - destruct (Hwin Year ltac:(auto)) as (Hs & He & Hlen).
    eexists _, _, _. split; [|split; [exact Hlen|]].
    + transitivity (Ok (Local.window z Year (Some t)));
        [reflexivity
        | rewrite (window_valid z Year t 368 ltac:(lia) Hin), Hs, He; reflexivity].
    + unfold firstDay, nextFirstDay, monthsOf. fold k.
      pose proof (aligned_index k 12 ltac:(lia)) as Ha.
      destruct (all_spans (k - k mod 12)) as (_ & _ & H). specialize (H Ha). lia.
Qed.

(** March 2024 in New York, where the clocks go forward on the 10th: the
    monthly window lasts 31 days less an hour. *)
Lemma calendar_window_lengths_witness :
  Local.regular Local.springForward /\
  Local.inside 368 1710072000000 /\
  exists s e,
    Local._calculatePeriodDates Local.springForward 0 "monthly" (Some 1710072000000)
    = Ok (Some s, Some e) /\
    e + 1 - s = 31 * 86400000 - 3600000.
Proof.
  split; [exact springForward_regular|].
  split; [unfold Local.inside; vm_compute; split; discriminate|].
  destruct (calendar_window_lengths Local.springForward 0 1710072000000
              springForward_regular) as [(s & e & days & Hc & _) _].
  { unfold Local.inside. vm_compute. split; discriminate. }
  exists s, e. split; [exact Hc|].
  vm_compute in Hc. injection Hc as <- <-. vm_compute. reflexivity.
Defined.

(** X3: the windows of one calendar kind follow each other without a gap:
    the millisecond after the end of a window is the start of the window
    it lies in. *)
Theorem next_window_starts_after_end p utcOffset now now' t s e :
  p ∈ calendarKinds ->
  _calculatePeriodDates utcOffset now p t = Ok (s, e) ->
  exists e', _calculatePeriodDates utcOffset now' p (e + 1) = Ok (e + 1, e') /\ e + 1 <= e'.
Proof.
  intros Hp. destruct (calendar_kind_unit p Hp) as [u Hu].
  rewrite !Hu. intros H.
  assert (He : endOf utcOffset u t = e) by congruence. subst e. clear H.
  eexists. split.
  - f_equal. f_equal.
    rewrite startOf_firstDay, endOf_nextFirstDay.
    replace (nextFirstDay u (localDay utcOffset t) * MS_PER_DAY - utcOffset * MS_PER_MINUTE - 1 + 1)
      with (nextFirstDay u (localDay utcOffset t) * MS_PER_DAY - utcOffset * MS_PER_MINUTE) by lia.
    rewrite localDay_boundary. now rewrite nextFirstDay_first.
  - rewrite (endOf_nextFirstDay utcOffset u (endOf utcOffset u t + 1)).
    rewrite (endOf_nextFirstDay utcOffset u t).
    replace (nextFirstDay u (localDay utcOffset t) * MS_PER_DAY - utcOffset * MS_PER_MINUTE - 1 + 1)
      with (nextFirstDay u (localDay utcOffset t) * MS_PER_DAY - utcOffset * MS_PER_MINUTE) by lia.
    rewrite localDay_boundary.
    pose proof (firstDay_bounds u (nextFirstDay u (localDay utcOffset t))) as B.
    unfold MS_PER_DAY. lia.
Qed.

Lemma next_window_starts_after_end_witness :
  ("monthly" ∈ calendarKinds) /\
  _calculatePeriodDates 0 0 "monthly" 1707993000000 = Ok (1706745600000, 1709251199999) /\
  exists e', _calculatePeriodDates 0 0 "monthly" (1709251199999 + 1)
             = Ok (1709251199999 + 1, e') /\ 1709251199999 + 1 <= e'.
Proof.
  split; [exact monthly_kind|]. split; [vm_compute; reflexivity|].
  apply (next_window_starts_after_end "monthly" 0 0 0 1707993000000 1706745600000
           1709251199999 monthly_kind).
  vm_compute. reflexivity.
Defined.

(** X4: an event stamped with the last millisecond of a calendar window is
    matched by the criteria of no window of that kind, whatever the
    reference: the queries take the end of the window as exclusive. *)
Theorem last_millisecond_is_never_matched p utcOffset now now' t s e t' s' e' src c ev :
  p ∈ calendarKinds ->
  _calculatePeriodDates utcOffset now p t = Ok (s, e) ->
  _calculatePeriodDates utcOffset now' p t' = Ok (s', e') ->
  AnalyticsEvent.timestamp ev = e ->
  matches {| mc_sourceService := src; mc_gte := s'; mc_lt := e'; mc_companyId := c |} ev
  = false.
Proof.
  intros Hp H H' Hev.
  destruct (matches _ ev) eqn:Hm; [|reflexivity]. exfalso.
  unfold matches in Hm. cbn [mc_sourceService mc_gte mc_lt mc_companyId] in Hm.
  rewrite !andb_true_iff in Hm. destruct Hm as [[[_ Hge] Hlt] _].
  apply Z.leb_le in Hge. apply Z.ltb_lt in Hlt. rewrite Hev in Hge, Hlt.
  destruct (calendar_kind_unit p Hp) as [u Hu]. rewrite Hu in H, H'.
  assert (Hs' : startOf utcOffset u t' = s') by congruence.
  assert (He' : endOf utcOffset u t' = e') by congruence.
  destruct (window_stable utcOffset u t' e ltac:(lia)) as [_ H1].
  assert (Hs : startOf utcOffset u t = s) by congruence.
  assert (He : endOf utcOffset u t = e) by congruence.
  assert (Hin : startOf utcOffset u t <= e <= endOf utcOffset u t).
  { rewrite He. split; [|lia]. rewrite <- He.
    rewrite startOf_firstDay, endOf_nextFirstDay.
    pose proof (firstDay_bounds u (localDay utcOffset t)). unfold MS_PER_DAY. lia. }
  destruct (window_stable utcOffset u t e Hin) as [_ E2].
  assert (endOf utcOffset u e = e') by congruence. lia.
Qed.

Lemma last_millisecond_is_never_matched_witness :
  ("monthly" ∈ calendarKinds) /\
  _calculatePeriodDates 0 0 "monthly" 1707993000000 = Ok (1706745600000, 1709251199999) /\
  _calculatePeriodDates 0 0 "monthly" 1709251200000 = Ok (1709251200000, 1711929599999) /\
  matches {| mc_sourceService := "feedback"; mc_gte := 1709251200000;
             mc_lt := 1711929599999; mc_companyId := None |}
          (Samples.feedbackEvent "feedback.created" 1709251199999 AnalyticsEvent.noData)
  = false.
Proof.
  split; [exact monthly_kind|]. split; [vm_compute; reflexivity|].
  split; [vm_compute; reflexivity|].
  apply (last_millisecond_is_never_matched "monthly" 0 0 0 1707993000000 1706745600000
           1709251199999 1709251200000 1709251200000 1711929599999 "feedback" None
           _ monthly_kind); vm_compute; reflexivity.
Defined.

(** ** Groups and counts *)

Import Tallies.

Section TallyFacts.
Context {K : Type} `{EqDecision K}.

Lemma weight_bump (k x : K) (t : list (K * N)) :
  weight k (bump x t) = (weight k t + (if bool_decide (x = k) then 1 else 0))%N.
Proof.
  unfold weight. induction t as [|[k' n] t IH]; cbn [bump List.filter List.map fold_right fst snd].
  - destruct (bool_decide (x = k)); cbn; lia.
  - destruct (decide (x = k')) as [->|Hne]; cbn [List.filter List.map fold_right fst snd].
    + destruct (bool_decide (k' = k)); cbn [List.map fold_right snd]; lia.
    + destruct (bool_decide (k' = k)); cbn [List.map fold_right snd]; rewrite IH; lia.
Qed.

Lemma tally_snoc (keys : list K) (x : K) : tally (keys ++ [x]) = bump x (tally keys).
Proof. unfold tally. now rewrite fold_left_app. Qed.

(** The counts under a key add up to its occurrences. *)
Lemma weight_tally (k : K) (keys : list K) : weight k (tally keys) = occurrences k keys.
Proof.
  induction keys as [|x keys IH] using rev_ind; [reflexivity|].
  rewrite tally_snoc, weight_bump, IH. unfold occurrences.
  rewrite List.filter_app, length_app. cbn [List.filter].
  destruct (bool_decide (x = k)); cbn [length]; lia.
Qed.

Lemma bump_keys (x : K) (t : list (K * N)) :
  List.map fst (bump x t)
  = if bool_decide (x ∈ List.map fst t) then List.map fst t
    else (List.map fst t ++ [x])%list.
Proof.
  induction t as [|[k' n] t IH]; cbn [bump List.map fst].
  - rewrite bool_decide_eq_false_2 by apply not_elem_of_nil. reflexivity.
  - destruct (decide (x = k')) as [->|Hne]; cbn [List.map fst].
    + rewrite bool_decide_eq_true_2 by apply list_elem_of_here. reflexivity.
    + rewrite IH. destruct (decide (x ∈ List.map fst t)) as [Hin|Hout].
      * rewrite !bool_decide_eq_true_2; auto. now apply list_elem_of_further.
      * rewrite !bool_decide_eq_false_2; auto.
        rewrite elem_of_cons. intros [?|?]; contradiction.
Qed.

(** A tally has one entry for a key. *)
Lemma tally_NoDup (keys : list K) : NoDup (List.map fst (tally keys)).
Proof.
  induction keys as [|x keys IH] using rev_ind; [constructor|].
  rewrite tally_snoc, bump_keys.
  destruct (decide (x ∈ List.map fst (tally keys))) as [Hin|Hout].
  - now rewrite bool_decide_eq_true_2.
  - rewrite bool_decide_eq_false_2 by assumption.
    apply NoDup_app. split; [exact IH|]. split.
    + intros y Hy Hx. apply list_elem_of_singleton in Hx. now subst.
    + apply NoDup_singleton.
Qed.

Lemma lastCount_cons (k : K) (item : GroupItem K) items acc :
  lastCount k (item :: items) acc
  = lastCount k items (if bool_decide (_id item = k) then count item else acc).
Proof. reflexivity. Qed.

Lemma lastCount_absent (k : K) (t : list (K * N)) acc :
  k ∉ List.map fst t -> lastCount k (List.map item_of t) acc = acc.
Proof.
  revert acc. induction t as [|[k' n] t IH]; intros acc Hout; [reflexivity|].
  cbn [List.map fst] in Hout. rewrite not_elem_of_cons in Hout. destruct Hout as [Hne Hout].
  cbn [List.map]. rewrite lastCount_cons. cbn [item_of _id count fst snd].
  rewrite bool_decide_eq_false_2 by congruence. now apply IH.
Qed.

Lemma weight_absent (k : K) (t : list (K * N)) :
  k ∉ List.map fst t -> weight k t = 0%N.
Proof.
  unfold weight. induction t as [|[k' n] t IH]; intros Hout; [reflexivity|].
  cbn [List.map fst] in Hout. rewrite not_elem_of_cons in Hout. destruct Hout as [Hne Hout].
  cbn [List.filter fst]. rewrite bool_decide_eq_false_2 by congruence. now apply IH.
Qed.

Lemma lastCount_weight (k : K) (t : list (K * N)) :
  NoDup (List.map fst t) ->
  lastCount k (List.map item_of t) 0 = weight k t.
Proof.
  assert (G : forall acc, NoDup (List.map fst t) ->
            lastCount k (List.map item_of t) acc
            = if bool_decide (k ∈ List.map fst t) then weight k t else acc).
  { induction t as [|[k' n] t IH]; intros acc Hnd.
    - rewrite bool_decide_eq_false_2 by apply not_elem_of_nil. reflexivity.
    - cbn [List.map fst] in Hnd. apply NoDup_cons in Hnd as [Hout Hnd].
      cbn [List.map]. rewrite lastCount_cons. cbn [item_of _id count fst snd].
      destruct (decide (k' = k)) as [->|Hne].
      + rewrite (bool_decide_eq_true_2 (k = k)) by reflexivity.
        rewrite lastCount_absent by exact Hout.
        rewrite (bool_decide_eq_true_2 (k ∈ k :: List.map fst t)) by apply list_elem_of_here.
        unfold weight. cbn [List.filter fst].
        rewrite (bool_decide_eq_true_2 (k = k)) by reflexivity.
        cbn [List.map fold_right snd].
        fold (weight k t). rewrite weight_absent by exact Hout. lia.
      + rewrite (bool_decide_eq_false_2 (k' = k)) by exact Hne.
        rewrite IH by exact Hnd.
        unfold weight at 2. cbn [List.filter fst].
        rewrite (bool_decide_eq_false_2 (k' = k)) by exact Hne. fold (weight k t).
        destruct (decide (k ∈ List.map fst t)) as [Hin|Hout'].
        * rewrite !bool_decide_eq_true_2; auto. now apply list_elem_of_further.
        * rewrite !bool_decide_eq_false_2; auto.
          rewrite elem_of_cons. intros [?|?]; [congruence|contradiction]. }
  intros Hnd. rewrite G by exact Hnd.
  destruct (decide (k ∈ List.map fst t)) as [Hin|Hout].
  - now rewrite bool_decide_eq_true_2.
  - rewrite bool_decide_eq_false_2 by assumption. now rewrite weight_absent.
Qed.

(** A loop that assigns the count of the group with id [k] ends with the
    occurrences of [k]. *)
Lemma lastCount_groupCount (k : K) (keys : list K) :
  lastCount k (groupCount keys) 0 = occurrences k keys.
Proof.
  unfold groupCount. change (fun kn : K * N => _) with (@item_of K).
  rewrite lastCount_weight by apply tally_NoDup. apply weight_tally.
Qed.

Lemma sum_bump (x : K) (t : list (K * N)) :
  fold_right N.add 0%N (List.map snd (bump x t))
  = (fold_right N.add 0%N (List.map snd t) + 1)%N.
Proof.
  induction t as [|[k' n] t IH]; [reflexivity|].
  cbn [bump]. destruct (decide (x = k')); cbn [List.map fold_right snd]; [lia|].
  rewrite IH. lia.
Qed.

Lemma sum_tally (keys : list K) :
  fold_right N.add 0%N (List.map snd (tally keys)) = N.of_nat (length keys).
Proof.
  induction keys as [|x keys IH] using rev_ind; [reflexivity|].
  rewrite tally_snoc, sum_bump, IH, length_app. cbn [length]. lia.
Qed.

(** The counts of all groups add up to the number of keys. *)
Lemma total_groupCount (keys : list K) :
  fold_right N.add 0%N (List.map count (groupCount keys)) = N.of_nat (length keys).
Proof.
  unfold groupCount. rewrite List.map_map. cbn [count].
  rewrite <- sum_tally. f_equal.
Qed.

End TallyFacts.

Lemma occurrences_map {A K} `{EqDecision K} (f : A -> K) (k : K) (l : list A) :
  occurrences k (List.map f l)
  = N.of_nat (length (List.filter (fun x => bool_decide (f x = k)) l)).
Proof.
  unfold occurrences. f_equal.
  induction l as [|x l IH]; [reflexivity|]. cbn [List.map List.filter].
  destruct (bool_decide (f x = k)); cbn [length]; now rewrite IH.
Qed.

(** ** What the counts of a document count *)

Import Selection.

Lemma ofType_matchTypeIn ty tys l :
  ty ∈ tys -> ofType ty (matchTypeIn tys l) = ofType ty l.
Proof.
  intros Hin. unfold ofType, matchTypeIn.
  induction l as [|x l IH]; [reflexivity|]. cbn [List.filter].
  destruct (decide (AnalyticsEvent.eventType x ∈ tys)) as [H|H].
  - rewrite (bool_decide_eq_true_2 _ H). cbn [List.filter]. now rewrite IH.
  - rewrite (bool_decide_eq_false_2 _ H), IH.
    rewrite bool_decide_eq_false_2; [reflexivity|]. intros E. apply H. now rewrite E.
Qed.

(** The group of an event type carries the number of selected events of
    that type. *)
Lemma lastCount_types ty tys mc es :
  ty ∈ tys ->
  lastCount ty (groupCount (List.map AnalyticsEvent.eventType
                              (matchTypeIn tys (match_ mc es)))) 0
  = selected mc ty es.
Proof.
  intros Hin. rewrite lastCount_groupCount, occurrences_map.
  unfold selected. rewrite <- (ofType_matchTypeIn ty tys _ Hin). reflexivity.
Qed.

Lemma countStatus_total items c :
  counts_total (fold_left countStatus items c)
  = lastCount "feedback.created" items (counts_total c).
Proof.
  revert c. induction items as [|[i n d] items IH]; intros c; [reflexivity|].
  cbn [fold_left]. rewrite lastCount_cons, IH. f_equal.
  unfold countStatus. cbn [_id count].
  destruct (String.eqb_spec i "feedback.created") as [->|E].
  - reflexivity.
  - rewrite bool_decide_eq_false_2 by exact E.
    destruct (String.eqb i "feedback.updated" && statusIsInProgress _); [reflexivity|].
    destruct (String.eqb i "feedback.resolved"); [reflexivity|].
    destruct (String.eqb i "feedback.closed"); reflexivity.
Qed.

Lemma countStatus_resolved items c :
  counts_resolved (fold_left countStatus items c)
  = lastCount "feedback.resolved" items (counts_resolved c).
Proof.
  revert c. induction items as [|[i n d] items IH]; intros c; [reflexivity|].
  cbn [fold_left]. rewrite lastCount_cons, IH. f_equal.
  unfold countStatus. cbn [_id count].
  destruct (String.eqb_spec i "feedback.created") as [->|E1]; [reflexivity|].
  destruct (String.eqb_spec i "feedback.updated") as [->|E2].
  - destruct (statusIsInProgress _); reflexivity.
  - cbn [andb]. destruct (String.eqb_spec i "feedback.resolved") as [->|E3]; [reflexivity|].
    rewrite bool_decide_eq_false_2 by exact E3.
    destruct (String.eqb i "feedback.closed"); reflexivity.
Qed.

Lemma countStatus_closed items c :
  counts_closed (fold_left countStatus items c)
  = lastCount "feedback.closed" items (counts_closed c).
Proof.
  revert c. induction items as [|[i n d] items IH]; intros c; [reflexivity|].
  cbn [fold_left]. rewrite lastCount_cons, IH. f_equal.
  unfold countStatus. cbn [_id count].
  destruct (String.eqb_spec i "feedback.created") as [->|E1]; [reflexivity|].
  destruct (String.eqb_spec i "feedback.updated") as [->|E2].
  - destruct (statusIsInProgress _); reflexivity.
  - cbn [andb]. destruct (String.eqb_spec i "feedback.resolved") as [->|E3]; [reflexivity|].
    destruct (String.eqb_spec i "feedback.closed") as [->|E4]; [reflexivity|].
    now rewrite bool_decide_eq_false_2 by exact E4.
Qed.

Lemma processed_status ty items f :
  (forall c, f (fold_left countStatus items c) = lastCount ty items (f c)) ->
  f {| counts_total := 0; counts_new := 0; counts_inProgress := 0;
       counts_resolved := 0; counts_closed := 0 |}%N = 0%N ->
  f (processCounts items) = lastCount ty items 0.
Proof. intros Hfold H0. unfold processCounts. now rewrite Hfold, H0. Qed.

Lemma counts_total_selected s e c es :
  counts_total (counts (feedbackOf s e c es))
  = selected (feedbackCriteria s e c) "feedback.created" es.
Proof.
  unfold feedbackOf, _processFeedbackMetrics. cbn [counts].
  rewrite (processed_status "feedback.created") by (auto using countStatus_total).
  unfold Reader.statusCounts. apply lastCount_types. set_solver.
Qed.

Lemma counts_resolved_selected s e c es :
  counts_resolved (counts (feedbackOf s e c es))
  = selected (feedbackCriteria s e c) "feedback.resolved" es.
Proof.
  unfold feedbackOf, _processFeedbackMetrics. cbn [counts].
  rewrite (processed_status "feedback.resolved") by (auto using countStatus_resolved).
  unfold Reader.statusCounts. apply lastCount_types. set_solver.
Qed.

Lemma counts_closed_selected s e c es :
  counts_closed (counts (feedbackOf s e c es))
  = selected (feedbackCriteria s e c) "feedback.closed" es.
Proof.
  unfold feedbackOf, _processFeedbackMetrics. cbn [counts].
  rewrite (processed_status "feedback.closed") by (auto using countStatus_closed).
  unfold Reader.statusCounts. apply lastCount_types. set_solver.
Qed.

(** X5: the total, resolved and closed counts of a feedback document are
    the numbers of selected events of type feedback.created,
    feedback.resolved and feedback.closed. *)
Theorem status_counts_count_events s e c es :
  let mc := feedbackCriteria s e c in
  let k := counts (feedbackOf s e c es) in
  counts_total k = selected mc "feedback.created" es /\
  counts_resolved k = selected mc "feedback.resolved" es /\
  counts_closed k = selected mc "feedback.closed" es.
Proof.
  intros mc k. unfold k, mc.
  split; [apply counts_total_selected|].
  split; [apply counts_resolved_selected|apply counts_closed_selected].
Qed.

(** ** Sums of distinct groups *)

Section Sums.
Context {K : Type} `{EqDecision K}.

Lemma occurrences_cons (k x : K) keys :
  occurrences k (x :: keys)
  = (occurrences k keys + if bool_decide (x = k) then 1 else 0)%N.
Proof.
  unfold occurrences. cbn [List.filter].
  destruct (bool_decide (x = k)); cbn [length]; lia.
Qed.

Lemma sum_map_add {A} (f g : A -> N) l :
  fold_right N.add 0%N (List.map (fun a => (f a + g a)%N) l)
  = (fold_right N.add 0%N (List.map f l) + fold_right N.add 0%N (List.map g l))%N.
Proof. induction l as [|a l IH]; cbn [List.map fold_right]; [reflexivity|]. rewrite IH. lia. Qed.

Lemma hits_absent (x : K) ks :
  x ∉ ks ->
  fold_right N.add 0%N (List.map (fun k => if bool_decide (x = k) then 1 else 0)%N ks) = 0%N.
Proof.
  induction ks as [|k ks IH]; intros Hout; [reflexivity|].
  apply not_elem_of_cons in Hout as [Hne Hout]. cbn [List.map fold_right].
  rewrite (bool_decide_eq_false_2 _ Hne), IH by exact Hout. reflexivity.
Qed.

Lemma hits_once (x : K) ks :
  NoDup ks ->
  (fold_right N.add 0%N (List.map (fun k => if bool_decide (x = k) then 1 else 0) ks) <= 1)%N.
Proof.
  induction ks as [|k ks IH]; intros Hnd; [cbn; lia|].
  apply NoDup_cons in Hnd as [Hout Hnd]. cbn [List.map fold_right].
  destruct (decide (x = k)) as [->|Hne].
  - rewrite (bool_decide_eq_true_2 (k = k)) by reflexivity.
    rewrite hits_absent by exact Hout. lia.
  - rewrite (bool_decide_eq_false_2 _ Hne). specialize (IH Hnd). lia.
Qed.

(** Groups of distinct keys hold no more than all keys together. *)
Lemma occurrences_sum ks (keys : list K) :
  NoDup ks ->
  (fold_right N.add 0%N (List.map (fun k => occurrences k keys) ks)
   <= N.of_nat (length keys))%N.
Proof.
  intros Hnd. induction keys as [|x keys IH].
  - induction ks as [|k ks IHk]; [cbn; lia|].
    apply NoDup_cons in Hnd as [_ Hnd]. cbn [List.map fold_right].
    specialize (IHk Hnd). unfold occurrences at 1. cbn. cbn in IHk. lia.
  - rewrite (List.map_ext _ (fun k => (occurrences k keys
                                 + if bool_decide (x = k) then 1 else 0)%N))
      by (intros k; apply occurrences_cons).
    rewrite sum_map_add. pose proof (hits_once x ks Hnd). cbn [length]. lia.
Qed.

Lemma weightIf_bump (P : K -> bool) (x : K) (t : list (K * N)) :
  weightIf P (bump x t) = (weightIf P t + if P x then 1 else 0)%N.
Proof.
  unfold weightIf. induction t as [|[k' n] t IH]; cbn [bump List.filter List.map fold_right fst snd].
  - destruct (P x); cbn; lia.
  - destruct (decide (x = k')) as [->|Hne]; cbn [List.filter List.map fold_right fst snd].
    + destruct (P k'); cbn [List.map fold_right snd]; lia.
    + destruct (P k'); cbn [List.map fold_right snd]; rewrite IH; lia.
Qed.

Lemma weightIf_tally (P : K -> bool) (keys : list K) :
  weightIf P (tally keys) = N.of_nat (length (List.filter P keys)).
Proof.
  induction keys as [|x keys IH] using rev_ind; [reflexivity|].
  rewrite tally_snoc, weightIf_bump, IH, List.filter_app, length_app.
  cbn [List.filter]. destruct (P x); cbn [length]; lia.
Qed.

Lemma length_bump (x : K) (t : list (K * N)) :
  (length (bump x t) <= S (length t))%nat.
Proof.
  induction t as [|[k' n] t IH]; cbn [bump length]; [lia|].
  destruct (decide (x = k')); cbn [length]; lia.
Qed.

(** There are no more groups than keys. *)
Lemma length_tally (keys : list K) : (length (tally keys) <= length keys)%nat.
Proof.
  induction keys as [|x keys IH] using rev_ind; [cbn; lia|].
  rewrite tally_snoc, length_app. cbn [length].
  pose proof (length_bump x (tally keys)). lia.
Qed.

Lemma tally_nil (keys : list K) : tally keys = [] -> keys = [].
Proof.
  intros E. pose proof (sum_tally keys) as H. rewrite E in H. cbn in H.
  destruct keys; [reflexivity|]. cbn [length] in H. lia.
Qed.

End Sums.

Ltac decide_ids :=
  repeat match goal with
  | |- context [bool_decide (?a = ?b)] =>
      first [ rewrite (bool_decide_eq_true_2 (a = b)) by congruence
            | rewrite (bool_decide_eq_false_2 (a = b)) by congruence ]
  end.

(** *** Escalations *)

Lemma countEscalation_count items e :
  esc_count (fold_left countEscalation items e)
  = (esc_count e + fold_right N.add 0 (List.map count items))%N.
Proof.
  revert e. induction items as [|item items IH]; intros e0; cbn [fold_left List.map fold_right].
  - lia.
  - rewrite IH. unfold countEscalation.
    destruct (_id item) as [[|[[]|[]|]|]|]; cbn [esc_count]; lia.
Qed.

Lemma countEscalation_level1 items e :
  level1 (fold_left countEscalation items e) = lastCount (Some 1) items (level1 e).
Proof.
  revert e. induction items as [|[i n d] items IH]; intros e0; [reflexivity|].
  cbn [fold_left]. rewrite lastCount_cons, IH. f_equal.
  unfold countEscalation. cbn [_id count].
  destruct i as [[|[[]|[]|]|]|]; cbn [level1]; decide_ids; reflexivity.
Qed.

Lemma countEscalation_level2 items e :
  level2 (fold_left countEscalation items e) = lastCount (Some 2) items (level2 e).
Proof.
  revert e. induction items as [|[i n d] items IH]; intros e0; [reflexivity|].
  cbn [fold_left]. rewrite lastCount_cons, IH. f_equal.
  unfold countEscalation. cbn [_id count].
  destruct i as [[|[[]|[]|]|]|]; cbn [level2]; decide_ids; reflexivity.
Qed.

Lemma countEscalation_level3 items e :
  level3 (fold_left countEscalation items e) = lastCount (Some 3) items (level3 e).
Proof.
  revert e. induction items as [|[i n d] items IH]; intros e0; [reflexivity|].
  cbn [fold_left]. rewrite lastCount_cons, IH. f_equal.
  unfold countEscalation. cbn [_id count].
  destruct i as [[|[[]|[]|]|]|]; cbn [level3]; decide_ids; reflexivity.
Qed.

Lemma processEscalations_fields total data :
  let e0 := {| esc_count := 0%N; esc_percentage := zero;
               level1 := 0%N; level2 := 0%N; level3 := 0%N |} in
  let e := fold_left countEscalation data e0 in
  esc_count (processEscalations total data) = esc_count e /\
  level1 (processEscalations total data) = level1 e /\
  level2 (processEscalations total data) = level2 e /\
  level3 (processEscalations total data) = level3 e.
Proof. cbv zeta. unfold processEscalations. destruct (JS.gt0 _); repeat split. Qed.

Lemma esc_count_selected s e c es :
  esc_count (escalations (feedbackOf s e c es))
  = selected (feedbackCriteria s e c) "feedback.escalated" es.
Proof.
  unfold feedbackOf, _processFeedbackMetrics. cbn [escalations].
  destruct (processEscalations_fields
              (counts_total (processCounts (Reader.statusCounts (feedbackCriteria s e c) es)))
              (Reader.escalationData (feedbackCriteria s e c) es))
    as (-> & _).
  rewrite countEscalation_count. cbn [esc_count]. unfold Reader.escalationData.
  now rewrite total_groupCount, length_map, N.add_0_l.
Qed.

(** X6: the escalation count of a feedback document is the number of
    selected feedback.escalated events, and the three levels together hold
    no more than that count. *)
Theorem escalations_count_events s e c es :
  let x := escalations (feedbackOf s e c es) in
  esc_count x = selected (feedbackCriteria s e c) "feedback.escalated" es /\
  (level1 x + level2 x + level3 x <= esc_count x)%N.
Proof.
  intros x. unfold x. rewrite esc_count_selected. split; [reflexivity|].
  unfold feedbackOf, _processFeedbackMetrics. cbn [escalations].
  destruct (processEscalations_fields
              (counts_total (processCounts (Reader.statusCounts (feedbackCriteria s e c) es)))
              (Reader.escalationData (feedbackCriteria s e c) es))
    as (_ & -> & -> & ->).
  rewrite countEscalation_level1, countEscalation_level2, countEscalation_level3.
  cbn [level1 level2 level3]. unfold Reader.escalationData.
  rewrite !lastCount_groupCount.
  set (keys := List.map _ _).
  pose proof (occurrences_sum [Some 1; Some 2; Some 3] keys) as H.
  cbn [List.map fold_right] in H. unfold keys in *. rewrite length_map in H.
  assert (Hnd : NoDup [Some 1; Some 2; Some 3]).
  { repeat (apply NoDup_cons; split;
            [rewrite ?elem_of_cons, elem_of_nil; intros H'; intuition discriminate|]).
    apply NoDup_nil_2. }
  specialize (H Hnd). unfold selected. lia.
Qed.

(** *** Comments *)

Lemma countComment_total items c :
  com_total (fold_left countComment items c)
  = (com_total c + fold_right N.add 0 (List.map count items))%N.
Proof.
  revert c. induction items as [|item items IH]; intros c0; cbn [fold_left List.map fold_right].
  - lia.
  - rewrite IH. unfold countComment.
    repeat (destruct (bool_decide _)); cbn [com_total]; lia.
Qed.

Lemma countComment_internal items c :
  com_internal (fold_left countComment items c)
  = lastCount (Some "internal") items (com_internal c).
Proof.
  revert c. induction items as [|[i n d] items IH]; intros c0; [reflexivity|].
  cbn [fold_left]. rewrite lastCount_cons, IH. f_equal.
  unfold countComment. cbn [_id count].
  destruct (decide (i = Some "internal")) as [->|E1]; [decide_ids; reflexivity|].
  destruct (decide (i = Some "external")) as [->|E2]; decide_ids; reflexivity.
Qed.

Lemma countComment_external items c :
  com_external (fold_left countComment items c)
  = lastCount (Some "external") items (com_external c).
Proof.
  revert c. induction items as [|[i n d] items IH]; intros c0; [reflexivity|].
  cbn [fold_left]. rewrite lastCount_cons, IH. f_equal.
  unfold countComment. cbn [_id count].
  destruct (decide (i = Some "internal")) as [->|E1]; [decide_ids; reflexivity|].
  destruct (decide (i = Some "external")) as [->|E2]; decide_ids; reflexivity.
Qed.

Lemma processComments_fields total data :
  let c0 := {| com_total := 0%N; com_average := zero;
               com_internal := 0%N; com_external := 0%N |} in
  let c := fold_left countComment data c0 in
  com_total (processComments total data) = com_total c /\
  com_internal (processComments total data) = com_internal c /\
  com_external (processComments total data) = com_external c.
Proof. cbv zeta. unfold processComments. destruct (JS.gt0 _); repeat split. Qed.

Lemma NoDup_two {A} (a b : A) : a <> b -> NoDup [a; b].
Proof.
  intros Hne. apply NoDup_cons. split.
  - rewrite list_elem_of_singleton. exact Hne.
  - apply NoDup_singleton.
Qed.

Lemma com_total_selected s e c es :
  com_total (comments (feedbackOf s e c es))
  = selected (feedbackCriteria s e c) "feedback.commented" es.
Proof.
  unfold feedbackOf, _processFeedbackMetrics. cbn [comments].
  destruct (processComments_fields
              (counts_total (processCounts (Reader.statusCounts (feedbackCriteria s e c) es)))
              (Reader.commentData (feedbackCriteria s e c) es))
    as (-> & _).
  rewrite countComment_total. cbn [com_total]. unfold Reader.commentData.
  now rewrite total_groupCount, length_map, N.add_0_l.
Qed.

(** X7: the comment total of a feedback document is the number of selected
    feedback.commented events; its internal and external counts are the
    numbers of those events of either type, and together hold no more than
    the total. *)
Theorem comments_count_events s e c es :
  let mc := feedbackCriteria s e c in
  let x := comments (feedbackOf s e c es) in
  let typed t ev := bool_decide (AnalyticsEvent.commentType (AnalyticsEvent.eventData ev) = Some t) in
  com_total x = selected mc "feedback.commented" es /\
  com_internal x = selectedWith mc "feedback.commented" (typed "internal") es /\
  com_external x = selectedWith mc "feedback.commented" (typed "external") es /\
  (com_internal x + com_external x <= com_total x)%N.
Proof.
  intros mc x typed. unfold x, mc. rewrite com_total_selected.
  split; [reflexivity|].
  unfold feedbackOf, _processFeedbackMetrics. cbn [comments]. fold mc.
  destruct (processComments_fields
              (counts_total (processCounts (Reader.statusCounts mc es)))
              (Reader.commentData mc es))
    as (_ & -> & ->).
  rewrite countComment_internal, countComment_external.
  cbn [com_internal com_external]. unfold Reader.commentData.
  assert (Hnd : NoDup [Some "internal"; Some "external"])
    by (apply NoDup_two; discriminate).
  assert (Hsum := occurrences_sum [Some "internal"; Some "external"]
            (List.map (fun ev => AnalyticsEvent.commentType (AnalyticsEvent.eventData ev))
                      (ofType "feedback.commented" (match_ mc es))) Hnd).
  cbn [List.map fold_right] in Hsum. rewrite length_map in Hsum.
  rewrite !lastCount_groupCount.
  split; [now rewrite occurrences_map|].
  split; [now rewrite occurrences_map|]. unfold selected. lia.
Qed.

(** *** Priorities *)









(** *** Satisfaction *)

Lemma countScore_stars d x : (stars (countScore d x) <= stars d + 1)%N.
Proof.
  unfold countScore, stars.
  destruct (x =? 1); [cbn; lia|]. destruct (x =? 2); [cbn; lia|].
  destruct (x =? 3); [cbn; lia|]. destruct (x =? 4); [cbn; lia|].
  destruct (x =? 5); [cbn; lia|]. lia.
Qed.

Lemma fold_countScore_stars scores d :
  (stars (fold_left countScore scores d) <= stars d + N.of_nat (length scores))%N.
Proof.
  revert d. induction scores as [|x scores IH]; intros d; cbn [fold_left length]; [lia|].
  specialize (IH (countScore d x)). pose proof (countScore_stars d x). lia.
Qed.

Lemma length_somes {A} (l : list (option A)) : (length (somes l) <= length l)%nat.
Proof.
  unfold somes. induction l as [|[a|] l IH]; cbn [omap list_omap length id]; cbn; lia.
Qed.

(** X9: the satisfaction count of a feedback document is the number of
    selected feedback.satisfaction events, and the five entries of the
    distribution together hold no more than that count. *)
Theorem satisfaction_count_events s e c es :
  let x := satisfaction (feedbackOf s e c es) in
  sat_count x = selected (feedbackCriteria s e c) "feedback.satisfaction" es /\
  (stars (sat_distribution x) <= sat_count x)%N.
Proof.
  intros x. unfold x, feedbackOf, _processFeedbackMetrics. cbn [satisfaction].
  unfold Reader.satisfactionScores, selected.
  destruct (ofType "feedback.satisfaction" (match_ (feedbackCriteria s e c) es))
    as [|d docs]; [split; [reflexivity|vm_compute; discriminate]|].
  set (l := d :: docs). unfold processSatisfaction.
  cbn [sat_count sg_count sat_distribution sg_scores]. split; [reflexivity|].
  pose proof (fold_countScore_stars
                (somes (List.map (fun ev => AnalyticsEvent.score (AnalyticsEvent.eventData ev)) l))
                noStars) as H1.
  pose proof (length_somes
                (List.map (fun ev => AnalyticsEvent.score (AnalyticsEvent.eventData ev)) l)) as H2.
  rewrite length_map in H2. change (stars noStars) with 0%N in H1. lia.
Qed.

(** *** One company and the platform *)





(** ** What the counts of a user document count *)

Lemma countUser_new items c :
  users_new (fold_left countUser items c)
  = lastCount "user.created" items (users_new c).
Proof.
  revert c. induction items as [|[i n d] items IH]; intros c0; [reflexivity|].
  cbn [fold_left]. rewrite lastCount_cons, IH. f_equal.
  unfold countUser. cbn [_id count].
  destruct (String.eqb_spec i "user.created") as [->|E1]; [reflexivity|].
  rewrite bool_decide_eq_false_2 by exact E1.
  destruct (String.eqb i "user.active"); reflexivity.
Qed.

Lemma countUser_active items c :
  users_active (fold_left countUser items c)
  = lastCount "user.active" items (users_active c).
Proof.
  revert c. induction items as [|[i n d] items IH]; intros c0; [reflexivity|].
  cbn [fold_left]. rewrite lastCount_cons, IH. f_equal.
  unfold countUser. cbn [_id count].
  destruct (String.eqb_spec i "user.created") as [->|E1]; [reflexivity|].
  destruct (String.eqb_spec i "user.active") as [->|E2]; [reflexivity|].
  now rewrite bool_decide_eq_false_2 by exact E2.
Qed.

Lemma users_new_selected s e c es :
  users_new (userCounts (userOf s e c es))
  = selected (userCriteria s e c) "user.created" es.
Proof.
  unfold userOf, _processUserMetrics. cbn [userCounts].
  unfold processUserCounts, Reader.userCounts. cbn [users_new].
  rewrite countUser_new. cbn [users_new]. apply lastCount_types. set_solver.
Qed.

(** X11: in a user document the new count is the number of selected
    user.created events, the active count the number of selected
    user.active events, and the total is ten times the new count. *)
Theorem user_counts_count_events s e c es :
  let mc := userCriteria s e c in
  let k := userCounts (userOf s e c es) in
  users_new k = selected mc "user.created" es /\
  users_active k = selected mc "user.active" es /\
  users_total k = (10 * selected mc "user.created" es)%N.
Proof.
  intros mc k. unfold k, mc. split; [apply users_new_selected|].
  rewrite <- users_new_selected.
  unfold userOf, _processUserMetrics. cbn [userCounts].
  unfold processUserCounts, Reader.userCounts.
  cbn [users_new users_active users_total].
  rewrite countUser_active. cbn [users_active].
  split; [apply lastCount_types; set_solver|lia].
Qed.

(** *** Roles *)






(** *** Logins *)

(** X13: the login total of a user document is the number of selected
    user.login events; its session total is the number of distinct users
    among them, so no more than the login total. *)
Theorem logins_count_events s e c es :
  let mc := userCriteria s e c in
  let a := activity (userOf s e c es) in
  totalLogins a = selected mc "user.login" es /\
  totalSessions a
  = N.of_nat (length (tally (List.map AnalyticsEvent.userId
                               (ofType "user.login" (match_ mc es))))) /\
  (totalSessions a <= totalLogins a)%N.
Proof.
  intros mc a. unfold a, userOf, _processUserMetrics. cbn [activity]. fold mc.
  unfold Reader.loginActivity, selected.
  set (logins := ofType "user.login" (match_ mc es)).
  pose proof (sum_tally (List.map AnalyticsEvent.userId logins)) as Hsum.
  pose proof (length_tally (List.map AnalyticsEvent.userId logins)) as Hlen.
  rewrite length_map in Hsum, Hlen.
  destruct (tally (List.map AnalyticsEvent.userId logins)) as [|u us] eqn:Et.
  - apply tally_nil in Et. apply (f_equal (@length _)) in Et.
    rewrite length_map in Et. cbn in Et. rewrite Et.
    repeat split; cbn; lia.
  - unfold processActivity.
    cbn [totalLogins totalSessions lg_totalLogins lg_uniqueUsers].
    rewrite Hsum. repeat split; lia.
Qed.

Lemma concat_nils {A} (ls : list (list A)) :
  Forall (fun l => l = []) ls -> concat ls = [].
Proof.
  induction 1 as [|l ls -> _ IH]; [reflexivity|]. cbn [concat]. exact IH.
Qed.

Lemma somes_nones {A B} (f : A -> option B) l :
  Forall (fun a => f a = None) l -> somes (List.map f l) = [].
Proof.
  unfold somes. induction 1 as [|a l Ha _ IH]; [reflexivity|].
  cbn [List.map omap list_omap]. rewrite Ha. cbn. exact IH.
Qed.

(** X14: when logins were selected and none of them carries a session
    duration, the average session duration handed to the upsert is not a
    number. *)
Theorem session_average_without_durations s e c es :
  selected (userCriteria s e c) "user.login" es <> 0%N ->
  Forall (fun ev => AnalyticsEvent.sessionDuration (AnalyticsEvent.eventData ev) = None)
         (ofType "user.login" (match_ (userCriteria s e c) es)) ->
  averageSessionDuration (activity (userOf s e c es)) = JS.NaN.
Proof.
  intros Hsome Hnone. unfold userOf, _processUserMetrics. cbn [activity].
  unfold Reader.loginActivity. unfold selected in Hsome.
  set (mc := userCriteria s e c) in *.
  set (logins := ofType "user.login" (match_ mc es)) in *.
  destruct (tally (List.map AnalyticsEvent.userId logins)) as [|u us] eqn:Et.
  - apply tally_nil in Et. apply (f_equal (@length _)) in Et.
    rewrite length_map in Et. cbn in Et. rewrite Et in Hsome. now contradiction Hsome.
  - unfold processActivity. cbn [averageSessionDuration lg_sessionDurations].
    set (g := fun un : option string * N => _).
    cbn [List.map]. rewrite <- (List.map_cons g u us).
    rewrite concat_nils; [reflexivity|].
    apply List.Forall_forall. intros l Hl. apply in_map_iff in Hl as (un & <- & _).
    unfold g. apply somes_nones.
    apply List.Forall_forall. intros ev Hev. apply filter_In in Hev as [Hev _].
    revert ev Hev. now apply List.Forall_forall.
Qed.

Lemma session_average_without_durations_witness :
  selected (userCriteria 0 100 None) "user.login" Logins.twoLogins = 2%N /\
  averageSessionDuration (activity (userOf 0 100 None Logins.twoLogins)) = JS.NaN.
Proof.
  split; [vm_compute; reflexivity|].
  apply (session_average_without_durations 0 100 None Logins.twoLogins).
  - vm_compute. discriminate.
  - vm_compute. repeat constructor.
Defined.

(** *** Notifications *)

Lemma sum_groupCount_if {K} `{EqDecision K} (P : K -> bool) (keys : list K) :
  fold_right N.add 0%N
    (List.map count (List.filter (fun item => P (_id item)) (groupCount keys)))
  = N.of_nat (length (List.filter P keys)).
Proof.
  rewrite <- weightIf_tally. unfold groupCount, weightIf.
  induction (tally keys) as [|[k n] t IH]; [reflexivity|].
  cbn [List.map List.filter _id fst]. destruct (P k); cbn [List.map fold_right count snd].
  - now rewrite IH.
  - exact IH.
Qed.

Lemma length_filter_map {A B} (P : B -> bool) (f : A -> B) l :
  length (List.filter P (List.map f l)) = length (List.filter (fun a => P (f a)) l).
Proof.
  induction l as [|a l IH]; [reflexivity|]. cbn [List.map List.filter].
  destruct (P (f a)); cbn [length]; now rewrite IH.
Qed.

Lemma ofType_eqb ty l :
  List.filter (fun ev => String.eqb (AnalyticsEvent.eventType ev) ty) l = ofType ty l.
Proof.
  unfold ofType. apply List.filter_ext. intros ev.
  destruct (String.eqb_spec (AnalyticsEvent.eventType ev) ty) as [E|E].
  - now rewrite bool_decide_eq_true_2.
  - now rewrite bool_decide_eq_false_2.
Qed.

Lemma countNotification_sent items n :
  notif_sent (fold_left countNotification items n)
  = (notif_sent n
     + fold_right N.add 0
         (List.map count
            (List.filter (fun item => String.eqb (fst (_id item)) "notification.sent")
                         items)))%N.
Proof.
  revert n. induction items as [|[[ty ch] k d] items IH]; intros n0;
    cbn [fold_left List.filter _id fst]; [cbn; lia|].
  rewrite IH. unfold countNotification. cbn [_id fst snd count].
  destruct (String.eqb_spec ty "notification.sent") as [->|E1].
  - cbn [notif_sent List.map fold_right count]. lia.
  - destruct (String.eqb ty "notification.read"); [reflexivity|].
    destruct (String.eqb ty "notification.delivered"); reflexivity.
Qed.

Lemma countNotification_read items n :
  notif_read (fold_left countNotification items n)
  = (notif_read n
     + fold_right N.add 0
         (List.map count
            (List.filter (fun item => String.eqb (fst (_id item)) "notification.read")
                         items)))%N.
Proof.
  revert n. induction items as [|[[ty ch] k d] items IH]; intros n0;
    cbn [fold_left List.filter _id fst]; [cbn; lia|].
  rewrite IH. unfold countNotification. cbn [_id fst snd count].
  destruct (String.eqb_spec ty "notification.sent") as [->|E1]; [reflexivity|].
  destruct (String.eqb_spec ty "notification.read") as [->|E2].
  - cbn [notif_read List.map fold_right count]. lia.
  - destruct (String.eqb ty "notification.delivered"); reflexivity.
Qed.

Lemma processNotifications_fields data :
  let n := fold_left countNotification data
             {| notif_sent := 0%N; notif_read := 0%N; readRate := zero;
                byChannel := noChannels |} in
  notif_sent (processNotifications data) = notif_sent n /\
  notif_read (processNotifications data) = notif_read n /\
  byChannel (processNotifications data) = byChannel n.
Proof. cbv zeta. unfold processNotifications. destruct (JS.gt0 _); repeat split. Qed.

(** X15: in a user document the notifications sent and read are the
    numbers of selected notification.sent and notification.read events. *)
Theorem notifications_count_events s e c es :
  let mc := notificationCriteria s e c in
  let n := notifications (userOf s e c es) in
  notif_sent n = selected mc "notification.sent" es /\
  notif_read n = selected mc "notification.read" es.
Proof.
  intros mc n. unfold n, userOf, _processUserMetrics. cbn [notifications]. fold mc.
  destruct (processNotifications_fields (Reader.notificationMetrics mc es))
    as (-> & -> & _).
  rewrite countNotification_sent, countNotification_read.
  cbn [notif_sent notif_read]. unfold Reader.notificationMetrics.
  rewrite !(sum_groupCount_if (fun k => String.eqb (fst k) _)), !length_filter_map.
  cbn [fst]. rewrite !ofType_eqb, !ofType_matchTypeIn by set_solver.
  split; reflexivity.
Qed.

(** *** Fields no loop writes *)

Lemma countEngagement_resolution items g :
  averageResolutionTime (fold_left countEngagement items g) = averageResolutionTime g.
Proof.
  revert g. induction items as [|item items IH]; intros g; [reflexivity|].
  cbn [fold_left]. rewrite IH. unfold countEngagement.
  destruct (_ && _); [reflexivity|]. destruct (_ && _); [reflexivity|].
  destruct (_ && _); reflexivity.
Qed.

Lemma setChannelSent_opened b ch n :
  email_opened (setChannelSent b ch n) = email_opened b /\
  push_opened (setChannelSent b ch n) = push_opened b.
Proof.
  unfold setChannelSent. destruct (truthyString ch) as [k|]; [|split; reflexivity].
  destruct (String.eqb k "email"); [split; reflexivity|].
  destruct (String.eqb k "sms"); [split; reflexivity|].
  destruct (String.eqb k "push"); [split; reflexivity|].
  destruct (String.eqb k "inApp"); split; reflexivity.
Qed.

Lemma setDelivered_opened b ch n :
  email_opened (setDelivered b ch n) = email_opened b /\
  push_opened (setDelivered b ch n) = push_opened b.
Proof.
  unfold setDelivered.
  destruct (bool_decide (ch = Some "email")); [split; reflexivity|].
  destruct (bool_decide (ch = Some "sms")); [split; reflexivity|].
  destruct (bool_decide (ch = Some "push")); split; reflexivity.
Qed.

Lemma countNotification_opened items n :
  email_opened (byChannel (fold_left countNotification items n))
  = email_opened (byChannel n) /\
  push_opened (byChannel (fold_left countNotification items n))
  = push_opened (byChannel n).
Proof.
  revert n. induction items as [|item items IH]; intros n; [split; reflexivity|].
  cbn [fold_left]. destruct (IH (countNotification n item)) as [-> ->].
  unfold countNotification.
  destruct (String.eqb _ "notification.sent"); [cbn [byChannel]; apply setChannelSent_opened|].
  destruct (String.eqb _ "notification.read").
  { cbn [byChannel]. destruct (bool_decide _); split; reflexivity. }
  destruct (String.eqb _ "notification.delivered"); [cbn [byChannel]; apply setDelivered_opened|].
  split; reflexivity.
Qed.

(** X16: in every user document the average resolution time of the
    engagement block and the opened counts of the email and push channels
    are 0, whatever events are stored. *)
Theorem fields_no_event_reaches s e c es :
  let m := userOf s e c es in
  averageResolutionTime (engagement m) = zero /\
  email_opened (byChannel (notifications m)) = 0%N /\
  push_opened (byChannel (notifications m)) = 0%N.
Proof.
  intros m. unfold m, userOf, _processUserMetrics. cbn [engagement notifications].
  split.
  - unfold processEngagement. now rewrite countEngagement_resolution.
  - destruct (processNotifications_fields
                (Reader.notificationMetrics (notificationCriteria s e c) es))
      as (_ & _ & ->).
    destruct (countNotification_opened
                (Reader.notificationMetrics (notificationCriteria s e c) es)
                {| notif_sent := 0%N; notif_read := 0%N; readRate := zero;
                   byChannel := noChannels |}) as [-> ->].
    split; reflexivity.
Qed.

(** *** Windows without events *)

Lemma match_none mc es :
  Forall (fun ev => ~ (mc_gte mc <= AnalyticsEvent.timestamp ev < mc_lt mc)) es ->
  match_ mc es = [].
Proof.
  unfold match_. induction 1 as [|ev es Hev _ IH]; [reflexivity|].
  cbn [List.filter]. rewrite IH.
  assert (E : matches mc ev = false); [|now rewrite E].
  unfold matches. destruct (mc_gte mc <=? _) eqn:E1; [|now rewrite andb_false_r].
  destruct (_ <? mc_lt mc) eqn:E2; [|now rewrite andb_false_r].
  apply Z.leb_le in E1. apply Z.ltb_lt in E2. exfalso. apply Hev. lia.
Qed.

(** X17: when no stored event is dated inside the window, the metrics
    handed to the upsert are those of no data at all: every count, average
    and rate is 0 and the category map is empty. *)
Theorem window_without_events s e c es :
  Forall (fun ev => ~ (s <= AnalyticsEvent.timestamp ev < e)) es ->
  feedbackOf s e c es
  = {| counts := {| counts_total := 0; counts_new := 0; counts_inProgress := 0;
                    counts_resolved := 0; counts_closed := 0 |};
       byPriority := {| low := 0; medium := 0; high := 0; critical := 0 |};
       byCategory := ∅;
       responseTimes :=
         {| tm_average := JS.VNum (JS.Num 0); tm_median := JS.VNum (JS.Num 0);
            tm_min := JS.VNum (JS.Num 0); tm_max := JS.VNum (JS.Num 0);
            tm_percentile95 := JS.VNum (JS.Num 0) |};
       resolutionTimes :=
         {| tm_average := JS.VNum (JS.Num 0); tm_median := JS.VNum (JS.Num 0);
            tm_min := JS.VNum (JS.Num 0); tm_max := JS.VNum (JS.Num 0);
            tm_percentile95 := JS.VNum (JS.Num 0) |};
       satisfaction :=
         {| sat_average := JS.VNum (JS.Num 0); sat_count := 0;
            sat_distribution :=
              {| star1 := 0; star2 := 0; star3 := 0; star4 := 0; star5 := 0 |} |};
       escalations :=
         {| esc_count := 0; esc_percentage := JS.Num 0;
            level1 := 0; level2 := 0; level3 := 0 |};
       comments :=
         {| com_total := 0; com_average := JS.Num 0;
            com_internal := 0; com_external := 0 |} |}%N /\
  userOf s e c es
  = {| userCounts := {| users_total := 0; users_active := 0; users_new := 0 |};
       byRole := {| admin := 0; manager := 0; agent := 0; customer := 0 |};
       activity :=
         {| averageLogins := JS.Num 0; averageSessionDuration := JS.Num 0;
            totalSessions := 0; totalLogins := 0 |};
       engagement :=
         {| averageFeedbackSubmissions := JS.Num 0; averageComments := JS.Num 0;
            averageResponses := JS.Num 0; averageResolutionTime := JS.Num 0 |};
       performance :=
         {| averageFeedbackHandled := 0; averageResolutionRate := 0;
            averageSatisfactionScore := 0; averageResponseTime := 0 |};
       notifications :=
         {| notif_sent := 0; notif_read := 0; readRate := JS.Num 0;
            byChannel :=
              {| email_sent := 0; email_delivered := 0; email_opened := 0;
                 sms_sent := 0; sms_delivered := 0;
                 push_sent := 0; push_delivered := 0; push_opened := 0;
                 inApp_sent := 0; inApp_read := 0 |} |} |}%N.
Proof.
  intros Hout.
  assert (Hf := match_none (feedbackCriteria s e c) es Hout).
  assert (Hu := match_none (userCriteria s e c) es Hout).
  assert (Hn := match_none (notificationCriteria s e c) es Hout).
  unfold feedbackOf, userOf, Reader.statusCounts, Reader.priorityCounts,
    Reader.categoryCounts, Reader.responseTimes, Reader.resolutionTimes,
    Reader.satisfactionScores, Reader.escalationData, Reader.commentData,
    Reader.userCounts, Reader.roleCounts, Reader.loginActivity,
    Reader.userEngagement, Reader.notificationMetrics.
  rewrite Hf, Hu, Hn. split; vm_compute; reflexivity.
Qed.

(** The events of the sample store are all dated before 1000. *)
Lemma window_without_events_witness :
  Forall (fun ev => ~ (1000 <= AnalyticsEvent.timestamp ev < 2000)) (events Samples.world) /\
  counts_total (counts (feedbackOf 1000 2000 None (events Samples.world))) = 0%N /\
  esc_percentage (escalations (feedbackOf 1000 2000 None (events Samples.world))) = JS.Num 0 /\
  readRate (notifications (userOf 1000 2000 None (events Samples.world))) = JS.Num 0.
Proof.
  assert (H : Forall (fun ev => ~ (1000 <= AnalyticsEvent.timestamp ev < 2000))
                     (events Samples.world)).
  { repeat (constructor; [cbn; lia|]). constructor. }
  split; [exact H|].
  destruct (window_without_events 1000 2000 None (events Samples.world) H) as [-> ->].
  repeat split.
Defined.

(** ** Runs that fail and runs that complete *)

Import Written.

(** X18: an aggregation that throws has written no document; the error it
    throws is the one of the period calculation or of the failing database
    call, and the log has gained the start entry and the error entry. *)
Theorem failed_aggregation_writes_nothing p d c w :
  (forall err w',
     aggregateFeedbackMetrics p d c w = (Throw err, w') ->
     feedbackMetrics w' = feedbackMetrics w /\ userMetrics w' = userMetrics w /\
     (_calculatePeriodDates (zone w) (clock w) p d = Throw err \/
      failing w (AggregateEvents c) = Some err \/
      failing w (UpsertFeedbackMetrics c) = Some err) /\
     log w' = (log w ++ [note info ("Aggregating feedback metrics for " ++ p ++ " period") c;
                        note Logger.error ("Error aggregating feedback metrics: "
                                           ++ error_message err) c])%list) /\
  (forall err w',
     aggregateUserMetrics p d c w = (Throw err, w') ->
     feedbackMetrics w' = feedbackMetrics w /\ userMetrics w' = userMetrics w /\
     (_calculatePeriodDates (zone w) (clock w) p d = Throw err \/
      failing w (AggregateEvents c) = Some err \/
      failing w (UpsertUserMetrics c) = Some err) /\
     log w' = (log w ++ [note info ("Aggregating user metrics for " ++ p ++ " period") c;
                        note Logger.error ("Error aggregating user metrics: "
                                           ++ error_message err) c])%list).
Proof.
  split; intros err w'.
  - rewrite aggregateFeedbackMetrics_unfold. cbv zeta.
    destruct (_calculatePeriodDates (zone w) (clock w) p d) as [[s e]|err0];
      [destruct (failing w (AggregateEvents c)) as [err0|];
       [|destruct (failing w (UpsertFeedbackMetrics c)) as [err0|]]|];
      intros H; try discriminate H; injection H as <- <-;
      cbn [feedbackMetrics userMetrics log setLog]; rewrite <- app_assoc;
      repeat split; auto.
  - rewrite aggregateUserMetrics_unfold. cbv zeta.
    destruct (_calculatePeriodDates (zone w) (clock w) p d) as [[s e]|err0];
      [destruct (failing w (AggregateEvents c)) as [err0|];
       [|destruct (failing w (UpsertUserMetrics c)) as [err0|]]|];
      intros H; try discriminate H; injection H as <- <-;
      cbn [feedbackMetrics userMetrics log setLog]; rewrite <- app_assoc;
      repeat split; auto.
Qed.

Lemma failed_aggregation_writes_nothing_witness :
  aggregateFeedbackMetrics "daily" 500 (Some "A") Samples.failingWorld
  = (Throw (Error "store unavailable"),
     snd (aggregateFeedbackMetrics "daily" 500 (Some "A") Samples.failingWorld)) /\
  feedbackMetrics (snd (aggregateFeedbackMetrics "daily" 500 (Some "A") Samples.failingWorld))
  = feedbackMetrics Samples.failingWorld.
Proof.
  assert (H : aggregateFeedbackMetrics "daily" 500 (Some "A") Samples.failingWorld
              = (Throw (Error "store unavailable"),
                 snd (aggregateFeedbackMetrics "daily" 500 (Some "A") Samples.failingWorld)))
    by (vm_compute; reflexivity).
  split; [exact H|].
  exact (proj1 (proj1 (failed_aggregation_writes_nothing "daily" 500 (Some "A")
                         Samples.failingWorld) _ _ H)).
Defined.

(** *** The upsert and what a collection keeps *)

Lemma findOneAndUpdate_stored {M} p d c (m : M) now coll :
  snd (findOneAndUpdate p d c m now coll)
  ∈ under p d c (fst (findOneAndUpdate p d c m now coll)).
Proof.
  unfold under. induction coll as [|x coll IH]; cbn [findOneAndUpdate].
  - cbn [fst snd List.filter].
    assert (E : hasKey p d c {| period := p; date := d; companyId := c; metrics := m;
                               calculatedAt := now; doc_createdAt := now;
                               doc_updatedAt := now |} = true)
      by (apply hasKey_spec; cbn; tauto).
    rewrite E. apply list_elem_of_here.
  - destruct (hasKey p d c x) eqn:E; cbn [fst snd List.filter].
    + assert (E' : hasKey p d c {| period := period x; date := date x;
                                  companyId := companyId x; metrics := m;
                                  calculatedAt := now;
                                  doc_createdAt := doc_createdAt x;
                                  doc_updatedAt := now |} = true)
        by (apply hasKey_spec; apply hasKey_spec in E; cbn; tauto).
      rewrite E'. apply list_elem_of_here.
    + rewrite E. exact IH.
Qed.

Lemma keeps_written {M} p s c (m : M) now coll :
  keeps p s c m now (fst (findOneAndUpdate p s c m now coll)).
Proof.
  exists (snd (findOneAndUpdate p s c m now coll)).
  split; [apply findOneAndUpdate_stored|].
  destruct (findOneAndUpdate_doc p s c m now coll) as (_ & _ & _ & Hm & Hc & _).
  now split.
Qed.

(** Writing the metrics [f c] of scope [c] keeps what is kept of a scope
    [c'], whose metrics are [f c']. *)
Lemma keeps_upsert {M} p s (f : option string -> M) now c c' coll :
  keeps p s c' (f c') now coll ->
  keeps p s c' (f c') now (fst (findOneAndUpdate p s c (f c) now coll)).
Proof.
  intros Hk. destruct (decide (c' = c)) as [->|Hne]; [apply keeps_written|].
  destruct Hk as (doc & Hin & Hm & Hc). exists doc.
  rewrite findOneAndUpdate_others by congruence. auto.
Qed.

Section Run.
Variables (p : string) (now z s e : Z) (es : list AnalyticsEvent.t).
Hypothesis Hcalc : _calculatePeriodDates z now p now = Ok (s, e).

Lemma aggregateFeedbackMetrics_during c w :
  during now z es w ->
  exists doc w1,
    aggregateFeedbackMetrics p now c w = (Ok doc, w1) /\ during now z es w1 /\
    keptFeedback p now s e es c w1 /\
    (forall c', keptFeedback p now s e es c' w -> keptFeedback p now s e es c' w1) /\
    (forall c', keptUser p now s e es c' w -> keptUser p now s e es c' w1).
Proof using Hcalc.
  intros (Hh & Hclock & Hzone & Hes).
  rewrite aggregateFeedbackMetrics_unfold. cbv zeta.
  rewrite Hzone, Hclock, Hcalc, !Hh, Hes.
  eexists _, _. split; [reflexivity|].
  split; [repeat split; assumption|].
  unfold Written.keptFeedback, Written.keptUser. cbn [feedbackMetrics userMetrics setLog setFeedbackMetrics].
  split; [apply keeps_written|]. split; [|auto].
  intros c'. apply (keeps_upsert p s (fun c => feedbackOf s e c es)).
Qed.

Lemma aggregateUserMetrics_during c w :
  during now z es w ->
  exists doc w1,
    aggregateUserMetrics p now c w = (Ok doc, w1) /\ during now z es w1 /\
    keptUser p now s e es c w1 /\
    (forall c', keptFeedback p now s e es c' w -> keptFeedback p now s e es c' w1) /\
    (forall c', keptUser p now s e es c' w -> keptUser p now s e es c' w1).
Proof using Hcalc.
  intros (Hh & Hclock & Hzone & Hes).
  rewrite aggregateUserMetrics_unfold. cbv zeta.
  rewrite Hzone, Hclock, Hcalc, !Hh, Hes.
  eexists _, _. split; [reflexivity|].
  split; [repeat split; assumption|].
  unfold Written.keptFeedback, Written.keptUser. cbn [feedbackMetrics userMetrics setLog setUserMetrics].
  split; [apply keeps_written|]. split; [auto|].
  intros c'. apply (keeps_upsert p s (fun c => userOf s e c es)).
Qed.

Lemma perCompany_during x w :
  during now z es w ->
  exists w1,
    perCompany p now x w = (Ok tt, w1) /\ during now z es w1 /\
    keptFeedback p now s e es (Some x) w1 /\ keptUser p now s e es (Some x) w1 /\
    (forall c', keptFeedback p now s e es c' w -> keptFeedback p now s e es c' w1) /\
    (forall c', keptUser p now s e es c' w -> keptUser p now s e es c' w1).
Proof using Hcalc.
  intros Hw. rewrite perCompany_unfold.
  destruct (aggregateFeedbackMetrics_during (Some x) w Hw)
    as (doc1 & w1 & -> & Hw1 & K1 & F1 & U1).
  destruct (aggregateUserMetrics_during (Some x) w1 Hw1)
    as (doc2 & w2 & -> & Hw2 & K2 & F2 & U2).
  exists w2. split; [reflexivity|]. split; [exact Hw2|].
  split; [apply F2, K1|]. split; [exact K2|]. split; auto.
Qed.

Lemma forEachCompany_during cs : forall w,
  during now z es w ->
  exists w1,
    forEachCompany (perCompany p now) cs w = (Ok tt, w1) /\ during now z es w1 /\
    (forall c, c ∈ cs -> keptFeedback p now s e es (Some c) w1 /\ keptUser p now s e es (Some c) w1) /\
    (forall c', keptFeedback p now s e es c' w -> keptFeedback p now s e es c' w1) /\
    (forall c', keptUser p now s e es c' w -> keptUser p now s e es c' w1).
Proof using Hcalc.
  induction cs as [|x cs IH]; intros w Hw.
  - exists w. split; [reflexivity|]. split; [exact Hw|].
    split; [intros c Hc; now apply elem_of_nil in Hc|]. auto.
  - rewrite forEachCompany_cons.
    destruct (perCompany_during x w Hw) as (w1 & -> & Hw1 & KF & KU & F1 & U1).
    destruct (IH w1 Hw1) as (w2 & -> & Hw2 & Hall & F2 & U2).
    exists w2. split; [reflexivity|]. split; [exact Hw2|].
    split; [|auto].
    intros c Hc. apply elem_of_cons in Hc as [->|Hc]; [split; auto|now apply Hall].
Qed.

End Run.

(** X19: when no database call fails, the period kind is recognised and
    the metrics of every scope can be stored (none of their numbers is NaN,
    which Mongoose refuses to cast and which makes the upsert fail), the
    scheduled run ends with its completion entry in the log and both
    collections keep, for the platform and for every listed company, a
    document under the key of the period start with the metrics of that
    scope's events in the window, calculated at the time of the run; no
    stored number of these documents is NaN. *)
Theorem scheduled_run_completes p w s e :
  healthy w ->
  _calculatePeriodDates (zone w) (clock w) p (clock w) = Ok (s, e) ->
  storable s e w ->
  let w' := snd (runScheduledAggregation p w) in
  fst (runScheduledAggregation p w) = Ok tt /\
  last (log w') = Some (note info ("Completed scheduled " ++ p ++ " aggregation") None) /\
  forall c, c ∈ scopes w ->
    (exists doc, doc ∈ under p s c (feedbackMetrics w') /\
                 metrics doc = feedbackOf s e c (events w) /\
                 calculatedAt doc = clock w /\ castFeedback (metrics doc) = true) /\
    (exists doc, doc ∈ under p s c (userMetrics w') /\
                 metrics doc = userOf s e c (events w) /\
                 calculatedAt doc = clock w /\ castUser (metrics doc) = true).
Proof.
  intros Hh Hcalc Hcast. rewrite runScheduledAggregation_unfold. cbv zeta.
  rewrite Hh.
  set (w0 := setLog _ w).
  assert (Hw0 : Written.during (clock w) (zone w) (events w) w0) by (repeat split; exact Hh).
  destruct (aggregateFeedbackMetrics_during p (clock w) (zone w) s e (events w) Hcalc None w0 Hw0)
    as (doc1 & w1 & -> & Hw1 & K1 & F1 & U1).
  destruct (aggregateUserMetrics_during p (clock w) (zone w) s e (events w) Hcalc None w1 Hw1)
    as (doc2 & w2 & -> & Hw2 & K2 & F2 & U2).
  destruct (forEachCompany_during p (clock w) (zone w) s e (events w) Hcalc (companies w) w2 Hw2)
    as (w3 & -> & Hw3 & Hall & F3 & U3).
  cbn [fst snd log setLog feedbackMetrics userMetrics].
  split; [reflexivity|]. split; [apply last_snoc|].
  intros c Hc. destruct (Hcast c Hc) as [Cf Cu].
  assert (K : keeps p s c (feedbackOf s e c (events w)) (clock w) (feedbackMetrics w3) /\
              keeps p s c (userOf s e c (events w)) (clock w) (userMetrics w3)).
  { unfold scopes in Hc. apply elem_of_cons in Hc as [->|Hc].
    - split; [apply F3, F2, K1|apply U3, K2].
    - apply list_elem_of_fmap in Hc as (x & -> & Hx). now apply Hall. }
  destruct K as [(d1 & I1 & M1 & T1) (d2 & I2 & M2 & T2)].
  split; [exists d1|exists d2]; rewrite ?M1, ?M2; auto.
Qed.

Lemma scheduled_run_completes_witness :
  healthy Samples.world /\
  _calculatePeriodDates 0 1000 "daily" 1000 = Ok (0, 86399999) /\
  storable 0 86399999 Samples.world /\
  last (log (snd (runScheduledAggregation "daily" Samples.world)))
  = Some (note info "Completed scheduled daily aggregation" None) /\
  exists doc,
    doc ∈ under "daily" 0 (Some "B")
            (feedbackMetrics (snd (runScheduledAggregation "daily" Samples.world))) /\
    metrics doc = feedbackOf 0 86399999 (Some "B") (events Samples.world) /\
    calculatedAt doc = 1000.
Proof.
  assert (Hh : healthy Samples.world) by (intros call; reflexivity).
  assert (Hc : _calculatePeriodDates (zone Samples.world) (clock Samples.world)
                 "daily" (clock Samples.world) = Ok (0, 86399999))
    by (vm_compute; reflexivity).
  assert (Hs : storable 0 86399999 Samples.world).
  { intros c Hin. unfold scopes in Hin. cbn [companies Samples.world List.map] in Hin.
    rewrite !elem_of_cons in Hin.
    destruct Hin as [->|[->|[->|Hin]]]; [..|now apply elem_of_nil in Hin];
      split; vm_compute; reflexivity. }
  split; [exact Hh|]. split; [exact Hc|]. split; [exact Hs|].
  destruct (scheduled_run_completes "daily" Samples.world 0 86399999 Hh Hc Hs)
    as (_ & Hlast & Hall).
  split; [exact Hlast|].
  destruct (Hall (Some "B")) as [(doc & Hin & Hm & Ht & _) _].
  { unfold scopes. apply list_elem_of_further, list_elem_of_fmap. exists "B".
    split; [reflexivity|]. apply list_elem_of_further, list_elem_of_here. }
  exists doc. split; [exact Hin|]. split; [exact Hm|exact Ht].
Defined.

(** With logins that carry no session duration the metrics of the platform
    cannot be stored: the average session duration is NaN. *)
Example logins_without_duration_cannot_be_stored :
  castUser (userOf 0 100 None Logins.twoLogins) = false.
Proof. vm_compute. reflexivity. Qed.

(** ** The read handlers *)

Lemma given_spec s v : MetricsController.given s = Some v <-> s = Some v /\ v <> "".
Proof.
  unfold MetricsController.given. destruct s as [[|a s']|]; split.
  - discriminate.
  - intros [E Hv]. injection E as <-. contradiction.
  - intros E. injection E as <-. split; [reflexivity|discriminate].
  - intros [E _]. exact E.
  - discriminate.
  - intros [E _]. discriminate E.
Qed.

(** X20: a caller without the admin role is never given a lookup that is
    filtered to a company other than the caller's own: the handler answers
    403 when the caller has no company or names another one, and every
    company filter it builds is the caller's company. *)
Theorem reads_never_filter_another_company Date_parse prefix dated u q :
  "admin" ∉ MetricsReads.roles u ->
  match MetricsReads.prepare Date_parse prefix dated (Some u) q with
  | MetricsReads.Forbidden _ =>
      MetricsController.given (MetricsReads.user_companyId u) = None \/
      exists asked,
        MetricsController.given (MetricsReads.companyId q) = Some asked /\
        MetricsReads.user_companyId u <> Some asked
  | MetricsReads.Lookup _ _ filter =>
      forall c, MetricsReads.f_companyId filter = Some c ->
                MetricsReads.user_companyId u = Some c
  end.
Proof.
  intros Hrole. unfold MetricsReads.prepare, MetricsReads.checkAccess.
  rewrite (bool_decide_eq_false_2 _ Hrole). cbn [negb].
  destruct (MetricsController.given (MetricsReads.user_companyId u)) as [own|] eqn:Eown;
    [|now left].
  apply given_spec in Eown as [Eown _].
  destruct (MetricsController.given (MetricsReads.companyId q)) as [asked|] eqn:Easked.
  - destruct (String.eqb_spec asked own) as [->|Hne]; cbn [negb].
    + intros c. cbn [MetricsReads.filterOf MetricsReads.f_companyId].
      rewrite Easked. intros E. injection E as <-. exact Eown.
    + right. exists asked. split; [reflexivity|]. rewrite Eown. congruence.
  - intros c. cbn [MetricsReads.filterOf MetricsReads.f_companyId].
    rewrite Easked. discriminate.
Qed.

Lemma reads_never_filter_another_company_witness :
  MetricsReads.getFeedbackMetrics (fun _ => None)
    (Some {| MetricsReads.roles := ["analyst"];
             MetricsReads.user_companyId := Some "c1" |})
    {| MetricsReads.companyId := Some "c2"; MetricsReads.period := None;
       MetricsReads.startDate := None; MetricsReads.endDate := None |}
  = MetricsReads.Forbidden
      "You do not have permission to access metrics for this company" /\
  (MetricsController.given (Some "c1") = None \/
   exists asked, MetricsController.given (Some "c2") = Some asked /\
                 Some "c1" <> Some asked).
Proof.
  split; [reflexivity|].
  assert (Hrole : "admin" ∉ ["analyst"]).
  { rewrite not_elem_of_cons. split; [discriminate|apply not_elem_of_nil]. }
  exact (reads_never_filter_another_company (fun _ => None) "feedback-metrics" true
           {| MetricsReads.roles := ["analyst"];
              MetricsReads.user_companyId := Some "c1" |}
           {| MetricsReads.companyId := Some "c2"; MetricsReads.period := None;
              MetricsReads.startDate := None; MetricsReads.endDate := None |}
           Hrole).
Defined.

(** X21: for a caller without the admin role who has a company and names
    none, the handler goes on: the cache key is made with the caller's
    company, and the database filter has no company at all. *)
Theorem own_company_reaches_the_key_only Date_parse prefix dated u q own :
  "admin" ∉ MetricsReads.roles u ->
  MetricsController.given (MetricsReads.user_companyId u) = Some own ->
  MetricsController.given (MetricsReads.companyId q) = None ->
  exists filter,
    MetricsReads.prepare Date_parse prefix dated (Some u) q
    = MetricsReads.Lookup prefix (Some own) filter /\
    MetricsReads.f_companyId filter = None.
Proof.
  intros Hrole Hown Hnone. unfold MetricsReads.prepare, MetricsReads.checkAccess.
  rewrite (bool_decide_eq_false_2 _ Hrole), Hown, Hnone. cbn [negb].
  eexists. split; [reflexivity|]. cbn [MetricsReads.filterOf MetricsReads.f_companyId].
  exact Hnone.
Qed.

Lemma own_company_reaches_the_key_only_witness :
  exists filter,
    MetricsReads.getMetricsSummary (fun _ => None)
      (Some {| MetricsReads.roles := ["analyst"];
               MetricsReads.user_companyId := Some "c1" |})
      {| MetricsReads.companyId := None; MetricsReads.period := Some "daily";
         MetricsReads.startDate := None; MetricsReads.endDate := None |}
    = MetricsReads.Lookup "metrics-summary" (Some "c1") filter /\
    MetricsReads.f_companyId filter = None.
Proof.
  apply (own_company_reaches_the_key_only (fun _ => None) "metrics-summary" false
           {| MetricsReads.roles := ["analyst"];
              MetricsReads.user_companyId := Some "c1" |}
           {| MetricsReads.companyId := None; MetricsReads.period := Some "daily";
              MetricsReads.startDate := None; MetricsReads.endDate := None |} "c1").
  - cbn [MetricsReads.roles]. rewrite not_elem_of_cons.
    split; [discriminate|apply not_elem_of_nil].
  - reflexivity.
  - reflexivity.
Defined.

(** ** The manual trigger and its dates *)

(** X22: an administrator's request with a recognised period and a start
    date whose text is no date is answered with the validation error for
    the start date; with a start date that is absent or a date and an end
    date whose text is no date, with the one for the end date. Nothing is
    logged and no run is started, whatever methods the aggregator has. *)
Theorem unreadable_dates_are_rejected methods Date_parse req p :
  "admin" ∈ MetricsController.roles req ->
  MetricsController.period (MetricsController.body req) = Some p ->
  p ∈ MetricsController.periods ->
  let start := MetricsController.given (MetricsController.startDate (MetricsController.body req)) in
  let end_ := MetricsController.given (MetricsController.endDate (MetricsController.body req)) in
  (forall text, start = Some text -> Date_parse text = None ->
     MetricsController.triggerAggregation methods Date_parse req
     = (MetricsController.validationError "Invalid startDate format", [])) /\
  (forall text, end_ = Some text -> Date_parse text = None ->
     (start = None \/ exists text' t, start = Some text' /\ Date_parse text' = Some t) ->
     MetricsController.triggerAggregation methods Date_parse req
     = (MetricsController.validationError "Invalid endDate format", [])).
Proof.
  intros Hrole Hp Hin start end_.
  assert (Hgiven : MetricsController.given (Some p) = Some p).
  { apply given_spec. split; [reflexivity|]. intros ->.
    unfold MetricsController.periods in Hin.
    repeat (apply elem_of_cons in Hin as [Hin|Hin]; [discriminate Hin|]).
    now apply elem_of_nil in Hin. }
  unfold MetricsController.triggerAggregation.
  rewrite (bool_decide_eq_true_2 _ Hrole), Hp, Hgiven, (bool_decide_eq_true_2 _ Hin).
  cbn [negb]. fold start end_. split.
  - intros text Hs Hbad. rewrite Hs. cbn [mbind option_bind]. rewrite Hbad.
    rewrite (bool_decide_eq_true_2 (is_Some (Some text))) by eauto.
    rewrite (bool_decide_eq_true_2 (None = None)) by reflexivity. reflexivity.
  - intros text He Hbad Hstart. rewrite He. cbn [mbind option_bind]. rewrite Hbad.
    rewrite (bool_decide_eq_true_2 (is_Some (Some text))) by eauto.
    rewrite (bool_decide_eq_true_2 (@None Z = None)) by reflexivity.
    destruct Hstart as [->|(text' & t & -> & Ht)].
    + rewrite (bool_decide_eq_false_2 (is_Some None)) by (intros [? ?]; discriminate).
      reflexivity.
    + cbn [mbind option_bind]. rewrite Ht.
      rewrite (bool_decide_eq_false_2 (Some t = None)) by discriminate.
      rewrite andb_false_r. reflexivity.
Qed.

Lemma unreadable_dates_are_rejected_witness :
  MetricsController.triggerAggregation MetricsController.DataAggregator_methods
    (fun _ => None)
    {| MetricsController.body :=
         {| MetricsController.period := Some "daily";
            MetricsController.companyId := None;
            MetricsController.startDate := Some "yesterday";
            MetricsController.endDate := None |};
       MetricsController.roles := ["admin"] |}
  = (MetricsController.validationError "Invalid startDate format", []).
Proof.
  refine (proj1 (unreadable_dates_are_rejected MetricsController.DataAggregator_methods
                   (fun _ => None)
                   {| MetricsController.body :=
                        {| MetricsController.period := Some "daily";
                           MetricsController.companyId := None;
                           MetricsController.startDate := Some "yesterday";
                           MetricsController.endDate := None |};
                      MetricsController.roles := ["admin"] |}
                   "daily" _ eq_refl _) "yesterday" eq_refl eq_refl).
  - apply list_elem_of_here.
  - apply list_elem_of_here.
Defined.

(** ** The summary *)

(** X23: with the aggregator class as it is, a summary request that finds
    a feedback metrics document is answered 500 with the message of the
    TypeError, and nothing is cached: the handler calls
    getPreviousPeriodStart, which the class does not have. *)
Theorem summary_fails_when_feedback_is_found implementation period found doc :
  MetricsSummary.feedbackMetrics found = Some doc ->
  MetricsSummary.answer MetricsController.DataAggregator_methods implementation
    period found
  = {| MetricsSummary.status := 500; MetricsSummary.success := false;
       MetricsSummary.data := None;
       MetricsSummary.message :=
         Some "DataAggregator.getPreviousPeriodStart is not a function";
       MetricsSummary.cached := false |}.
Proof.
  intros Hdoc. unfold MetricsSummary.answer, MetricsSummary.summarize. rewrite Hdoc.
  unfold MetricsSummary.callGetPreviousPeriodStart.
  assert (E : bool_decide ("getPreviousPeriodStart" ∈ MetricsController.DataAggregator_methods)
              = false) by (vm_compute; reflexivity).
  rewrite E. reflexivity.
Qed.

(** X24: a change is reported only against a base that is not zero: when
    [calculateChange] gives a result its previous value is not 0, and for
    finite stored values its change is the difference and its percentage a
    finite number. *)
Theorem changes_have_a_base current previous f ch :
  MetricsSummary.calculateChange current previous f = Some ch ->
  MetricsSummary.isZero (MetricsSummary.previousValue ch) = false /\
  MetricsSummary.change ch
  = JS.sub (MetricsSummary.value ch) (MetricsSummary.previousValue ch) /\
  (JS.is_finite (MetricsSummary.value ch) ->
   JS.is_finite (MetricsSummary.previousValue ch) ->
   JS.is_finite (MetricsSummary.percentChange ch)).
Proof.
  unfold MetricsSummary.calculateChange.
  destruct current as [cur|]; [|discriminate]. destruct previous as [prev|]; [|discriminate].
  destruct (MetricsSummary.isZero _) eqn:Ez; [discriminate|].
  intros H. injection H as <-.
  cbn [MetricsSummary.previousValue MetricsSummary.change MetricsSummary.value
       MetricsSummary.percentChange].
  split; [exact Ez|]. split; [reflexivity|].
  destruct (JS.toNumber (JS.orZero (MetricsSummary.field cur f))) as [x| |?];
    [|contradiction..].
  destruct (JS.toNumber (JS.orZero (MetricsSummary.field prev f))) as [y| |?];
    [|intros _ []..].
  intros _ _. cbn [MetricsSummary.isZero] in Ez.
  unfold JS.sub, JS.neg, JS.add, JS.div. rewrite Ez. exact I.
Qed.

Lemma summary_fails_when_feedback_is_found_witness :
  MetricsSummary.status
    (MetricsSummary.answer MetricsController.DataAggregator_methods
       (fun _ _ => None) (Some "daily") SummarySamples.found) = 500.
Proof.
  rewrite (summary_fails_when_feedback_is_found (fun _ _ => None) (Some "daily")
             SummarySamples.found (SummarySamples.withUsers 6) eq_refl).
  reflexivity.
Defined.

Lemma changes_have_a_base_witness :
  MetricsSummary.calculateChange (Some (SummarySamples.withUsers 6))
    (Some (SummarySamples.withUsers 4)) "totalUsers"
  = Some SummarySamples.sixAfterFour /\
  JS.is_finite (MetricsSummary.percentChange SummarySamples.sixAfterFour).
Proof.
  assert (H : MetricsSummary.calculateChange (Some (SummarySamples.withUsers 6))
                (Some (SummarySamples.withUsers 4)) "totalUsers"
              = Some SummarySamples.sixAfterFour) by (vm_compute; reflexivity).
  split; [exact H|].
  apply (proj2 (proj2 (changes_have_a_base _ _ _ _ H))); exact I.
Defined.

(** ** The scheduler's jobs *)

Lemma scheduleJob_valid validate name sched t s :
  validate sched = true ->
  Scheduler.jobs (snd (Scheduler.scheduleJob validate name sched t s))
  = <[name := {| Scheduler.schedule := sched; Scheduler.task := t |}]>
      (delete name (Scheduler.jobs s)).
Proof.
  intros Hvalid. unfold Scheduler.scheduleJob. rewrite Hvalid. cbn [negb snd].
  cbn [Scheduler.say Scheduler.jobs]. f_equal.
  unfold Scheduler.stopJob. destruct (Scheduler.jobs s !! name) eqn:E.
  - reflexivity.
  - symmetry. now apply delete_id.
Qed.

Lemma scheduleJob_jobs validate name sched t s other :
  Scheduler.jobs (snd (Scheduler.scheduleJob validate name sched t s)) !! other
  = if validate sched && bool_decide (other = name)
    then Some {| Scheduler.schedule := sched; Scheduler.task := t |}
    else Scheduler.jobs s !! other.
Proof.
  destruct (validate sched) eqn:Hvalid.
  - rewrite scheduleJob_valid by exact Hvalid.
    cbn [andb]. destruct (decide (other = name)) as [->|Hne].
    + rewrite bool_decide_eq_true_2 by reflexivity. apply lookup_insert_eq.
    + rewrite bool_decide_eq_false_2 by exact Hne.
      rewrite lookup_insert_ne by congruence. apply lookup_delete_ne. congruence.
  - unfold Scheduler.scheduleJob. rewrite Hvalid. reflexivity.
Qed.

(** X25: a job scheduled with a valid expression is stored under its name
    with that expression and task, replacing an older job of the name and
    leaving the other jobs alone; stopping it then succeeds and leaves the
    jobs there were before, without one of that name. *)
Theorem scheduled_job_can_be_stopped validate name sched t s :
  validate sched = true ->
  let s1 := snd (Scheduler.scheduleJob validate name sched t s) in
  fst (Scheduler.scheduleJob validate name sched t s) = true /\
  Scheduler.jobs s1 !! name
  = Some {| Scheduler.schedule := sched; Scheduler.task := t |} /\
  (forall other, other <> name ->
                 Scheduler.jobs s1 !! other = Scheduler.jobs s !! other) /\
  fst (Scheduler.stopJob name s1) = true /\
  Scheduler.jobs (snd (Scheduler.stopJob name s1)) = delete name (Scheduler.jobs s).
Proof.
  intros Hvalid. cbv zeta.
  split; [unfold Scheduler.scheduleJob; now rewrite Hvalid|].
  split.
  { rewrite scheduleJob_jobs, Hvalid. now rewrite bool_decide_eq_true_2. }
  split.
  { intros other Hne. rewrite scheduleJob_jobs.
    rewrite (bool_decide_eq_false_2 _ Hne). now rewrite andb_false_r. }
  pose proof (scheduleJob_valid validate name sched t s Hvalid) as Hjobs.
  unfold Scheduler.stopJob. rewrite Hjobs, lookup_insert_eq.
  cbn [fst snd Scheduler.say Scheduler.jobs]. split; [reflexivity|].
  rewrite delete_insert_eq. apply delete_delete_eq.
Qed.

Lemma scheduled_job_can_be_stopped_witness :
  Scheduler.jobs
    (snd (Scheduler.stopJob "nightly"
            (snd (Scheduler.scheduleJob (fun _ => true) "nightly" "0 3 * * *"
                    (Scheduler.Custom "cleanup") Scheduler.initial))))
  = delete "nightly" (Scheduler.jobs Scheduler.initial).
Proof.
  exact (proj2 (proj2 (proj2 (proj2
           (scheduled_job_can_be_stopped (fun _ => true) "nightly" "0 3 * * *"
              (Scheduler.Custom "cleanup") Scheduler.initial eq_refl))))).
Defined.

Lemma scheduleJob_running validate name sched t s :
  Scheduler.running (snd (Scheduler.scheduleJob validate name sched t s))
  = Scheduler.running s.
Proof.
  unfold Scheduler.scheduleJob. destruct (validate sched); cbn [negb snd]; [|reflexivity].
  unfold Scheduler.stopJob. destruct (Scheduler.jobs s !! name); reflexivity.
Qed.

(** X26: initialisation leaves, under each of the four job names, the job
    of its expression when node-cron takes the expression as valid and
    whatever was there otherwise. The expression of an aggregation job is
    the value of its environment variable when that is set and not empty,
    and the default otherwise; the one of the report generation is fixed.
    A rejected expression does not keep the jobs after it from being
    scheduled, jobs of other names stay, and no execution in progress is
    forgotten. *)
Theorem initialize_schedules_each_valid_expression validate env s :
  let s' := Scheduler.initialize validate env s in
  let expression name dflt :=
    match env name with
    | Some v => if String.eqb v "" then dflt else v
    | None => dflt
    end in
  let expected name sched t :=
    Scheduler.jobs s' !! name
    = if validate sched
      then Some {| Scheduler.schedule := sched; Scheduler.task := t |}
      else Scheduler.jobs s !! name in
  expected "daily-aggregation" (expression "DAILY_AGGREGATION_SCHEDULE" "0 0 * * *")
    (Scheduler.Aggregation "daily") /\
  expected "weekly-aggregation" (expression "WEEKLY_AGGREGATION_SCHEDULE" "0 0 * * 0")
    (Scheduler.Aggregation "weekly") /\
  expected "monthly-aggregation" (expression "MONTHLY_AGGREGATION_SCHEDULE" "0 0 1 * *")
    (Scheduler.Aggregation "monthly") /\
  expected "report-generation" "0 1 * * *" Scheduler.ReportGeneration /\
  (forall other,
     other ∉ ["daily-aggregation"; "weekly-aggregation"; "monthly-aggregation";
              "report-generation"] ->
     Scheduler.jobs s' !! other = Scheduler.jobs s !! other) /\
  Scheduler.running s' = Scheduler.running s.
Proof.
  cbv zeta. unfold Scheduler.initialize.
  fold (Scheduler.configured env "DAILY_AGGREGATION_SCHEDULE" "0 0 * * *").
  fold (Scheduler.configured env "WEEKLY_AGGREGATION_SCHEDULE" "0 0 * * 0").
  fold (Scheduler.configured env "MONTHLY_AGGREGATION_SCHEDULE" "0 0 1 * *").
  generalize (Scheduler.configured env "DAILY_AGGREGATION_SCHEDULE" "0 0 * * *").
  generalize (Scheduler.configured env "WEEKLY_AGGREGATION_SCHEDULE" "0 0 * * 0").
  generalize (Scheduler.configured env "MONTHLY_AGGREGATION_SCHEDULE" "0 0 1 * *").
  intros monthly weekly daily.
  cbn [Scheduler.say Scheduler.jobs Scheduler.running].
  repeat split.
  1-4: rewrite !scheduleJob_jobs; cbn [Scheduler.say Scheduler.jobs];
       repeat match goal with
       | |- context [bool_decide (?a = ?b)] =>
           first [ rewrite (bool_decide_eq_true_2 (a = b)) by reflexivity
                 | rewrite (bool_decide_eq_false_2 (a = b)) by discriminate ]
       end;
       rewrite ?andb_false_r, ?andb_true_r; reflexivity.
  - intros other Hout. rewrite !not_elem_of_cons in Hout.
    destruct Hout as (H1 & H2 & H3 & H4 & _).
    rewrite !scheduleJob_jobs. cbn [Scheduler.say Scheduler.jobs].
    rewrite !bool_decide_eq_false_2 by assumption.
    rewrite !andb_false_r. reflexivity.
  - rewrite !scheduleJob_running. reflexivity.
Qed.

(** With DAILY_AGGREGATION_SCHEDULE set to half past two, the daily job
    runs at half past two and the weekly one at its default. *)
Example initialize_with_an_override :
  let env name :=
    if String.eqb name "DAILY_AGGREGATION_SCHEDULE" then Some "30 2 * * *" else None in
  let s' := Scheduler.initialize (fun _ => true) env Scheduler.initial in
  Scheduler.schedule <$> (Scheduler.jobs s' !! "daily-aggregation") = Some "30 2 * * *" /\
  Scheduler.schedule <$> (Scheduler.jobs s' !! "weekly-aggregation") = Some "0 0 * * 0".
Proof. split; vm_compute; reflexivity. Qed.

(** ** The cache key *)

Section KeyOrder.
Variable cmp : string -> string -> comparison.
Hypothesis cmp_asym : forall a b, cmp a b = Gt -> cmp b a <> Gt.
Hypothesis cmp_antisym : forall a b, cmp a b <> Gt -> cmp b a <> Gt -> a = b.
Hypothesis cmp_trans : forall a b c, cmp a b <> Gt -> cmp b c <> Gt -> cmp a c <> Gt.

Local Notation "'before'" := (fun x y : string * string => cmp (fst x) (fst y) <> Gt).

Lemma insertEntry_perm kv l : Permutation (Cache.insertEntry cmp kv l) (kv :: l).
Proof.
  induction l as [|x l IH]; cbn [Cache.insertEntry]; [reflexivity|].
  destruct (cmp (fst kv) (fst x)); try reflexivity.
  rewrite IH. apply perm_swap.
Qed.

Lemma sortEntries_perm l : Permutation (Cache.sortEntries cmp l) l.
Proof.
  induction l as [|x l IH]; [reflexivity|]. cbn [Cache.sortEntries fold_right].
  fold (Cache.sortEntries cmp l). rewrite insertEntry_perm. now constructor.
Qed.

Lemma insertEntry_sorted kv l :
  StronglySorted before l -> StronglySorted before (Cache.insertEntry cmp kv l).
Proof using cmp_asym cmp_trans.
  induction 1 as [|x l Hs IH Hall]; cbn [Cache.insertEntry].
  - repeat constructor.
  - assert (Hle : cmp (fst kv) (fst x) <> Gt -> StronglySorted before (kv :: x :: l)).
    { intros Hkx. constructor; [now constructor|]. constructor; [exact Hkx|].
      eapply List.Forall_impl; [|exact Hall]. intros y Hy. cbn beta in *.
      eapply cmp_trans; eassumption. }
    destruct (cmp (fst kv) (fst x)) eqn:E; [apply Hle; congruence..|].
    constructor; [exact IH|].
    eapply Permutation_Forall; [symmetry; apply insertEntry_perm|].
    constructor; [|exact Hall]. now apply cmp_asym.
Qed.

Lemma sortEntries_sorted l : StronglySorted before (Cache.sortEntries cmp l).
Proof using cmp_asym cmp_trans.
  induction l as [|x l IH]; [constructor|]. now apply insertEntry_sorted.
Qed.

Lemma same_key_same_entry (l : list (string * string)) a b :
  NoDup (List.map fst l) -> a ∈ l -> b ∈ l -> fst a = fst b -> a = b.
Proof.
  induction l as [|x l IH]; intros Hnd Ha Hb Hk; [now apply elem_of_nil in Ha|].
  cbn [List.map] in Hnd. apply NoDup_cons in Hnd as [Hout Hnd].
  apply elem_of_cons in Ha as [->|Ha]; apply elem_of_cons in Hb as [->|Hb].
  - reflexivity.
  - exfalso. apply Hout. rewrite Hk. apply list_elem_of_fmap. eauto.
  - exfalso. apply Hout. rewrite <- Hk. apply list_elem_of_fmap. eauto.
  - now apply IH.
Qed.

Lemma sorted_unique l1 : forall l2,
  StronglySorted before l1 -> StronglySorted before l2 ->
  Permutation l1 l2 -> NoDup (List.map fst l1) -> l1 = l2.
Proof using cmp_antisym.
  induction l1 as [|a l1 IH]; intros l2 S1 S2 Hp Hnd.
  - now apply Permutation_nil in Hp.
  - destruct l2 as [|b l2]; [symmetry in Hp; now apply Permutation_nil in Hp|].
    assert (Hab : a = b).
    { assert (Ha : a ∈ b :: l2) by (rewrite <- Hp; apply list_elem_of_here).
      assert (Hb : b ∈ a :: l1) by (rewrite Hp; apply list_elem_of_here).
      apply StronglySorted_inv in S1 as [_ F1]. apply StronglySorted_inv in S2 as [_ F2].
      apply elem_of_cons in Ha as [E|Ha]; [exact E|].
      pose proof Hb as Hb'. apply elem_of_cons in Hb as [E|Hb]; [now symmetry|].
      rewrite List.Forall_forall in F1, F2.
      apply (same_key_same_entry (a :: l1)); [exact Hnd|apply list_elem_of_here|exact Hb'|].
      apply cmp_antisym.
      - apply (F1 b). now apply list_elem_of_In.
      - apply (F2 a). now apply list_elem_of_In. }
    subst b. f_equal. apply IH.
    + now apply StronglySorted_inv in S1.
    + now apply StronglySorted_inv in S2.
    + now apply Permutation_cons_inv in Hp.
    + cbn [List.map] in Hnd. now apply NoDup_cons in Hnd.
Qed.

Lemma entries_perm params params' :
  Permutation params params' -> Permutation (Cache.entries params) (Cache.entries params').
Proof.
  unfold Cache.entries.
  induction 1 as [|x l l' _ IH|x y l|l l' l'' _ IH1 _ IH2]; cbn [omap list_omap].
  - reflexivity.
  - destruct (snd x); cbn; [now constructor|exact IH].
  - destruct (snd x), (snd y); cbn; try reflexivity. apply perm_swap.
  - now transitivity (omap (fun kv : string * option string =>
                              match snd kv with
                              | Some v => Some (fst kv, v)
                              | None => None
                              end) l').
Qed.

Lemma entries_keys params k :
  k ∈ List.map fst (Cache.entries params) -> k ∈ List.map fst params.
Proof.
  unfold Cache.entries. induction params as [|[k' [v|]] params IH];
    cbn [omap list_omap List.map fst snd]; cbn.
  - intros H. exact H.
  - intros H. apply elem_of_cons in H as [->|H]; [apply list_elem_of_here|].
    apply list_elem_of_further. now apply IH.
  - intros H. apply list_elem_of_further. now apply IH.
Qed.

Lemma entries_NoDup params :
  NoDup (List.map fst params) -> NoDup (List.map fst (Cache.entries params)).
Proof.
  induction params as [|[k [v|]] params IH]; cbn [List.map fst]; intros Hnd.
  - constructor.
  - apply NoDup_cons in Hnd as [Hout Hnd].
    change (Cache.entries ((k, Some v) :: params)) with ((k, v) :: Cache.entries params).
    cbn [List.map fst]. apply NoDup_cons. split; [|now apply IH].
    intros H. apply Hout. now apply entries_keys.
  - apply NoDup_cons in Hnd as [_ Hnd].
    change (Cache.entries ((k, None) :: params)) with (Cache.entries params).
    now apply IH.
Qed.

End KeyOrder.

(** X27: when the comparison of the keys is a total order, the cache key
    does not depend on the order in which the parameters were given: two
    parameter objects with the same entries, whose keys are distinct as the
    keys of an object are, get the same key. *)
Theorem key_ignores_parameter_order localeCompare prefix params params' :
  (forall a b, localeCompare a b = Gt -> localeCompare b a <> Gt) ->
  (forall a b, localeCompare a b <> Gt -> localeCompare b a <> Gt -> a = b) ->
  (forall a b c, localeCompare a b <> Gt -> localeCompare b c <> Gt ->
                 localeCompare a c <> Gt) ->
  NoDup (List.map fst params) ->
  Permutation params params' ->
  Cache.generateKey localeCompare prefix params
  = Cache.generateKey localeCompare prefix params'.
Proof.
  intros Hasym Hanti Htrans Hnd Hp. unfold Cache.generateKey. do 3 f_equal.
  apply (sorted_unique localeCompare Hanti).
  - now apply sortEntries_sorted.
  - now apply sortEntries_sorted.
  - rewrite !sortEntries_perm. now apply entries_perm.
  - rewrite sortEntries_perm. now apply entries_NoDup.
Qed.

(** The comparison of strings by their characters is such an order. *)
Lemma compare_asym a b : String.compare a b = Gt -> String.compare b a <> Gt.
Proof.
  intros H H'. rewrite String.compare_antisym, H' in H. discriminate H.
Qed.

Lemma compare_le_antisym a b :
  String.compare a b <> Gt -> String.compare b a <> Gt -> a = b.
Proof.
  intros H H'. destruct (String.compare a b) eqn:E.
  - now apply String.compare_eq_iff.
  - rewrite String.compare_antisym, E in H'. now contradiction H'.
  - now contradiction H.
Qed.

Lemma compare_le_trans a b c :
  String.compare a b <> Gt -> String.compare b c <> Gt -> String.compare a c <> Gt.
Proof.
  assert (Hle : forall x y, String.compare x y <> Gt ->
                            x = y \/ OrderedTypeEx.String_as_OT.lt x y).
  { intros x y H. destruct (String.compare x y) eqn:E.
    - left. now apply String.compare_eq_iff.
    - right. now apply OrderedTypeEx.String_as_OT.cmp_lt.
    - now contradiction H. }
  intros H1 H2. apply Hle in H1, H2.
  assert (Hlt : forall x y, OrderedTypeEx.String_as_OT.lt x y -> String.compare x y <> Gt).
  { intros x y H. apply OrderedTypeEx.String_as_OT.cmp_lt in H.
    unfold OrderedTypeEx.String_as_OT.cmp in H. rewrite H. discriminate. }
  destruct H1 as [->|H1]; destruct H2 as [->|H2]; auto.
  - intros E. pose proof (String.compare_antisym c c) as A. rewrite E in A.
    discriminate A.
  - apply Hlt. eapply OrderedTypeEx.String_as_OT.lt_trans; eassumption.
Qed.

Lemma key_ignores_parameter_order_witness :
  Cache.generateKey String.compare "feedback-metrics"
    [("period", Some "daily"); ("role", None); ("companyId", Some "c1")]
  = Cache.generateKey String.compare "feedback-metrics"
      [("companyId", Some "c1"); ("period", Some "daily"); ("role", None)] /\
  Cache.generateKey String.compare "feedback-metrics"
    [("period", Some "daily"); ("role", None); ("companyId", Some "c1")]
  = "feedback-metrics:companyId:c1:period:daily".
Proof.
  split; [|vm_compute; reflexivity].
  apply (key_ignores_parameter_order String.compare "feedback-metrics"
           [("period", Some "daily"); ("role", None); ("companyId", Some "c1")]
           [("companyId", Some "c1"); ("period", Some "daily"); ("role", None)]
           compare_asym compare_le_antisym compare_le_trans).
  - cbn [List.map fst].
    repeat (apply NoDup_cons; split;
            [rewrite ?elem_of_cons, elem_of_nil; intros H; intuition discriminate|]).
    apply NoDup_nil_2.
  - change [("period", Some "daily"); ("role", None); ("companyId", Some "c1")]
      with ([("period", Some "daily"); ("role", @None string)] ++ [("companyId", Some "c1")])%list.
    apply (Permutation_app_comm [("period", Some "daily"); ("role", None)]
             [("companyId", Some "c1")]).
Defined.

(** ** The next run of a report *)

Section NextRun.
Variables (utcOffset now : Z).

Local Notation "'n'" := (Moment.localDay utcOffset now).
Local Notation "'tod'" := (Reports.timeWithinDay utcOffset now).

Lemma now_split :
  now = Reports.fromLocal utcOffset n tod /\ 0 <= tod < Moment.MS_PER_DAY.
Proof.
  unfold Reports.fromLocal, Reports.timeWithinDay, Moment.localDay.
  pose proof (Z.div_mod (Moment.localTime utcOffset now) Moment.MS_PER_DAY ltac:(discriminate)).
  pose proof (Z.mod_pos_bound (Moment.localTime utcOffset now) Moment.MS_PER_DAY eq_refl).
  unfold Moment.localTime in *. split; lia.
Qed.

Lemma localDay_fromLocal day time :
  0 <= time < Moment.MS_PER_DAY ->
  Moment.localDay utcOffset (Reports.fromLocal utcOffset day time) = day.
Proof.
  intros Ht. unfold Moment.localDay, Moment.localTime, Reports.fromLocal.
  replace (day * Moment.MS_PER_DAY + time - utcOffset * Moment.MS_PER_MINUTE
           + utcOffset * Moment.MS_PER_MINUTE)
    with (time + day * Moment.MS_PER_DAY) by lia.
  rewrite Z.div_add by discriminate. rewrite Z.div_small by exact Ht. lia.
Qed.

(** Moving the date by [j] days moves the local day by [j]. *)
Lemma setDate_day j :
  Reports.setDate utcOffset now (Moment.date utcOffset now + j)
  = Reports.fromLocal utcOffset (n + j) tod.
Proof.
  unfold Reports.setDate, Moment.year, Moment.month, Moment.date.
  pose proof (all_enclosed n) as H. unfold enclosed in H.
  destruct (Moment.civil_from_days n) as [[y m] d]. cbn [fst snd].
  destruct H as (_ & _ & Hn & _). now rewrite MakeDay_date, Hn.
Qed.

(** Moving the month by [j] months moves the local day by the days
    between the first days of the two months. *)
Lemma setMonth_day j :
  Reports.setMonth utcOffset now (Moment.month utcOffset now + j)
  = Reports.fromLocal utcOffset
      (n + (monthStart (monthIndex n + j) - monthStart (monthIndex n))) tod.
Proof.
  unfold Reports.setMonth, Moment.year, Moment.month, Moment.date, monthIndex.
  pose proof (all_enclosed n) as H. unfold enclosed in H.
  destruct (Moment.civil_from_days n) as [[y m] d]. cbn [fst snd].
  destruct H as (_ & _ & Hn & _). f_equal.
  rewrite MakeDay_index in Hn. rewrite MakeDay_index.
  replace d with (1 + (d - 1)) in * by lia. rewrite MakeDay_date in *.
  unfold monthStart.
  replace (12 * y + (m - 1 + j)) with (12 * y + m - 1 + j) by lia.
  replace (12 * y + (m - 1)) with (12 * y + m - 1) in Hn by lia. lia.
Qed.

Lemma setHours_fromLocal day time hour minute :
  0 <= time < Moment.MS_PER_DAY ->
  Reports.setHours utcOffset (Reports.fromLocal utcOffset day time) hour minute
  = Reports.fromLocal utcOffset day
      (hour * Reports.MS_PER_HOUR + minute * Moment.MS_PER_MINUTE).
Proof. intros Ht. unfold Reports.setHours. now rewrite localDay_fromLocal. Qed.

(** The next run when the date moved by [k] days *)
Lemma ahead_by k hour minute :
  0 <= hour <= 23 -> 0 <= minute <= 59 ->
  let next := Reports.fromLocal utcOffset (n + k)
                (hour * Reports.MS_PER_HOUR + minute * Moment.MS_PER_MINUTE) in
  (k - 1) * Moment.MS_PER_DAY < next - now < (k + 1) * Moment.MS_PER_DAY.
Proof.
  intros Hh Hm next. destruct now_split as [Hnow Htod]. unfold next.
  set (d := Moment.localDay utcOffset now) in *.
  set (r := Reports.timeWithinDay utcOffset now) in *.
  unfold Reports.fromLocal in *.
  unfold Reports.MS_PER_HOUR, Moment.MS_PER_MINUTE, Moment.MS_PER_DAY in *. lia.
Qed.

End NextRun.

Lemma month_spans k : 28 <= monthStart (k + 1) - monthStart k <= 31.
Proof. exact (proj1 (all_spans k)). Qed.

(** X28: the next run of a scheduled report lies ahead of the moment it is
    computed at, for each of the four frequencies of the schema and any
    time of day: less than two days ahead for a daily report, between six
    and eight days for a weekly one, between 27 and 32 days for a monthly
    one and between 83 and 94 days for a quarterly one. *)
Theorem next_run_lies_ahead utcOffset frequency hour minute now :
  frequency ∈ Reports.frequencies ->
  0 <= hour <= 23 -> 0 <= minute <= 59 ->
  let ahead := Reports.nextRun utcOffset frequency hour minute now - now in
  let days k := k * Moment.MS_PER_DAY in
  0 < ahead /\
  (frequency = "daily" -> ahead < days 2) /\
  (frequency = "weekly" -> days 6 < ahead < days 8) /\
  (frequency = "monthly" -> days 27 < ahead < days 32) /\
  (frequency = "quarterly" -> days 83 < ahead < days 94).
Proof.
  intros Hf Hh Hm. cbv zeta.
  destruct (now_split utcOffset now) as [_ Htod].
  pose proof (month_spans (monthIndex (Moment.localDay utcOffset now))) as M1.
  pose proof (month_spans (monthIndex (Moment.localDay utcOffset now) + 1)) as M2.
  pose proof (month_spans (monthIndex (Moment.localDay utcOffset now) + 2)) as M3.
  replace (monthIndex (Moment.localDay utcOffset now) + 1 + 1)
    with (monthIndex (Moment.localDay utcOffset now) + 2) in M2 by lia.
  replace (monthIndex (Moment.localDay utcOffset now) + 2 + 1)
    with (monthIndex (Moment.localDay utcOffset now) + 3) in M3 by lia.
  unfold Reports.frequencies in Hf. unfold Reports.nextRun.
  repeat (apply elem_of_cons in Hf as [->|Hf]); [..|now apply elem_of_nil in Hf];
    cbn [String.eqb Ascii.eqb Bool.eqb andb];
    rewrite ?setDate_day, ?setMonth_day, setHours_fromLocal by exact Htod;
    match goal with
    | |- context [Reports.fromLocal utcOffset (_ + ?k) _] =>
        pose proof (ahead_by utcOffset now k hour minute Hh Hm) as H; cbv zeta in H
    end;
    unfold Moment.MS_PER_DAY in *;
    (split; [lia|]);
    (split; [intros E; try discriminate E; lia|]);
    (split; [intros E; try discriminate E; lia|]);
    (split; intros E; try discriminate E; lia).
Qed.

Lemma next_run_lies_ahead_witness :
  Reports.nextRun 180 "monthly" 6 30 1706713200000 = 1709350200000 /\
  0 < Reports.nextRun 180 "monthly" 6 30 1706713200000 - 1706713200000.
Proof.
  split; [vm_compute; reflexivity|].
  refine (proj1 (next_run_lies_ahead 180 "monthly" 6 30 1706713200000 _ _ _)).
  - unfold Reports.frequencies. apply list_elem_of_further, list_elem_of_further, list_elem_of_here.
  - lia.
  - lia.
Defined.

(** X29: a scheduled run for a period kind that is not recognised, with
    the database at hand, does not throw and writes no document: the
    platform-wide feedback aggregation throws the invalid-period error, the
    handler of the run catches it, and its error entry is the last of the
    log. *)
Theorem scheduled_run_of_unknown_period p w :
  healthy w ->
  p ∉ MetricsController.periods ->
  let w' := snd (runScheduledAggregation p w) in
  fst (runScheduledAggregation p w) = Ok tt /\
  feedbackMetrics w' = feedbackMetrics w /\ userMetrics w' = userMetrics w /\
  last (log w')
  = Some (note Logger.error
            ("Error running scheduled " ++ p ++ " aggregation: Invalid period: " ++ p)
            None).
Proof.
  intros Hh Hp. rewrite runScheduledAggregation_unfold. cbv zeta. rewrite Hh.
  rewrite aggregateFeedbackMetrics_unfold. cbv zeta. world_fields.
  rewrite (invalid_period_throws _ _ _ _ Hp).
  cbn [fst snd feedbackMetrics userMetrics log setLog error_message].
  repeat split. apply last_snoc.
Qed.

Lemma scheduled_run_of_unknown_period_witness :
  healthy Samples.world /\
  ("hourly" ∉ MetricsController.periods) /\
  feedbackMetrics (snd (runScheduledAggregation "hourly" Samples.world))
  = feedbackMetrics Samples.world.
Proof.
  assert (Hh : healthy Samples.world) by (intros call; reflexivity).
  assert (Hp : "hourly" ∉ MetricsController.periods).
  { unfold MetricsController.periods. rewrite !not_elem_of_cons.
    repeat split; try discriminate. apply not_elem_of_nil. }
  split; [exact Hh|]. split; [exact Hp|].
  exact (proj1 (proj2 (scheduled_run_of_unknown_period "hourly" Samples.world Hh Hp))).
Defined.

(** ** The order of the time statistics *)

Lemma somes_Some {A} (l : list A) : somes (List.map Some l) = l.
Proof.
  unfold somes. induction l as [|a l IH]; [reflexivity|].
  cbn [List.map omap list_omap]. cbn. now rewrite IH.
Qed.

Lemma fold_min_le x xs y : y ∈ x :: xs -> fold_right Z.min x xs <= y.
Proof.
  intros Hy.
  assert (H : fold_right Z.min x xs <= x /\ forall z, z ∈ xs -> fold_right Z.min x xs <= z).
  { clear Hy. induction xs as [|a xs [IH1 IH2]]; cbn [fold_right].
    - split; [lia|]. intros z Hz. now apply elem_of_nil in Hz.
    - split; [lia|]. intros z Hz. apply elem_of_cons in Hz as [E|Hz].
      + subst z. lia.
      + specialize (IH2 z Hz). lia. }
  destruct H as [H1 H2]. apply elem_of_cons in Hy as [E|Hy].
  - now subst y.
  - now apply H2.
Qed.

Lemma fold_max_ge x xs y : y ∈ x :: xs -> y <= fold_right Z.max x xs.
Proof.
  intros Hy.
  assert (H : x <= fold_right Z.max x xs /\ forall z, z ∈ xs -> z <= fold_right Z.max x xs).
  { clear Hy. induction xs as [|a xs [IH1 IH2]]; cbn [fold_right].
    - split; [lia|]. intros z Hz. now apply elem_of_nil in Hz.
    - split; [lia|]. intros z Hz. apply elem_of_cons in Hz as [E|Hz].
      + subst z. lia.
      + specialize (IH2 z Hz). lia. }
  destruct H as [H1 H2]. apply elem_of_cons in Hy as [E|Hy].
  - now subst y.
  - now apply H2.
Qed.

(** In a sorted list a later place holds no less than an earlier one. *)
Lemma sorted_nth l : Sorted Z.le l ->
  forall i j, (i <= j < length l)%nat -> nth i l 0 <= nth j l 0.
Proof.
  intros Hs. apply Sorted_StronglySorted in Hs; [|intros a b c; lia].
  induction Hs as [|a l Hs IH Hall]; intros i j Hij; [cbn in Hij; lia|].
  destruct i as [|i], j as [|j]; cbn [nth length] in *; try lia.
  - rewrite List.Forall_forall in Hall. apply Hall, nth_In. lia.
  - apply IH. lia.
Qed.

Lemma nth_elem (l : list Z) i : (i < length l)%nat -> nth i l 0 ∈ l.
Proof. intros Hi. apply list_elem_of_In, nth_In, Hi. Qed.

Lemma fold_min_elem x xs : fold_right Z.min x xs ∈ x :: xs.
Proof.
  induction xs as [|a xs IH]; cbn [fold_right]; [apply list_elem_of_here|].
  destruct (Z.min_spec a (fold_right Z.min x xs)) as [[_ ->]|[_ ->]].
  - apply list_elem_of_further, list_elem_of_here.
  - apply elem_of_cons in IH as [E|IH]; [rewrite E; apply list_elem_of_here|].
    now apply list_elem_of_further, list_elem_of_further.
Qed.

Lemma fold_max_elem x xs : fold_right Z.max x xs ∈ x :: xs.
Proof.
  induction xs as [|a xs IH]; cbn [fold_right]; [apply list_elem_of_here|].
  destruct (Z.max_spec a (fold_right Z.max x xs)) as [[_ ->]|[_ ->]].
  - apply elem_of_cons in IH as [E|IH]; [rewrite E; apply list_elem_of_here|].
    now apply list_elem_of_further, list_elem_of_further.
  - apply list_elem_of_further, list_elem_of_here.
Qed.

(** X30: for durations that are all present, the statistics of a time
    block are those of the samples in ascending order: the minimum and the
    maximum are the least and the greatest sample, the median is the
    middle sample of the ascending list for an odd number of samples and
    the mean of the two middle ones for an even number, the 95th
    percentile is the sample at the place [ceil(0.95 n) - 1] of the list,
    and they are in this order: min <= lower middle <= upper middle <=
    percentile95 <= max. *)
Theorem time_statistics_are_ordered x xs :
  let samples := x :: xs in
  let n := Z.of_nat (length samples) in
  let m := processTimes (timeGroup (List.map Some samples)) in
  exists ascending lo hi,
    Sorted Z.le ascending /\ Permutation ascending samples /\
    lo ∈ samples /\ hi ∈ samples /\
    Forall (fun v => lo <= v <= hi) samples /\
    let place i := nth (Z.to_nat i) ascending 0 in
    let lower := if n mod 2 =? 0 then place (n / 2 - 1) else place (n / 2) in
    let upper := place (n / 2) in
    let p := place (p95Index n) in
    tm_min m = sample lo /\ tm_max m = sample hi /\
    tm_percentile95 m = sample p /\
    tm_median m
    = (if n mod 2 =? 0
       then JS.VNum (JS.div (JS.add (JS.ofZ lower) (JS.ofZ upper)) (JS.ofZ 2))
       else sample upper) /\
    lo <= lower <= upper /\ upper <= p <= hi.
Proof.
  intros samples n m.
  destruct (processTimes_samples x xs) as [Hmed Hp95]. fold samples n m in Hmed, Hp95.
  set (sorted := sortZ samples) in *.
  assert (Hn : 1 <= n) by (unfold n, samples; cbn [length]; lia).
  assert (Hlen : Z.of_nat (length sorted) = n) by (unfold sorted; now rewrite sortZ_length).
  pose proof (p95Index_spec n Hn) as [Hk Hidx].
  pose proof (Z.div_mod n 2 ltac:(lia)) as Hdiv.
  pose proof (Z.mod_pos_bound n 2 ltac:(lia)) as Hmod.
  assert (Hin : forall i, (i < length sorted)%nat -> nth i sorted 0 ∈ samples).
  { intros i Hi. rewrite <- (sortZ_perm samples). now apply nth_elem. }
  pose proof (sorted_nth sorted (sortZ_sorted samples)) as Hmono.
  exists sorted, (fold_right Z.min x xs), (fold_right Z.max x xs).
  split; [apply sortZ_sorted|]. split; [apply sortZ_perm|].
  split; [apply fold_min_elem|]. split; [apply fold_max_elem|].
  split.
  { apply List.Forall_forall. intros v Hv. apply list_elem_of_In in Hv.
    split; [now apply fold_min_le|now apply fold_max_ge]. }
  cbv zeta.
  split.
  { unfold m, samples. cbn [List.map timeGroup processTimes tg_values tg_min tm_min].
    unfold Mongo.min. change (Some x :: List.map Some xs) with (List.map Some (x :: xs)).
    rewrite somes_Some. apply orZero_sample. }
  split.
  { unfold m, samples. cbn [List.map timeGroup processTimes tg_values tg_max tm_max].
    unfold Mongo.max. change (Some x :: List.map Some xs) with (List.map Some (x :: xs)).
    rewrite somes_Some. apply orZero_sample. }
  split; [exact Hp95|].
  split.
  { rewrite Hmed. destruct (n mod 2 =? 0); reflexivity. }
  split; [split|split].
  - destruct (n mod 2 =? 0); apply fold_min_le, Hin; lia.
  - destruct (Z.eqb_spec (n mod 2) 0); [|lia]. apply Hmono. lia.
  - apply Hmono. lia.
  - apply fold_max_ge, Hin. lia.
Qed.

(** The durations 9, 1, 7, 3, 5: minimum 1, median 5, 95th percentile and
    maximum 9. *)
Example time_statistics_sample :
  let m := processTimes (timeGroup (List.map Some [9; 1; 7; 3; 5])) in
  tm_min m = sample 1 /\ tm_median m = sample 5 /\
  tm_percentile95 m = sample 9 /\ tm_max m = sample 9.
Proof. repeat split; vm_compute; reflexivity. Qed.
